(** * HTML pages: lifecycle, registry and render memoization

    A shallow embedding of [src/html-pages/html-page-base.ts] (class
    [HtmlPageBase]) together with the way a concrete page type uses it
    ([TournamentPointsShop]: one [pages] dictionary per page type, handed to
    every constructor call).

    Page objects live in a heap and are addressed by reference, because the
    [pages] dictionary, the constructor and [onRenameUser] all share them.
    Calls on the room (the transport) are recorded in a trace.  Methods run in
    a state monad over the world that can also raise a JavaScript error. *)

From stdpp Require Import base option list strings gmap.

Local Open Scope string_scope.

(** ** Collaborators' data *)

(** [Room]: the members the page base reads ([room.alias || room.id]). *)
Record Room := { room_id : string; room_alias : option string; room_title : string }.

(** [User]: what [Users.get] returns.  The constructor and [setUser] also take
    a [Player]; they read the same two members of it. *)
Record User := { id : string; name : string }.

(** [ComponentBase]: the members [HtmlPageBase] touches. *)
Record ComponentBase := { componentCommand : string; active : bool }.

(** [IQuietPMButtonOptions]: every member is optional ([None] is [undefined]). *)
Record IQuietPMButtonOptions := {
  disabled : option bool;
  enabledReadonly : option bool;
  selected : option bool;
  selectedAndDisabled : option bool;
  style : option string
}.

Definition CLOSE_COMMAND : string := "closehtmlpage".
Definition SWITCH_LOCATION_COMMAND : string := "switchhtmlpagelocation".

(** ** JavaScript truthiness *)

(** An optional boolean used as a condition: [undefined] and [false] are falsy. *)
Definition truthy (b : option bool) : bool := default false b.

(** A string used as a condition: only the empty string is falsy. *)
Definition nonEmpty (s : string) : bool := negb (String.eqb s "").

(** [a || b] on optional booleans: [a] when it is truthy, otherwise [b]. *)
Definition js_or (a b : option bool) : option bool := if truthy a then a else b.

(** [s.endsWith(t)]. *)
Definition endsWith (s t : string) : bool :=
  Nat.leb (String.length t) (String.length s)
  && String.eqb (String.substring (String.length s - String.length t) (String.length t) s) t.

(** ** Plain objects used as dictionaries

    The page type's dictionary is a plain object ([pages = {}]), and so are
    the tables of the configuration.  The [in] operator answers for the keys
    stored in such an object and also for the members every plain object
    inherits from [Object.prototype]; reading one of those names where no key
    of that name was stored yields the inherited member, a built-in function
    or object. *)
Definition objectPrototypeMembers : list string :=
  ["constructor"; "hasOwnProperty"; "isPrototypeOf"; "propertyIsEnumerable";
   "toLocaleString"; "toString"; "valueOf"; "__proto__";
   "__defineGetter__"; "__defineSetter__"; "__lookupGetter__"; "__lookupSetter__"].

Definition inherited (key : string) : bool :=
  existsb (String.eqb key) objectPrototypeMembers.

Global Arguments inherited : simpl never.

(** [key in dict]. *)
Definition hasKey {A : Type} (dict : gmap string A) (key : string) : bool :=
  match dict !! key with
  | Some _ => true
  | None => inherited key
  end.

(** ** The page object *)

(** The properties of an [HtmlPageBase] while [closed] is [false].  The
    [pageList] property is the page type's dictionary, kept in the world. *)
Record HtmlPageBase := {
  pageId : string;
  baseChatUhtmlName : string;
  chatUhtmlName : string;
  closeButtonHtml : string;
  components : list ComponentBase;
  globalRoomPage : bool;
  lastRender : string;
  readonly : bool;
  showSwitchLocationButton : bool;
  switchLocationButtonHtml : string;
  usedCommandAfterLastRender : bool;
  baseCommand : string;
  commandPrefix : string;
  room : Room;
  isRoomStaff : bool;
  userName : string;
  userId : string
}.

(** A page object.  [closed] starts as [false] and is written in [destroy]
    only, directly before [Tools.unrefProperties] clears the other
    properties, so an object has [closed = true] exactly when all that is
    left of it are [closed], [pageId], [userName] and [userId]: [Destroyed]
    is such an object, [Live] one with [closed = false]. *)
Inductive Page :=
| Live (p : HtmlPageBase)
| Destroyed (pageId_ userName_ userId_ : string).

Definition closed (o : Page) : bool :=
  match o with Live _ => false | Destroyed _ _ _ => true end.

Definition pageId_of (o : Page) : string :=
  match o with Live p => pageId p | Destroyed i _ _ => i end.

Definition userName_of (o : Page) : string :=
  match o with Live p => userName p | Destroyed _ n _ => n end.

Definition userId_of (o : Page) : string :=
  match o with Live p => userId p | Destroyed _ _ u => u end.

(** Modelled from the spec: [Tools.unrefProperties] is not among the sources.
    The specification says of [destroy] that it "marks closed = true, and
    releases/clears all other instance state except the minimal identity
    fields needed for diagnostics (pageId, userName, userId)"; the call is
    [Tools.unrefProperties(this, ['closed', 'pageId', 'userName', 'userId'])],
    made right after [this.closed = true]. *)
Definition unrefProperties (p : HtmlPageBase) : Page :=
  Destroyed (pageId p) (userName p) (userId p).

(** Property writes. *)
Definition set_chatUhtmlName (v : string) (p : HtmlPageBase) : HtmlPageBase :=
  {| pageId := pageId p; baseChatUhtmlName := baseChatUhtmlName p; chatUhtmlName := v;
     closeButtonHtml := closeButtonHtml p; components := components p;
     globalRoomPage := globalRoomPage p; lastRender := lastRender p; readonly := readonly p;
     showSwitchLocationButton := showSwitchLocationButton p;
     switchLocationButtonHtml := switchLocationButtonHtml p;
     usedCommandAfterLastRender := usedCommandAfterLastRender p;
     baseCommand := baseCommand p; commandPrefix := commandPrefix p; room := room p;
     isRoomStaff := isRoomStaff p; userName := userName p; userId := userId p |}.

Definition set_closeButtonHtml (v : string) (p : HtmlPageBase) : HtmlPageBase :=
  {| pageId := pageId p; baseChatUhtmlName := baseChatUhtmlName p;
     chatUhtmlName := chatUhtmlName p; closeButtonHtml := v; components := components p;
     globalRoomPage := globalRoomPage p; lastRender := lastRender p; readonly := readonly p;
     showSwitchLocationButton := showSwitchLocationButton p;
     switchLocationButtonHtml := switchLocationButtonHtml p;
     usedCommandAfterLastRender := usedCommandAfterLastRender p;
     baseCommand := baseCommand p; commandPrefix := commandPrefix p; room := room p;
     isRoomStaff := isRoomStaff p; userName := userName p; userId := userId p |}.

Definition set_switchLocationButtonHtml (v : string) (p : HtmlPageBase) : HtmlPageBase :=
  {| pageId := pageId p; baseChatUhtmlName := baseChatUhtmlName p;
     chatUhtmlName := chatUhtmlName p; closeButtonHtml := closeButtonHtml p;
     components := components p; globalRoomPage := globalRoomPage p;
     lastRender := lastRender p; readonly := readonly p;
     showSwitchLocationButton := showSwitchLocationButton p;
     switchLocationButtonHtml := v;
     usedCommandAfterLastRender := usedCommandAfterLastRender p;
     baseCommand := baseCommand p; commandPrefix := commandPrefix p; room := room p;
     isRoomStaff := isRoomStaff p; userName := userName p; userId := userId p |}.

Definition set_lastRender (v : string) (p : HtmlPageBase) : HtmlPageBase :=
  {| pageId := pageId p; baseChatUhtmlName := baseChatUhtmlName p;
     chatUhtmlName := chatUhtmlName p; closeButtonHtml := closeButtonHtml p;
     components := components p; globalRoomPage := globalRoomPage p;
     lastRender := v; readonly := readonly p;
     showSwitchLocationButton := showSwitchLocationButton p;
     switchLocationButtonHtml := switchLocationButtonHtml p;
     usedCommandAfterLastRender := usedCommandAfterLastRender p;
     baseCommand := baseCommand p; commandPrefix := commandPrefix p; room := room p;
     isRoomStaff := isRoomStaff p; userName := userName p; userId := userId p |}.

Definition set_usedCommandAfterLastRender (v : bool) (p : HtmlPageBase) : HtmlPageBase :=
  {| pageId := pageId p; baseChatUhtmlName := baseChatUhtmlName p;
     chatUhtmlName := chatUhtmlName p; closeButtonHtml := closeButtonHtml p;
     components := components p; globalRoomPage := globalRoomPage p;
     lastRender := lastRender p; readonly := readonly p;
     showSwitchLocationButton := showSwitchLocationButton p;
     switchLocationButtonHtml := switchLocationButtonHtml p;
     usedCommandAfterLastRender := v;
     baseCommand := baseCommand p; commandPrefix := commandPrefix p; room := room p;
     isRoomStaff := isRoomStaff p; userName := userName p; userId := userId p |}.

Definition set_userName (v : string) (p : HtmlPageBase) : HtmlPageBase :=
  {| pageId := pageId p; baseChatUhtmlName := baseChatUhtmlName p;
     chatUhtmlName := chatUhtmlName p; closeButtonHtml := closeButtonHtml p;
     components := components p; globalRoomPage := globalRoomPage p;
     lastRender := lastRender p; readonly := readonly p;
     showSwitchLocationButton := showSwitchLocationButton p;
     switchLocationButtonHtml := switchLocationButtonHtml p;
     usedCommandAfterLastRender := usedCommandAfterLastRender p;
     baseCommand := baseCommand p; commandPrefix := commandPrefix p; room := room p;
     isRoomStaff := isRoomStaff p; userName := v; userId := userId p |}.

Definition set_userId (v : string) (p : HtmlPageBase) : HtmlPageBase :=
  {| pageId := pageId p; baseChatUhtmlName := baseChatUhtmlName p;
     chatUhtmlName := chatUhtmlName p; closeButtonHtml := closeButtonHtml p;
     components := components p; globalRoomPage := globalRoomPage p;
     lastRender := lastRender p; readonly := readonly p;
     showSwitchLocationButton := showSwitchLocationButton p;
     switchLocationButtonHtml := switchLocationButtonHtml p;
     usedCommandAfterLastRender := usedCommandAfterLastRender p;
     baseCommand := baseCommand p; commandPrefix := commandPrefix p; room := room p;
     isRoomStaff := isRoomStaff p; userName := userName p; userId := v |}.

Definition set_isRoomStaff (v : bool) (p : HtmlPageBase) : HtmlPageBase :=
  {| pageId := pageId p; baseChatUhtmlName := baseChatUhtmlName p;
     chatUhtmlName := chatUhtmlName p; closeButtonHtml := closeButtonHtml p;
     components := components p; globalRoomPage := globalRoomPage p;
     lastRender := lastRender p; readonly := readonly p;
     showSwitchLocationButton := showSwitchLocationButton p;
     switchLocationButtonHtml := switchLocationButtonHtml p;
     usedCommandAfterLastRender := usedCommandAfterLastRender p;
     baseCommand := baseCommand p; commandPrefix := commandPrefix p; room := room p;
     isRoomStaff := v; userName := userName p; userId := userId p |}.

(** ** Effects *)

(** Calls on the room (the transport) and on components, in program order.
    [ComponentBase] is outside the sources: [component.destroy()] is recorded
    as a call and has no other effect here. *)
Inductive Event :=
| SendHtmlPage (r : Room) (u : User) (pageId_ html : string)
| SayPrivateUhtml (r : Room) (u : User) (uhtmlName html : string)
| CloseHtmlPage (r : Room) (u : User) (pageId_ : string)
| ComponentDestroy (c : ComponentBase).

(** The overlay call ([sayPrivateUhtml]). *)
Definition isOverlayCall (e : Event) : bool :=
  match e with SayPrivateUhtml _ _ _ _ => true | _ => false end.

(** A delivery of content is one of the two calls [send] chooses between. *)
Definition isDelivery (e : Event) : bool :=
  match e with SendHtmlPage _ _ _ _ | SayPrivateUhtml _ _ _ _ => true | _ => false end.

Definition isRetraction (e : Event) : bool :=
  match e with CloseHtmlPage _ _ _ => true | _ => false end.

Definition deliveries (t : list Event) : nat := length (filter (fun e => isDelivery e = true) t).
Definition retractions (t : list Event) : nat := length (filter (fun e => isRetraction e = true) t).

(** What a call can raise: [new Error(msg)], or the [TypeError] of using
    [undefined] as an object or of calling what is no function. *)
Inductive Exception :=
| Error (message : string)
| TypeError.

(** ** Collaborators and the concrete page type *)

(** What the base class calls outside itself: [Config.commandCharacter],
    [user.hasRank(room, rank)], [user.isDeveloper()] and the button builder
    [Client.getQuietPmButton(room, message, label, disabled, style)]. *)
Class Collaborators := {
  commandCharacter : string;
  hasRank : User -> Room -> string -> bool;
  isDeveloper : User -> bool;
  Client_getQuietPmButton : Room -> string -> string -> option bool -> string -> string
}.

(** What a concrete page type adds to the abstract class: its own state [Ext]
    (the subclass's members and the data stores it reads), the abstract
    [render], and the optional hooks ([None] when the subclass does not define
    the method).  Hooks read the page and work on [Ext]; they make no calls on
    the base class. *)
Class PageType := {
  Ext : Type;
  render : option bool -> HtmlPageBase -> Ext -> string;
  beforeSend : option (option bool -> HtmlPageBase -> Ext -> bool);
  onClose : option (HtmlPageBase -> Ext -> Ext);
  onSend : option (option bool -> HtmlPageBase -> Ext -> Ext)
}.

(** ** Button construction (pure in [this]) *)

Section Buttons.
Context `{Collaborators}.

(** The [disabled] argument [getQuietPmButton] computes (lines 175-176). *)
Definition quietPmButtonDisabled (this : HtmlPageBase)
    (options : option IQuietPMButtonOptions) : option bool :=
  match options with
  | None => None
  | Some o =>
      let d := js_or (disabled o) (selectedAndDisabled o) in
      if negb (truthy d) && negb (truthy (enabledReadonly o)) && readonly this
      then Some true else d
  end.

(** [options && options.style ? options.style : ""]. *)
Definition quietPmButtonBaseStyle (options : option IQuietPMButtonOptions) : string :=
  match options with
  | Some o => match style o with
              | Some s => if nonEmpty s then s else ""
              | None => ""
              end
  | None => ""
  end.

(** [options && (options.selected || options.selectedAndDisabled)]. *)
Definition quietPmButtonHighlighted (options : option IQuietPMButtonOptions) : bool :=
  match options with
  | Some o => truthy (js_or (selected o) (selectedAndDisabled o))
  | None => false
  end.

(** The [style] argument [getQuietPmButton] computes (lines 178-182). *)
Definition quietPmButtonStyle (options : option IQuietPMButtonOptions) : string :=
  let style0 := quietPmButtonBaseStyle options in
  if quietPmButtonHighlighted options then
    (if nonEmpty style0 && negb (endsWith style0 ";") then style0 +:+ ";" else style0)
    +:+ "border-color: #ffffff;"
  else style0.

Definition getQuietPmButton (this : HtmlPageBase) (message label : string)
    (options : option IQuietPMButtonOptions) : string :=
  Client_getQuietPmButton (room this) message label
    (quietPmButtonDisabled this options) (quietPmButtonStyle options).

Definition setCloseButton (options : option IQuietPMButtonOptions)
    (this : HtmlPageBase) : HtmlPageBase :=
  if nonEmpty (chatUhtmlName this) then set_closeButtonHtml "" this
  else set_closeButtonHtml
         (getQuietPmButton this
            (commandPrefix this +:+ (if globalRoomPage this then " " else ", ")
             +:+ CLOSE_COMMAND)
            "Close page" options) this.

Definition setSwitchLocationButton (this : HtmlPageBase) : HtmlPageBase :=
  if showSwitchLocationButton this then
    set_switchLocationButtonHtml
      (getQuietPmButton this
         (commandPrefix this +:+ (if globalRoomPage this then " " else ", ")
          +:+ SWITCH_LOCATION_COMMAND)
         ("Move to " +:+ (if nonEmpty (chatUhtmlName this) then "HTML page" else "chat"))
         None) this
  else set_switchLocationButtonHtml "" this.

(** [setUser]: [users] is the directory [Users.get] at the time of the call. *)
Definition setUser (users : string -> option User) (userOrPlayer : User)
    (this : HtmlPageBase) : HtmlPageBase :=
  let this1 := set_userId (id userOrPlayer) (set_userName (name userOrPlayer) this) in
  set_isRoomStaff
    (match users (name userOrPlayer) with
     | Some user => hasRank user (room this1) "driver" || isDeveloper user
     | None => false
     end) this1.
End Buttons.

(** The [disabled] value in the specification's words for
    [buildQuietButton]: (options.disabled or options.selectedAndDisabled) or
    (readonly and not options.enabledReadonly), where an option that was not
    given is not set. *)
Definition specDisabled (this : HtmlPageBase)
    (options : option IQuietPMButtonOptions) : bool :=
  (truthy (options ≫= disabled) || truthy (options ≫= selectedAndDisabled))
  || (readonly this && negb (truthy (options ≫= enabledReadonly))).

Global Arguments getQuietPmButton : simpl never.
Global Arguments setCloseButton : simpl never.
Global Arguments setSwitchLocationButton : simpl never.
Global Arguments setUser : simpl never.

(** ** The world and the method monad *)

Section Methods.
Context `{Collaborators} `{PageType}.

(** Everything a method can read or write: the page objects (by reference),
    the page type's dictionary [pageList] (user id to page reference; it is
    the [pageList] property of every page constructed with it), the
    directory behind [Users.get], the calls made so far on the transport,
    and the page type's own state.  The dictionary is a finite map on the
    keys that were stored in it; its [in] test is [hasKey], which also
    answers for the members a plain object inherits. *)
Record World := {
  heap : list Page;
  pageList : gmap string nat;
  Users_get : string -> option User;
  trace : list Event;
  ext : Ext
}.

Definition set_heap (v : list Page) (w : World) : World :=
  {| heap := v; pageList := pageList w; Users_get := Users_get w;
     trace := trace w; ext := ext w |}.
Definition set_pageList (v : gmap string nat) (w : World) : World :=
  {| heap := heap w; pageList := v; Users_get := Users_get w;
     trace := trace w; ext := ext w |}.
Definition set_trace (v : list Event) (w : World) : World :=
  {| heap := heap w; pageList := pageList w; Users_get := Users_get w;
     trace := v; ext := ext w |}.
Definition set_ext (v : Ext) (w : World) : World :=
  {| heap := heap w; pageList := pageList w; Users_get := Users_get w;
     trace := trace w; ext := v |}.

(** A call returns normally with a value, or raises; either way it leaves a
    world behind. *)
Inductive result (A : Type) :=
| Ok (a : A) (w : World)
| Throw (e : Exception) (w : World).
Global Arguments Ok {A} a w.
Global Arguments Throw {A} e w.

Definition world_of {A} (r : result A) : World :=
  match r with Ok _ w => w | Throw _ w => w end.

Definition M (A : Type) : Type := World -> result A.

Global Instance M_ret : MRet M := fun A a w => Ok a w.
Global Instance M_bind : MBind M := fun A B k m w =>
  match m w with
  | Ok a w' => k a w'
  | Throw e w' => Throw e w'
  end.

Definition get : M World := fun w => Ok w w.
Definition modify (f : World -> World) : M unit := fun w => Ok tt (f w).
Definition throw {A} (e : Exception) : M A := fun w => Throw e w.

(** Dereferencing a page reference.  References are created by the
    constructor only and objects are never freed, so a dangling one does
    not arise; it is mapped to [TypeError]. *)
Definition readObj (this : nat) : M Page := fun w =>
  match heap w !! this with
  | Some o => Ok o w
  | None => Throw TypeError w
  end.

Definition writeObj (this : nat) (o : Page) : M unit :=
  modify (fun w => set_heap (<[this := o]> (heap w)) w).

Definition emit (e : Event) : M unit :=
  modify (fun w => set_trace (trace w ++ [e]) w).

Definition runHook (h : option (Ext -> Ext)) : M unit :=
  match h with
  | Some f => modify (fun w => set_ext (f (ext w)) w)
  | None => mret tt
  end.

(** *** [destroy] *)
Definition destroy (this : nat) : M unit :=
  o ← readObj this;
  match o with
  | Destroyed _ _ _ => throw TypeError (* iterating [undefined] components *)
  | Live p =>
      modify (fun w => set_trace (trace w ++ (ComponentDestroy <$> components p)) w);;
      modify (fun w => set_pageList (delete (userId p) (pageList w)) w);;
      writeObj this (unrefProperties p)
  end.

(** *** [send] *)

(** [this.beforeSend && !this.beforeSend(onOpen)]. *)
Definition vetoed (onOpen : option bool) (p : HtmlPageBase) (e : Ext) : bool :=
  match beforeSend with
  | Some guard => negb (guard onOpen p e)
  | None => false
  end.
Global Arguments vetoed : simpl never.

Definition send (this : nat) (onOpen : option bool) : M unit :=
  o ← readObj this;
  match o with
  | Destroyed _ _ _ => mret tt
  | Live p =>
      w ← get;
      if vetoed onOpen p (ext w) then mret tt
      else
        match Users_get w (userId p) with
        | None => mret tt
        | Some user =>
            let render_ := render onOpen p (ext w) in
            if String.eqb render_ (lastRender p) && negb (usedCommandAfterLastRender p)
            then mret tt
            else
              let p' := set_usedCommandAfterLastRender false (set_lastRender render_ p) in
              writeObj this (Live p');;
              (if nonEmpty (chatUhtmlName p')
               then emit (SayPrivateUhtml (room p') user (chatUhtmlName p') render_)
               else emit (SendHtmlPage (room p') user (pageId p') render_));;
              runHook ((fun f => f onOpen p') <$> onSend)
        end
  end.

(** *** [open] *)
Definition open (this : nat) : M unit := send this (Some true).

(** *** [close] *)
Definition close (this : nat) : M unit :=
  o ← readObj this;
  match o with
  | Destroyed pageId_ _ userId_ =>
      throw (Error (pageId_ +:+ " page already closed for user " +:+ userId_))
  | Live p =>
      w ← get;
      match Users_get w (userId p) with
      | Some user => emit (CloseHtmlPage (room p) user (pageId p))
      | None => mret tt
      end;;
      runHook ((fun f => f p) <$> onClose);;
      destroy this
  end.

(** *** [tryClose] *)
Definition tryClose (this : nat) : M unit :=
  o ← readObj this;
  if negb (closed o) then close this else mret tt.

(** *** [temporarilyClose] *)
Definition temporarilyClose (this : nat) : M unit :=
  o ← readObj this;
  w ← get;
  match Users_get w (userId_of o) with
  | Some user =>
      match o with
      | Live p => emit (CloseHtmlPage (room p) user (pageId p))
      | Destroyed _ _ _ => throw TypeError (* [this.room] is [undefined] *)
      end
  | None => mret tt
  end.

(** *** [switchLocation]
    On a destroyed object the method would build the close button through
    [this.room], which is [undefined]; that call is mapped to [TypeError]. *)
Definition switchLocation (this : nat) : M unit :=
  o ← readObj this;
  match o with
  | Destroyed _ _ _ => throw TypeError
  | Live p =>
      let closeHtmlPage := negb (nonEmpty (chatUhtmlName p)) in
      let p1 :=
        if nonEmpty (chatUhtmlName p) then set_chatUhtmlName "" p
        else set_chatUhtmlName (baseChatUhtmlName p) p in
      let p2 := set_usedCommandAfterLastRender true p1 in
      let p3 := setSwitchLocationButton p2 in
      let p4 := setCloseButton None p3 in
      writeObj this (Live p4);;
      send this None;;
      o' ← readObj this;
      w ← get;
      match Users_get w (userId_of o') with
      | Some user =>
          if closeHtmlPage then temporarilyClose this
          else
            match o' with
            | Live p' =>
                emit (SayPrivateUhtml (room p') user (baseChatUhtmlName p')
                        "<div>Successfully moved to an HTML page.</div>")
            | Destroyed _ _ _ => throw TypeError
            end
      | None => mret tt
      end
  end.

(** *** [this.pageList[key].destroy()]
    Where no page is stored under the key, the value read is [undefined] or
    an inherited member, neither of which has a [destroy] to call. *)
Definition destroyAt (key : string) : M unit :=
  w ← get;
  match pageList w !! key with
  | Some stored => destroy stored
  | None => throw TypeError
  end.

(** *** The constructor
    Returns the reference of the new object.  [pageId_] is the value the
    concrete class assigns to its [pageId] member; the members the base
    class declares start from their initializers.  Until line 51 stores it
    in the dictionary nothing refers to the object under construction
    ([setUser] and [setCloseButton] write to it alone), so it enters the
    heap there: a constructor that raises at line 50 leaves no object
    behind. *)
Definition constructor (pageId_ : string) (room_ : Room) (userOrPlayer : User)
    (baseCommand_ : string) : M nat :=
  w ← get;
  let this := length (heap w) in
  let p0 :=
    {| pageId := pageId_; baseChatUhtmlName := ""; chatUhtmlName := "";
       closeButtonHtml := ""; components := []; globalRoomPage := false;
       lastRender := ""; readonly := false; showSwitchLocationButton := false;
       switchLocationButtonHtml := ""; usedCommandAfterLastRender := false;
       baseCommand := baseCommand_;
       commandPrefix :=
         commandCharacter +:+ baseCommand_ +:+ " " +:+
         (match room_alias room_ with
          | Some a => if nonEmpty a then a else room_id room_
          | None => room_id room_
          end);
       room := room_; isRoomStaff := false; userName := ""; userId := "" |} in
  let p1 := setCloseButton None (setUser (Users_get w) userOrPlayer p0) in
  (if hasKey (pageList w) (id userOrPlayer) then destroyAt (id userOrPlayer)
   else mret tt);;
  modify (fun w => set_heap (heap w ++ [Live p1]) w);;
  modify (fun w => set_pageList (<[id userOrPlayer := this]> (pageList w)) w);;
  mret this.

(** *** [onRenameUser]
    [this.pageList] of a destroyed receiver is [undefined]: both the [in]
    test of line 123 and the [delete] of line 137 raise on it. *)
Definition onRenameUser (this : nat) (user : User) (oldId : string) : M unit :=
  o ← readObj this;
  match o with
  | Destroyed _ _ _ => throw TypeError
  | Live p =>
      w ← get;
      if negb (hasKey (pageList w) oldId) then mret tt
      else if String.eqb oldId (id user)
      then writeObj this (Live (set_userName (name user) p))
      else
        (if hasKey (pageList w) (id user) then destroyAt oldId
         else
           writeObj this (Live (setUser (Users_get w) user p));;
           modify (fun w => set_pageList (<[id user := this]> (pageList w)) w));;
        o' ← readObj this;
        match o' with
        | Destroyed _ _ _ => throw TypeError
        | Live _ => modify (fun w => set_pageList (delete oldId (pageList w)) w)
        end
  end.

(** The registry's [lookup]: the page object the dictionary holds for an
    identity. *)
Definition lookup_page (w : World) (userId_ : string) : option Page :=
  r ← pageList w !! userId_; heap w !! r.

End Methods.

(** ** Running the method monad in proofs *)

Ltac unfold_monad :=
  unfold mbind, M_bind, mret, M_ret, get, modify, throw, emit, writeObj, runHook, readObj.

Ltac run_with Hobj := unfold_monad; cbn; rewrite ?Hobj; cbn.

(** ** Derived notions used by the statements *)

(** The delivery channel a page is on: [send] tests [chatUhtmlName] for
    truthiness and uses the overlay call when it is non-empty. *)
Inductive DeliveryChannel :=
| standalone
| overlay (uhtmlName : string).

Definition deliveryChannel (p : HtmlPageBase) : DeliveryChannel :=
  if nonEmpty (chatUhtmlName p) then overlay (chatUhtmlName p) else standalone.

Section Notions.
Context `{Collaborators} `{PageType}.

(** The render a [send] call computes: lines 141-148 return before
    [render] is called when the page is closed, the guard vetoes or the
    viewer does not resolve. *)
Definition computedRender (this : nat) (onOpen : option bool) (w : World)
    : option string :=
  match heap w !! this with
  | Some (Live p) =>
      if vetoed onOpen p (ext w) then None
      else match Users_get w (userId p) with
           | Some _ => Some (render onOpen p (ext w))
           | None => None
           end
  | _ => None
  end.

(** The world a [send] leaves when it goes through to the delivery for
    the resolved viewer [user] (lines 151-160). *)
Definition deliveredWorld (this : nat) (onOpen : option bool) (p : HtmlPageBase)
    (user : User) (w : World) : World :=
  let render_ := render onOpen p (ext w) in
  let p' := set_usedCommandAfterLastRender false (set_lastRender render_ p) in
  let call :=
    if nonEmpty (chatUhtmlName p)
    then SayPrivateUhtml (room p) user (chatUhtmlName p) render_
    else SendHtmlPage (room p) user (pageId p) render_ in
  let w' := set_trace (trace w ++ [call]) (set_heap (<[this := Live p']> (heap w)) w) in
  match onSend with
  | Some f => set_ext (f onOpen p' (ext w')) w'
  | None => w'
  end.

(** The environment a call finds: the directory and the page type's own
    state may have changed since the previous call. *)
Definition setEnv (users : string -> option User) (e : Ext) (w : World) : World :=
  {| heap := heap w; pageList := pageList w; Users_get := users;
     trace := trace w; ext := e |}.

(** A sequence of [send()] calls on one page, each with its argument and
    the environment it finds. *)
Fixpoint sendAll (this : nat)
    (calls : list (option bool * (string -> option User) * Ext)) (w : World) : World :=
  match calls with
  | [] => w
  | (onOpen, users, e) :: calls' =>
      sendAll this calls' (world_of (send this onOpen (setEnv users e w)))
  end.

(** Every render computed along the sequence is [r]. *)
Fixpoint rendersAll (r : string) (this : nat)
    (calls : list (option bool * (string -> option User) * Ext)) (w : World) : Prop :=
  match calls with
  | [] => True
  | (onOpen, users, e) :: calls' =>
      (forall r', computedRender this onOpen (setEnv users e w) = Some r' -> r' = r)
      /\ rendersAll r this calls' (world_of (send this onOpen (setEnv users e w)))
  end.

(** The overlay name of the page behind a reference, if it is live. *)
Definition chatUhtmlName_at (w : World) (this : nat) : option string :=
  match heap w !! this with
  | Some (Live p) => Some (chatUhtmlName p)
  | _ => None
  end.

(** [n] calls of [switchLocation] in a row. *)
Fixpoint switchLocations (n : nat) (this : nat) (w : World) : World :=
  match n with
  | 0 => w
  | S n' => switchLocations n' this (world_of (switchLocation this w))
  end.

(** A sequence of page constructions for one page type: the reference each
    call returns and the world it leaves.  The run stops at a call that
    raises. *)
Fixpoint registerAll (pageId_ : string) (calls : list (Room * User * string))
    (w : World) : list (nat * World) :=
  match calls with
  | [] => []
  | (room_, user, baseCommand_) :: calls' =>
      match constructor pageId_ room_ user baseCommand_ w with
      | Ok this w' => (this, w') :: registerAll pageId_ calls' w'
      | Throw _ _ => []
      end
  end.

(** A page is registered under an identity when the dictionary holds it
    there and it is a live page bound to that identity. *)
Definition registered (w : World) (userId_ : string) (r : nat) (p : HtmlPageBase) : Prop :=
  pageList w !! userId_ = Some r /\ heap w !! r = Some (Live p) /\ userId p = userId_.

(** The registry as the constructor, [close] and [destroy] keep it: every
    entry is a registered page, and every live page is registered. *)
Definition registry_ok (w : World) : Prop :=
  (forall k r, pageList w !! k = Some r -> exists p, registered w k r p)
  /\ (forall r p, heap w !! r = Some (Live p) -> pageList w !! userId p = Some r).

(** At most one non-closed page is bound to the identity. *)
Definition at_most_one_live (w : World) (userId_ : string) : Prop :=
  forall r1 r2 p1 p2,
    heap w !! r1 = Some (Live p1) -> userId p1 = userId_ ->
    heap w !! r2 = Some (Live p2) -> userId p2 = userId_ -> r1 = r2.
End Notions.

(** ** A sample page type and sample worlds *)

Module Sample.
Definition collaborators : Collaborators := {|
  commandCharacter := ".";
  hasRank := fun _ _ _ => false;
  isDeveloper := fun _ => false;
  Client_getQuietPmButton := fun _ message label _ _ =>
    "<button name='send' value='" +:+ message +:+ "'>" +:+ label +:+ "</button>"
|}.

(** A page type whose render is the content its own state holds, and
    which defines none of the optional hooks. *)
Definition pageType : PageType := {|
  Ext := string;
  render := fun _ _ content => content;
  beforeSend := None;
  onClose := None;
  onSend := None
|}.

Definition lobby : Room :=
  {| room_id := "lobby"; room_alias := None; room_title := "Lobby" |}.
Definition alice : User := {| id := "alice"; name := "Alice" |}.
Definition bob : User := {| id := "bob"; name := "Bob" |}.

(** Both users online. *)
Definition online (s : string) : option User :=
  if String.eqb s "alice" then Some alice
  else if String.eqb s "bob" then Some bob else None.

(** Nobody online. *)
Definition offline (s : string) : option User := None.

Definition world (users : string -> option User) (content : string) : @World pageType :=
  @Build_World pageType [] ∅ users [] content.

(** One page for alice. *)
Definition world1 (users : string -> option User) (content : string) : @World pageType :=
  world_of (@constructor collaborators pageType "shop" lobby alice "tpshop"
              (world users content)).

(** Pages for alice (reference 0) and bob (reference 1). *)
Definition world2 : @World pageType :=
  world_of (@constructor collaborators pageType "shop" lobby bob "tpshop"
              (world1 online "hello")).

(** No page yet, both users online. *)
Definition emptyWorld : @World pageType := world online "hello".

(** Alice's page, fresh from the constructor, with her online, with her
    offline, and with the empty string as the content to render. *)
Definition aliceWorld : @World pageType := world1 online "hello".
Definition aliceOfflineWorld : @World pageType := world1 offline "hello".
Definition emptyRenderWorld : @World pageType := world1 online "".

(** The world after alice's page has been closed. *)
Definition closedWorld : @World pageType := world_of (@close pageType 0 aliceWorld).

(** Three [send()] calls that find the same content; during the second one
    alice is offline. *)
Definition sendCalls : list (option bool * (string -> option User) * @Ext pageType) :=
  [(None, online, "hello"); (Some true, offline, "hello"); (None, online, "hello")].

(** Three constructions for alice. *)
Definition registerCalls : list (Room * User * string) :=
  [(lobby, alice, "tpshop"); (lobby, alice, "tpshop"); (lobby, alice, "tpshop")].

(** A live standalone page that offers the switch to the overlay. *)
Definition switchablePage : HtmlPageBase :=
  {| pageId := "shop"; baseChatUhtmlName := "shop-base"; chatUhtmlName := "";
     closeButtonHtml := ""; components := []; globalRoomPage := false;
     lastRender := ""; readonly := false; showSwitchLocationButton := true;
     switchLocationButtonHtml := ""; usedCommandAfterLastRender := false;
     baseCommand := "tpshop"; commandPrefix := ".tpshop lobby"; room := lobby;
     isRoomStaff := false; userName := "Alice"; userId := "alice" |}.

Definition switchableWorld : @World pageType :=
  @Build_World pageType [Live switchablePage] {[ "alice" := 0 ]} online [] "hello".

(** A live page in overlay mode under a name that is not its base name. *)
Definition strayOverlayPage : HtmlPageBase :=
  {| pageId := "shop"; baseChatUhtmlName := "shop-base"; chatUhtmlName := "shop-other";
     closeButtonHtml := ""; components := []; globalRoomPage := false;
     lastRender := ""; readonly := false; showSwitchLocationButton := true;
     switchLocationButtonHtml := ""; usedCommandAfterLastRender := false;
     baseCommand := "tpshop"; commandPrefix := ".tpshop lobby"; room := lobby;
     isRoomStaff := false; userName := "Alice"; userId := "alice" |}.

Definition strayOverlayWorld : @World pageType :=
  @Build_World pageType [Live strayOverlayPage] {[ "alice" := 0 ]} online [] "hello".

(** A live page in overlay mode whose base name was left at its default. *)
Definition overlayNoBasePage : HtmlPageBase :=
  {| pageId := "shop"; baseChatUhtmlName := ""; chatUhtmlName := "shop-other";
     closeButtonHtml := ""; components := []; globalRoomPage := false;
     lastRender := ""; readonly := false; showSwitchLocationButton := true;
     switchLocationButtonHtml := ""; usedCommandAfterLastRender := false;
     baseCommand := "tpshop"; commandPrefix := ".tpshop lobby"; room := lobby;
     isRoomStaff := false; userName := "Alice"; userId := "alice" |}.

Definition overlayNoBaseWorld : @World pageType :=
  @Build_World pageType [Live overlayNoBasePage] {[ "alice" := 0 ]} online [] "hello".

(** A live page that is read-only. *)
Definition readonlyPage : HtmlPageBase :=
  {| pageId := "shop"; baseChatUhtmlName := ""; chatUhtmlName := "";
     closeButtonHtml := ""; components := []; globalRoomPage := false;
     lastRender := ""; readonly := true; showSwitchLocationButton := false;
     switchLocationButtonHtml := ""; usedCommandAfterLastRender := false;
     baseCommand := "tpshop"; commandPrefix := ".tpshop lobby"; room := lobby;
     isRoomStaff := false; userName := "Alice"; userId := "alice" |}.

(** A user whose id is the name of a member plain objects inherit. *)
Definition constructorUser : User := {| id := "constructor"; name := "Constructor" |}.

(** A construction for that user. *)
Definition inheritedNameCalls : list (Room * User * string) :=
  [(lobby, constructorUser, "tpshop")].
End Sample.

(** ** Component commands *)

Section ComponentCommands.
Context `{Collaborators} `{PageType}.

(** [component.tryCommand(targets)] belongs to [ComponentBase], which is
    outside the sources: it is taken as given.  It returns an error message
    or [undefined] and works on the page type's own state, like the hooks. *)
Variable tryCommand : ComponentBase -> list string -> Ext -> option string * Ext.

(** The loop of [checkComponentCommands]: the first component, in order,
    that is active and answers to the command. *)
Fixpoint firstComponent (componentCommand_ : string) (cs : list ComponentBase)
    : option ComponentBase :=
  match cs with
  | [] => None
  | component :: cs' =>
      if active component && String.eqb (componentCommand component) componentCommand_
      then Some component
      else firstComponent componentCommand_ cs'
  end.

(** *** [checkComponentCommands]
    Iterating the [undefined] components of a destroyed object raises. *)
Definition checkComponentCommands (this : nat) (componentCommand_ : string)
    (targets : list string) : M (option string) :=
  o ← readObj this;
  match o with
  | Destroyed _ _ _ => throw TypeError
  | Live p =>
      match firstComponent componentCommand_ (components p) with
      | Some component =>
          writeObj this (Live (set_usedCommandAfterLastRender true p));;
          w ← get;
          modify (set_ext (tryCommand component targets (ext w)).2);;
          mret (tryCommand component targets (ext w)).1
      | None =>
          mret (Some ("Unknown sub-command '" +:+ componentCommand_ +:+ "'."))
      end
  end.
End ComponentCommands.

(** ** The page [switchLocation] sends *)

Section SwitchedPage.
Context `{Collaborators}.

(** The page object as lines 91-101 of [switchLocation] leave it, before
    the [send]: channel switched, forced-send flag set, both buttons
    rebuilt. *)
Definition switchedPage (p : HtmlPageBase) : HtmlPageBase :=
  setCloseButton None
    (setSwitchLocationButton
       (set_usedCommandAfterLastRender true
          (if nonEmpty (chatUhtmlName p) then set_chatUhtmlName "" p
           else set_chatUhtmlName (baseChatUhtmlName p) p))).
End SwitchedPage.

(** ** Sequences of calls on the pages of one page type *)

Section Calls.
Context `{Collaborators} `{PageType}.

(** One call from outside: a construction, or a method call on the page
    object behind a reference. *)
Inductive Call :=
| callNew (pageId_ : string) (room_ : Room) (userOrPlayer : User) (baseCommand_ : string)
| callOpen (this : nat)
| callSend (this : nat) (onOpen : option bool)
| callClose (this : nat)
| callTryClose (this : nat)
| callTemporarilyClose (this : nat)
| callSwitchLocation (this : nat)
| callDestroy (this : nat)
| callOnRenameUser (this : nat) (user : User) (oldId : string).

(** The world a call leaves, whether it returns or raises. *)
Definition perform (c : Call) (w : World) : World :=
  match c with
  | callNew pageId_ room_ userOrPlayer baseCommand_ =>
      world_of (constructor pageId_ room_ userOrPlayer baseCommand_ w)
  | callOpen this => world_of (open this w)
  | callSend this onOpen => world_of (send this onOpen w)
  | callClose this => world_of (close this w)
  | callTryClose this => world_of (tryClose this w)
  | callTemporarilyClose this => world_of (temporarilyClose this w)
  | callSwitchLocation this => world_of (switchLocation this w)
  | callDestroy this => world_of (destroy this w)
  | callOnRenameUser this user oldId => world_of (onRenameUser this user oldId w)
  end.

Fixpoint performAll (calls : list Call) (w : World) : World :=
  match calls with
  | [] => w
  | c :: calls' => performAll calls' (perform c w)
  end.




(** Closed objects of [w] are the same closed objects in [w']. *)
Definition keepsDestroyed (w w' : World) : Prop :=
  forall r pageId_ userName_ userId_,
    heap w !! r = Some (Destroyed pageId_ userName_ userId_) ->
    heap w' !! r = Some (Destroyed pageId_ userName_ userId_).
End Calls.

(** ** The tournament points shop: [unlockRibbon]

    [TournamentPointsShop] extends [TournamentTrainerCard], which is outside
    the sources, as are [Config], [Storage] and the database type.  What
    [unlockRibbon] reads of them is taken as given: the ribbon catalog
    [Config.tournamentPointsShopRibbons], the id of [this.trainerCardRoom],
    [Storage.createTournamentTrainerCard], and the page type's render and
    hooks.  The page type's own state is the database object
    [this.getDatabase()] returns, the one of the trainer card room; [send]
    is the one of [HtmlPageBase]. *)

(** A catalog entry, and the members of a trainer card and of the database
    that [unlockRibbon] does not touch. *)
Class ShopTypes := {
  Ribbon : Type;
  CardRest : Type;
  DatabaseRest : Type
}.

Section ShopData.
Context `{ShopTypes}.

Record TrainerCard := {
  ribbons : option (list string);
  cardRest : CardRest
}.

Record Database := {
  unlockedTournamentPointsShopRibbons : option (gmap string (list string));
  tournamentTrainerCards : option (gmap string TrainerCard);
  databaseRest : DatabaseRest
}.

Definition set_unlockedTournamentPointsShopRibbons
    (v : option (gmap string (list string))) (d : Database) : Database :=
  {| unlockedTournamentPointsShopRibbons := v;
     tournamentTrainerCards := tournamentTrainerCards d;
     databaseRest := databaseRest d |}.

Definition set_tournamentTrainerCards
    (v : option (gmap string TrainerCard)) (d : Database) : Database :=
  {| unlockedTournamentPointsShopRibbons := unlockedTournamentPointsShopRibbons d;
     tournamentTrainerCards := v;
     databaseRest := databaseRest d |}.

Definition set_ribbons (v : option (list string)) (c : TrainerCard) : TrainerCard :=
  {| ribbons := v; cardRest := cardRest c |}.

(** The user's list in the table of unlocked ribbons, and on the card. *)
Definition unlockedOf (d : Database) (userId_ : string) : option (list string) :=
  table ← unlockedTournamentPointsShopRibbons d; table !! userId_.

Definition shownOf (d : Database) (userId_ : string) : option (list string) :=
  cards ← tournamentTrainerCards d; card ← cards !! userId_; ribbons card.
End ShopData.

(** What the shop reads from outside: [Config.tournamentPointsShopRibbons]
    (per room id, the ribbons by id; plain objects both), the id of
    [this.trainerCardRoom], [Storage.createTournamentTrainerCard(database,
    userId)], and the render and hooks of the page type.  [builtinHas name
    key] is the answer of [key in Object.prototype[name]], the [in] test on
    the built-in function or object that the catalog yields for a room id
    that is no key of its own but names an inherited member; which members
    those built-ins have is the runtime's matter. *)
Class ShopSetting `{ShopTypes} := {
  tournamentPointsShopRibbons : option (gmap string (gmap string Ribbon));
  trainerCardRoom_id : string;
  builtinHas : string -> string -> bool;
  createTournamentTrainerCard : Database -> string -> Database;
  shopRender : option bool -> HtmlPageBase -> Database -> string;
  shopBeforeSend : option (option bool -> HtmlPageBase -> Database -> bool);
  shopOnClose : option (HtmlPageBase -> Database -> Database);
  shopOnSend : option (option bool -> HtmlPageBase -> Database -> Database)
}.

Section Shop.
Context `{Collaborators} `{ShopSetting}.

Definition shopPageType : PageType := {|
  Ext := Database;
  render := shopRender;
  beforeSend := shopBeforeSend;
  onClose := shopOnClose;
  onSend := shopOnSend
|}.

Local Existing Instance shopPageType.

(** [list.includes(id)]. *)
Definition includes (l : list string) (id_ : string) : bool :=
  existsb (String.eqb id_) l.

(** Lines 24-25: the catalog is set, [this.trainerCardRoom.id in] it, and
    [id in] what it holds for the room.  Both tests are [in] tests on plain
    objects: an id that names an inherited member passes the second one
    whether or not a ribbon of that id is listed. *)
Definition inCatalog (id_ : string) : bool :=
  match tournamentPointsShopRibbons with
  | None => false
  | Some catalog =>
      hasKey catalog trainerCardRoom_id
      && match catalog !! trainerCardRoom_id with
         | Some roomRibbons => hasKey roomRibbons id_
         | None => builtinHas trainerCardRoom_id id_
         end
  end.

Definition setDatabase (d : Database) : @M shopPageType unit :=
  modify (fun w => @set_ext shopPageType d w).

(** *** [unlockRibbon]
    Every write to the database is made where the source makes it, so that
    a return or an error part of the way leaves the earlier writes in place.
    [this.trainerCardRoom] of a destroyed object is [undefined]; a missing
    card table or card makes [.ribbons] raise.  The database tables are
    read under [this.userId], as finite maps: a page that came out of the
    constructor or of [onRenameUser] is never bound to the name of an
    inherited member. *)
Definition unlockRibbon (this : nat) (id_ : string) : @M shopPageType unit :=
  o ← readObj this;
  match tournamentPointsShopRibbons, o with
  | None, _ => mret tt
  | Some _, Destroyed _ _ _ => throw TypeError
  | Some _, Live p =>
      if negb (inCatalog id_) then mret tt
      else
        w ← get;
        let database := createTournamentTrainerCard (ext w : Database) (userId p) in
        let unlocked :=
          match unlockedTournamentPointsShopRibbons database with
          | Some table => table
          | None => ∅
          end in
        let mine := default [] (unlocked !! userId p) in
        let database1 :=
          set_unlockedTournamentPointsShopRibbons
            (Some (match unlocked !! userId p with
                   | Some _ => unlocked
                   | None => <[userId p := []]> unlocked
                   end)) database in
        setDatabase database1;;
        if match unlocked !! userId p with
           | Some _ => includes mine id_
           | None => false
           end
        then mret tt
        else
          let database2 :=
            set_unlockedTournamentPointsShopRibbons
              (Some (<[userId p := (mine ++ [id_])%list]> unlocked)) database in
          setDatabase database2;;
          match tournamentTrainerCards database2 with
          | None => throw TypeError
          | Some cards =>
              match cards !! userId p with
              | None => throw TypeError
              | Some card =>
                  if match ribbons card with
                     | Some shown => includes shown id_
                     | None => false
                     end
                  then mret tt
                  else
                    let shown := default [] (ribbons card) in
                    setDatabase
                      (set_tournamentTrainerCards
                         (Some (<[userId p :=
                                    set_ribbons (Some (shown ++ [id_])%list) card]> cards))
                         database2);;
                    send this None
              end
          end
  end.
End Shop.

(** ** More sample inputs *)

Module SampleMore.
(** A component handler that answers every command with its own name. *)
Definition tryCommand (c : ComponentBase) (targets : list string)
    (e : @Ext Sample.pageType) : option string * @Ext Sample.pageType :=
  (Some (componentCommand c), e).

(** A live page with three components: an inactive one and an active one
    answering to "pick", and an active one answering to "sort". *)
Definition componentPage : HtmlPageBase :=
  {| pageId := "shop"; baseChatUhtmlName := ""; chatUhtmlName := "";
     closeButtonHtml := ""; globalRoomPage := false;
     components := [ {| componentCommand := "pick"; active := false |};
                     {| componentCommand := "pick"; active := true |};
                     {| componentCommand := "sort"; active := true |} ];
     lastRender := "hello"; readonly := false; showSwitchLocationButton := false;
     switchLocationButtonHtml := ""; usedCommandAfterLastRender := false;
     baseCommand := "tpshop"; commandPrefix := ".tpshop lobby"; room := Sample.lobby;
     isRoomStaff := false; userName := "Alice"; userId := "alice" |}.

Definition componentWorld : @World Sample.pageType :=
  @Build_World Sample.pageType [Live componentPage] {[ "alice" := 0 ]}
    Sample.online [] "hello".

(** The switchable page while alice is offline. *)
Definition switchableOfflineWorld : @World Sample.pageType :=
  @Build_World Sample.pageType [Live Sample.switchablePage] {[ "alice" := 0 ]}
    Sample.offline [] "hello".

(** Calls on alice's closed page and around it. *)
Definition callsAfterClose : list Call :=
  [callSend 0 None; callOpen 0; callSwitchLocation 0; callTryClose 0; callClose 0;
   callDestroy 0; callOnRenameUser 0 Sample.bob "alice";
   callNew "shop" Sample.lobby Sample.alice "tpshop"; callSend 1 None].



(** The shop: one catalogued ribbon in the lobby, cards created on demand.
    The lobby is a key of the catalog, so [builtinHas] is never consulted. *)
Definition shopTypes : ShopTypes :=
  {| Ribbon := nat; CardRest := unit; DatabaseRest := unit |}.

Definition emptyCard : @TrainerCard shopTypes := @Build_TrainerCard shopTypes None tt.

Definition createCard (d : @Database shopTypes) (userId_ : string) : @Database shopTypes :=
  match tournamentTrainerCards d with
  | Some cards =>
      match cards !! userId_ with
      | Some _ => d
      | None => set_tournamentTrainerCards (Some (<[userId_ := emptyCard]> cards)) d
      end
  | None => set_tournamentTrainerCards (Some {[ userId_ := emptyCard ]}) d
  end.

(** The render lists the ribbons on the user's card. *)
Definition listRibbons (onOpen : option bool) (p : HtmlPageBase)
    (d : @Database shopTypes) : string :=
  String.concat "," (default [] (shownOf d (userId p))).

Definition shopSetting : @ShopSetting shopTypes :=
  @Build_ShopSetting shopTypes
    (Some {[ "lobby" := {[ "gold" := 100 ]} ]}) "lobby" (fun _ _ => false)
    createCard listRibbons None None None.

Definition shop : PageType := @shopPageType shopTypes shopSetting.

Definition emptyDatabase : @Database shopTypes := @Build_Database shopTypes None None tt.

(** Alice's shop page, nothing unlocked yet. *)
Definition shopWorld : @World shop :=
  world_of (@constructor Sample.collaborators shop "tournament-points-shop"
              Sample.lobby Sample.alice "tpshop"
              (@Build_World shop [] ∅ Sample.online [] emptyDatabase)).

(** The same after alice unlocked the gold ribbon. *)
Definition goldWorld : @World shop :=
  world_of (@unlockRibbon shopTypes shopSetting 0 "gold" shopWorld).
End SampleMore.

(** * Verified properties *)

(** ** Strings *)

Lemma length_append (s t : string) :
  String.length (s +:+ t) = String.length s + String.length t.
Proof. induction s as [|c s IH]; simpl; [reflexivity | now rewrite IH]. Qed.

Lemma append_assoc (s t u : string) : (s +:+ t) +:+ u = s +:+ (t +:+ u).
Proof.
  induction s as [|c s IH]; [reflexivity|].
  change (String c ((s +:+ t) +:+ u) = String c (s +:+ (t +:+ u))).
  now rewrite IH.
Qed.

Lemma append_nonempty_neq (s t : string) : t <> "" -> s +:+ t <> s.
Proof.
  intros Ht Heq. apply (f_equal String.length) in Heq.
  rewrite length_append in Heq. destruct t; [congruence | simpl in Heq; lia].
Qed.

Lemma nonEmpty_false (s : string) : nonEmpty s = false <-> s = "".
Proof.
  unfold nonEmpty. destruct (String.eqb_spec s ""); cbn; split; congruence.
Qed.

(** ** Keys of plain objects *)

Lemma hasKey_stored {A : Type} (dict : gmap string A) (key : string) (x : A) :
  dict !! key = Some x -> hasKey dict key = true.
Proof. unfold hasKey. intros ->. reflexivity. Qed.

Lemma hasKey_false {A : Type} (dict : gmap string A) (key : string) :
  hasKey dict key = false <-> dict !! key = None /\ inherited key = false.
Proof.
  unfold hasKey. destruct (dict !! key); split; try tauto; try discriminate.
  intros [? _]. discriminate.
Qed.

Lemma hasKey_inherited {A : Type} (dict : gmap string A) (key : string) :
  inherited key = true -> hasKey dict key = true.
Proof. unfold hasKey. intros ->. destruct (dict !! key); reflexivity. Qed.

Lemma inherited_constructor : inherited "constructor" = true.
Proof. reflexivity. Qed.

Section ButtonFacts.
Context `{Collaborators}.

Lemma truthy_js_or (a b : option bool) : truthy (js_or a b) = truthy a || truthy b.
Proof. unfold js_or. destruct a as [[]|], b as [[]|]; reflexivity. Qed.

Lemma baseStyle_default (o : IQuietPMButtonOptions) :
  quietPmButtonBaseStyle (Some o) = default "" (style o).
Proof.
  unfold quietPmButtonBaseStyle. destruct (style o) as [s|]; [|reflexivity].
  destruct s; reflexivity.
Qed.

Example style_gets_separator_and_suffix :
  quietPmButtonStyle
    (Some {| disabled := None; enabledReadonly := None; selected := Some true;
             selectedAndDisabled := None; style := Some "color: red" |})
  = "color: red;border-color: #ffffff;".
Proof. reflexivity. Qed.

Example style_keeps_its_semicolon :
  quietPmButtonStyle
    (Some {| disabled := None; enabledReadonly := None; selected := None;
             selectedAndDisabled := Some true; style := Some "color: red;" |})
  = "color: red;border-color: #ffffff;".
Proof. reflexivity. Qed.

Example style_untouched_when_not_selected :
  quietPmButtonStyle
    (Some {| disabled := Some true; enabledReadonly := None; selected := Some false;
             selectedAndDisabled := None; style := Some "color: red" |})
  = "color: red".
Proof. reflexivity. Qed.

(** Without an options argument the page's [readonly] flag plays no role:
    [disabled] stays [undefined] and nothing is appended to the style. *)
Lemma getQuietPmButton_no_options (this : HtmlPageBase) (message label : string) :
  getQuietPmButton this message label None =
  Client_getQuietPmButton (room this) message label None "".
Proof. reflexivity. Qed.

(** C8 (amended). [getQuietPmButton] hands the button builder the
    [disabled] argument and the style it computes.  For every page and every
    options object passed to it, [disabled] is truthy exactly when
    (options.disabled or options.selectedAndDisabled) or (the page is
    readonly and options.enabledReadonly is not set), and the style is
    options.style (or the empty string) followed by the border-highlight
    suffix, after a separating semicolon where one is missing, exactly when
    options.selected or options.selectedAndDisabled holds; otherwise the
    style is passed as it is.  When the options argument is omitted,
    [disabled] is passed as [undefined], whatever the page's readonly flag,
    and the style is the empty string. *)
Theorem getQuietPmButton_disabled_and_style
    (this : HtmlPageBase) (message label : string)
    (options : option IQuietPMButtonOptions) :
  getQuietPmButton this message label options =
    Client_getQuietPmButton (room this) message label
      (quietPmButtonDisabled this options) (quietPmButtonStyle options)
  /\ match options with
     | Some o =>
         truthy (quietPmButtonDisabled this options) =
           (truthy (disabled o) || truthy (selectedAndDisabled o))
           || (readonly this && negb (truthy (enabledReadonly o)))
         /\ truthy (quietPmButtonDisabled this options) = specDisabled this options
         /\ quietPmButtonStyle options =
              (let base := default "" (style o) in
               if truthy (selected o) || truthy (selectedAndDisabled o)
               then base +:+ (if nonEmpty base && negb (endsWith base ";") then ";" else "")
                    +:+ "border-color: #ffffff;"
               else base)
         /\ (quietPmButtonStyle options = default "" (style o)
             <-> truthy (selected o) || truthy (selectedAndDisabled o) = false)
     | None =>
         quietPmButtonDisabled this options = None
         /\ quietPmButtonStyle options = ""
     end.
Proof.
  split; [reflexivity|]. destruct options as [o|]; [|split; reflexivity].
  assert (Hstyle : quietPmButtonStyle (Some o) =
       (let base := default "" (style o) in
        if truthy (selected o) || truthy (selectedAndDisabled o)
        then base +:+ (if nonEmpty base && negb (endsWith base ";") then ";" else "")
             +:+ "border-color: #ffffff;"
        else base)).
  { unfold quietPmButtonStyle, quietPmButtonHighlighted.
    rewrite baseStyle_default, truthy_js_or. cbv zeta.
    destruct (truthy (selected o) || truthy (selectedAndDisabled o)); [|reflexivity].
    destruct (nonEmpty (default "" (style o)) && negb (endsWith (default "" (style o)) ";")).
    - apply append_assoc.
    - reflexivity. }
  assert (Hdisabled : truthy (quietPmButtonDisabled this (Some o)) =
           (truthy (disabled o) || truthy (selectedAndDisabled o))
           || (readonly this && negb (truthy (enabledReadonly o)))).
  { unfold quietPmButtonDisabled.
    pose proof (truthy_js_or (disabled o) (selectedAndDisabled o)) as Hor.
    destruct (truthy (js_or (disabled o) (selectedAndDisabled o))) eqn:Hd; simpl.
    + rewrite Hd, <- Hor. reflexivity.
    + rewrite <- Hor. simpl.
      destruct (truthy (enabledReadonly o)), (readonly this); simpl; try exact Hd; reflexivity. }
  split; [exact Hdisabled|]. split; [exact Hdisabled|]. split; [exact Hstyle|].
  rewrite Hstyle. cbv zeta.
  destruct (truthy (selected o) || truthy (selectedAndDisabled o)).
  - split; [|discriminate]. intros Heq. exfalso.
    revert Heq. apply append_nonempty_neq.
    destruct (nonEmpty _ && negb _); discriminate.
  - split; reflexivity.
Qed.
End ButtonFacts.

Section ButtonSamples.
Existing Instance Sample.collaborators.

(** C8 as stated fails when the options argument is omitted, as
    [setCloseButton()] and [setSwitchLocationButton()] call it: on a readonly
    page the claimed formula gives a disabled button, while
    [getQuietPmButton] passes [disabled] as [undefined], and the close button
    the page builds is the enabled one. *)
Lemma getQuietPmButton_readonly_without_options :
  readonly Sample.readonlyPage = true
  /\ specDisabled Sample.readonlyPage None = true
  /\ quietPmButtonDisabled Sample.readonlyPage None = None
  /\ truthy (quietPmButtonDisabled Sample.readonlyPage None)
     <> specDisabled Sample.readonlyPage None
  /\ closeButtonHtml (setCloseButton None Sample.readonlyPage)
     = Client_getQuietPmButton Sample.lobby ".tpshop lobby, closehtmlpage" "Close page"
         None "".
Proof. vm_compute. repeat split; try reflexivity. discriminate. Qed.
End ButtonSamples.

Section Lifecycle.
Context `{Collaborators} `{PageType}.

Lemma close_closed this w o :
  heap w !! this = Some o -> closed o = true ->
  close this w =
  Throw (Error (pageId_of o +:+ " page already closed for user " +:+ userId_of o)) w.
Proof.
  intros Hobj Hclosed. destruct o as [p|i n u]; [discriminate|].
  unfold close. run_with Hobj. reflexivity.
Qed.

Lemma tryClose_closed this w o :
  heap w !! this = Some o -> closed o = true -> tryClose this w = Ok tt w.
Proof.
  intros Hobj Hclosed. unfold tryClose. run_with Hobj. rewrite Hclosed. reflexivity.
Qed.

Lemma tryClose_open this w o :
  heap w !! this = Some o -> closed o = false -> tryClose this w = close this w.
Proof.
  intros Hobj Hclosed. unfold tryClose. run_with Hobj. rewrite Hclosed. reflexivity.
Qed.

(** C3. On a page with [closed = true], [close()] raises the
    lifecycle-violation error to its caller and leaves the world as it
    was, while [tryClose()] returns normally and changes nothing; on a page
    with [closed = false], [tryClose()] is [close()]. *)
Theorem close_raises_tryClose_idempotent (this : nat) (w : World) (o : Page)
    (Hobj : heap w !! this = Some o) :
  (closed o = true ->
     close this w =
       Throw (Error (pageId_of o +:+ " page already closed for user " +:+ userId_of o)) w
     /\ tryClose this w = Ok tt w)
  /\ (closed o = false -> tryClose this w = close this w).
Proof.
  split.
  - intros Hc. split; [exact (close_closed _ _ _ Hobj Hc) | exact (tryClose_closed _ _ _ Hobj Hc)].
  - exact (tryClose_open _ _ _ Hobj).
Qed.

(** C9. [temporarilyClose()] changes no page object, no registry entry,
    not the directory and not the page type's state; it makes at most one
    call on the transport, a retraction, and none when the viewer does not
    resolve. On a live page whose viewer resolves it makes exactly that
    one retraction. *)
Theorem temporarilyClose_frame (this : nat) (w : World) (o : Page)
    (Hobj : heap w !! this = Some o) :
  let w' := world_of (temporarilyClose this w) in
  heap w' = heap w /\ pageList w' = pageList w
  /\ Users_get w' = Users_get w /\ ext w' = ext w
  /\ exists calls : list Event,
       trace w' = (trace w ++ calls)%list
       /\ length calls <= 1 /\ retractions calls = length calls
       /\ (Users_get w (userId_of o) = None -> calls = [])
       /\ (forall p user, o = Live p -> Users_get w (userId p) = Some user ->
             calls = [CloseHtmlPage (room p) user (pageId p)]).
Proof.
  unfold temporarilyClose. run_with Hobj.
  destruct (Users_get w (userId_of o)) as [user|] eqn:Huser.
  - destruct o as [p|i n u]; cbn.
    + repeat split; trivial.
      exists [CloseHtmlPage (room p) user (pageId p)].
      repeat split; auto; [discriminate|].
      intros p0 user0 [= <-] Hu. cbn in Huser. congruence.
    + repeat split; trivial. exists []. rewrite app_nil_r.
      repeat split; auto. discriminate.
  - cbn. repeat split; trivial. exists []. rewrite app_nil_r.
    repeat split; auto. intros p user -> Hu. cbn in Huser. congruence.
Qed.
End Lifecycle.

(** ** [send]: the memoization contract *)

Section Send.
Context `{Collaborators} `{PageType}.

Lemma send_destroyed this onOpen w i n u :
  heap w !! this = Some (Destroyed i n u) -> send this onOpen w = Ok tt w.
Proof. intros Hobj. unfold send. run_with Hobj. reflexivity. Qed.

(** The two ways a [send] on a live page ends: it returns without having
    touched anything, or it delivers once. *)
Lemma send_live this onOpen w p :
  heap w !! this = Some (Live p) ->
  (send this onOpen w = Ok tt w
   /\ (computedRender this onOpen w = None
       \/ (computedRender this onOpen w = Some (lastRender p)
           /\ usedCommandAfterLastRender p = false)))
  \/ (exists user,
        Users_get w (userId p) = Some user
        /\ computedRender this onOpen w = Some (render onOpen p (ext w))
        /\ (render onOpen p (ext w) <> lastRender p
            \/ usedCommandAfterLastRender p = true)
        /\ send this onOpen w = Ok tt (deliveredWorld this onOpen p user w)).
Proof.
  intros Hobj. unfold send, computedRender. run_with Hobj.
  destruct (vetoed onOpen p (ext w)); [left; auto|].
  destruct (Users_get w (userId p)) as [user|] eqn:Huser; [|left; auto].
  destruct (String.eqb_spec (render onOpen p (ext w)) (lastRender p)) as [Heq|Hne];
    [destruct (usedCommandAfterLastRender p) eqn:Hused|]; cbn.
  - right. exists user. repeat split; auto.
    unfold deliveredWorld. destruct onSend, (nonEmpty (chatUhtmlName p)); reflexivity.
  - left. split; [reflexivity|]. right. split; congruence.
  - right. exists user. repeat split; auto.
    unfold deliveredWorld. destruct onSend, (nonEmpty (chatUhtmlName p)); reflexivity.
Qed.

Lemma deliveredWorld_heap this onOpen p user w :
  heap (deliveredWorld this onOpen p user w) =
  <[this := Live (set_usedCommandAfterLastRender false
                    (set_lastRender (render onOpen p (ext w)) p))]> (heap w).
Proof. unfold deliveredWorld. destruct onSend; reflexivity. Qed.

Lemma deliveredWorld_trace this onOpen p user w :
  exists call,
    trace (deliveredWorld this onOpen p user w) = (trace w ++ [call])%list
    /\ isDelivery call = true
    /\ call = (if nonEmpty (chatUhtmlName p)
               then SayPrivateUhtml (room p) user (chatUhtmlName p)
                      (render onOpen p (ext w))
               else SendHtmlPage (room p) user (pageId p) (render onOpen p (ext w))).
Proof.
  eexists. split; [|split; [|reflexivity]].
  - unfold deliveredWorld. destruct onSend; reflexivity.
  - destruct (nonEmpty (chatUhtmlName p)); reflexivity.
Qed.

Lemma deliveredWorld_pageList this onOpen p user w :
  pageList (deliveredWorld this onOpen p user w) = pageList w.
Proof. unfold deliveredWorld. destruct onSend; reflexivity. Qed.

Lemma deliveredWorld_Users this onOpen p user w :
  Users_get (deliveredWorld this onOpen p user w) = Users_get w.
Proof. unfold deliveredWorld. destruct onSend; reflexivity. Qed.

(** [send] never raises on an existing object. *)
Lemma send_returns this onOpen w o :
  heap w !! this = Some o -> exists w', send this onOpen w = Ok tt w'.
Proof.
  intros Hobj. destruct o as [p|i n u].
  - destruct (send_live this onOpen w p Hobj) as [[-> _]|(user & _ & _ & _ & ->)]; eauto.
  - rewrite (send_destroyed _ _ _ _ _ _ Hobj). eauto.
Qed.

(** C7. A [send()] that aborts, because the page is closed, the pre-send
    guard vetoes, the viewer does not resolve, or the render equals
    [lastRender] with the forced-send flag unset, leaves the whole world,
    and with it [lastRender], unchanged; and whenever a [send()] changes
    [lastRender], it has made exactly one delivery, of that new content. *)
Theorem send_abort_keeps_lastRender (this : nat) (onOpen : option bool)
    (w : World) (o : Page) (Hobj : heap w !! this = Some o) :
  (closed o = true
   \/ (exists p guard, o = Live p /\ beforeSend = Some guard
                       /\ guard onOpen p (ext w) = false)
   \/ Users_get w (userId_of o) = None
   \/ (exists p, o = Live p /\ render onOpen p (ext w) = lastRender p
                 /\ usedCommandAfterLastRender p = false)
   -> send this onOpen w = Ok tt w)
  /\ (forall p p',
        o = Live p ->
        heap (world_of (send this onOpen w)) !! this = Some (Live p') ->
        lastRender p' <> lastRender p ->
        exists user call,
          Users_get w (userId p) = Some user
          /\ lastRender p' = render onOpen p (ext w)
          /\ trace (world_of (send this onOpen w)) = (trace w ++ [call])%list
          /\ call = (if nonEmpty (chatUhtmlName p)
                     then SayPrivateUhtml (room p) user (chatUhtmlName p) (lastRender p')
                     else SendHtmlPage (room p) user (pageId p) (lastRender p'))).
Proof.
  split.
  - intros Habort. destruct o as [p|i n u];
      [|exact (send_destroyed _ _ _ _ _ _ Hobj)].
    unfold send. run_with Hobj.
    destruct Habort as [Hc|[(p0 & guard & [= <-] & Hg & Hveto)|[Hnone|(p0 & [= <-] & Hr & Hu)]]].
    + discriminate.
    + unfold vetoed. rewrite Hg, Hveto. reflexivity.
    + cbn in Hnone. rewrite Hnone. destruct (vetoed onOpen p (ext w)); reflexivity.
    + rewrite Hr, Hu, String.eqb_refl. cbn.
      destruct (vetoed onOpen p (ext w)); [reflexivity|].
      destruct (Users_get w (userId p)); reflexivity.
  - intros p p' -> Hafter Hchanged.
    destruct (send_live this onOpen w p Hobj) as [[Hsend _]|(user & Huser & _ & _ & Hsend)];
      rewrite Hsend in *; cbn in *.
    + rewrite Hobj in Hafter. congruence.
    + rewrite deliveredWorld_heap in Hafter.
      rewrite list_lookup_insert_eq in Hafter by (eapply lookup_lt_Some; eauto).
      injection Hafter as <-. cbn.
      destruct (deliveredWorld_trace this onOpen p user w) as (call & Htr & _ & Hcall).
      exists user, call. repeat split; auto.
Qed.
End Send.

Section SendSequences.
Context `{Collaborators} `{PageType}.

Lemma sendAll_destroyed this calls w i n u :
  heap w !! this = Some (Destroyed i n u) -> trace (sendAll this calls w) = trace w.
Proof.
  revert w. induction calls as [|[[onOpen users] e] calls IH]; intros w Hobj; [reflexivity|].
  cbn [sendAll].
  assert (Henv : heap (setEnv users e w) !! this = Some (Destroyed i n u)) by exact Hobj.
  rewrite (send_destroyed _ _ _ _ _ _ Henv). cbn [world_of].
  rewrite (IH _ Henv). reflexivity.
Qed.

(** Once [lastRender] holds the common render and the flag is unset, no
    call of the sequence delivers. *)
Lemma sendAll_memoized this calls w p r :
  heap w !! this = Some (Live p) ->
  lastRender p = r -> usedCommandAfterLastRender p = false ->
  rendersAll r this calls w ->
  trace (sendAll this calls w) = trace w.
Proof.
  revert w. induction calls as [|[[onOpen users] e] calls IH];
    intros w Hobj Hlast Hused Hall; [reflexivity|].
  cbn [sendAll rendersAll] in *. destruct Hall as [Hr Hall].
  assert (Henv : heap (setEnv users e w) !! this = Some (Live p)) by exact Hobj.
  destruct (send_live this onOpen _ p Henv)
    as [[Hsend _]|(user & _ & Hcomp & Hdiff & _)].
  - rewrite Hsend in *. cbn [world_of] in *. rewrite (IH _ Henv Hlast Hused Hall).
    reflexivity.
  - apply Hr in Hcomp. destruct Hdiff; congruence.
Qed.

Lemma sendAll_at_most_one this calls w o r :
  heap w !! this = Some o ->
  (forall p, o = Live p -> usedCommandAfterLastRender p = false) ->
  rendersAll r this calls w ->
  exists made : list Event,
    trace (sendAll this calls w) = (trace w ++ made)%list
    /\ length made <= 1 /\ deliveries made = length made.
Proof.
  intros Hobj Hused. destruct o as [p|i n u].
  2:{ intros _. exists []. rewrite app_nil_r.
      rewrite (sendAll_destroyed _ _ _ _ _ _ Hobj). auto. }
  specialize (Hused p eq_refl). revert w Hobj.
  induction calls as [|[[onOpen users] e] calls IH]; intros w Hobj Hall.
  - exists []. rewrite app_nil_r. auto.
  - cbn [sendAll rendersAll] in *. destruct Hall as [Hr Hall].
    assert (Henv : heap (setEnv users e w) !! this = Some (Live p)) by exact Hobj.
    destruct (send_live this onOpen _ p Henv)
      as [[Hsend _]|(user & _ & Hcomp & _ & Hsend)];
      rewrite Hsend in *; cbn [world_of] in *.
    + destruct (IH _ Henv Hall) as (made & Htr & Hlen). exists made. auto.
    + destruct (deliveredWorld_trace this onOpen p user (setEnv users e w))
        as (call & Htr & Hdel & _).
      exists [call]. split; [|split; [auto|]].
      * rewrite (sendAll_memoized this calls _
                   (set_usedCommandAfterLastRender false
                      (set_lastRender (render onOpen p (ext (setEnv users e w))) p)) r).
        -- exact Htr.
        -- rewrite deliveredWorld_heap. apply list_lookup_insert_eq.
           eapply lookup_lt_Some; exact Henv.
        -- cbn. apply Hr. exact Hcomp.
        -- reflexivity.
        -- exact Hall.
      * unfold deliveries. cbn. rewrite Hdel. reflexivity.
Qed.

(** C1. If the render a [send()] computes equals [lastRender] and the
    forced-send flag is unset, the call delivers nothing (it leaves the
    world as it was); across a sequence of [send()] calls whose computed
    renders are all the same, started with the flag unset, at most one call
    is made on the transport; and a [send()] whose computed render differs
    from [lastRender] makes exactly one delivery call. *)
Theorem send_memoization (this : nat) (w : World) (o : Page)
    (Hobj : heap w !! this = Some o) :
  (forall onOpen p,
      o = Live p ->
      computedRender this onOpen w = Some (lastRender p) ->
      usedCommandAfterLastRender p = false ->
      send this onOpen w = Ok tt w)
  /\ (forall calls r,
        (forall p, o = Live p -> usedCommandAfterLastRender p = false) ->
        rendersAll r this calls w ->
        exists made : list Event,
          trace (sendAll this calls w) = (trace w ++ made)%list
          /\ length made <= 1 /\ deliveries made = length made)
  /\ (forall onOpen p r,
        o = Live p ->
        computedRender this onOpen w = Some r ->
        r <> lastRender p ->
        exists call,
          isDelivery call = true
          /\ trace (world_of (send this onOpen w)) = (trace w ++ [call])%list).
Proof.
  split; [|split].
  - intros onOpen p -> Hcomp Hused.
    destruct (send_live this onOpen w p Hobj) as [[Hsend _]|(user & _ & Hc & Hdiff & _)];
      [exact Hsend|].
    rewrite Hc in Hcomp. injection Hcomp as Hcomp. destruct Hdiff; congruence.
  - intros calls r Hused Hall. exact (sendAll_at_most_one _ _ _ _ _ Hobj Hused Hall).
  - intros onOpen p r -> Hcomp Hne.
    destruct (send_live this onOpen w p Hobj)
      as [[_ [Hc|[Hc _]]]|(user & _ & _ & _ & Hsend)]; try congruence.
    rewrite Hsend. cbn [world_of].
    destruct (deliveredWorld_trace this onOpen p user w) as (call & Htr & Hdel & _).
    exists call. auto.
Qed.
End SendSequences.

(** ** The registry *)

Section Registry.
Context `{Collaborators} `{PageType}.

Lemma destroy_live this w p :
  heap w !! this = Some (Live p) ->
  destroy this w =
  Ok tt (set_heap (<[this := unrefProperties p]> (heap w))
           (set_pageList (delete (userId p) (pageList w))
              (set_trace (trace w ++ (ComponentDestroy <$> components p)) w))).
Proof. intros Hobj. unfold destroy. run_with Hobj. reflexivity. Qed.

Lemma destroy_destroyed this w i n u :
  heap w !! this = Some (Destroyed i n u) -> destroy this w = Throw TypeError w.
Proof. intros Hobj. unfold destroy. run_with Hobj. reflexivity. Qed.

Lemma destroyAt_stored key w stored :
  pageList w !! key = Some stored -> destroyAt key w = destroy stored w.
Proof. intros Hkey. unfold destroyAt. unfold_monad. cbn. rewrite Hkey. reflexivity. Qed.

Lemma destroyAt_none key w :
  pageList w !! key = None -> destroyAt key w = Throw TypeError w.
Proof. intros Hkey. unfold destroyAt. unfold_monad. cbn. rewrite Hkey. reflexivity. Qed.

(** The page object the constructor builds before it registers it. *)
Lemma setCloseButton_fields options p :
  let p' := setCloseButton options p in
  userId p' = userId p /\ lastRender p' = lastRender p
  /\ usedCommandAfterLastRender p' = usedCommandAfterLastRender p
  /\ chatUhtmlName p' = chatUhtmlName p /\ baseChatUhtmlName p' = baseChatUhtmlName p
  /\ pageId p' = pageId p /\ room p' = room p.
Proof. unfold setCloseButton. destruct (nonEmpty (chatUhtmlName p)); cbn; auto 10. Qed.

Lemma setSwitchLocationButton_fields p :
  let p' := setSwitchLocationButton p in
  userId p' = userId p /\ lastRender p' = lastRender p
  /\ usedCommandAfterLastRender p' = usedCommandAfterLastRender p
  /\ chatUhtmlName p' = chatUhtmlName p /\ baseChatUhtmlName p' = baseChatUhtmlName p
  /\ pageId p' = pageId p /\ room p' = room p.
Proof. unfold setSwitchLocationButton. destruct (showSwitchLocationButton p); cbn; auto 10. Qed.

(** Line 50 on an identity that names an inherited member and has no page:
    the [in] test succeeds, the inherited member has no [destroy], and the
    constructor raises before line 51, leaving the world as it was. *)
Lemma constructor_inherited_raises pageId_ room_ user baseCommand_ w :
  pageList w !! id user = None -> inherited (id user) = true ->
  constructor pageId_ room_ user baseCommand_ w = Throw TypeError w.
Proof.
  intros Hnone Hinh. unfold constructor, destroyAt, hasKey. unfold_monad. cbn.
  rewrite Hnone, Hinh. cbn. rewrite Hnone. reflexivity.
Qed.

(** What a construction does to a consistent registry, for an identity
    that has a page or names no inherited member. *)
Lemma constructor_ok pageId_ room_ user baseCommand_ w :
  registry_ok w ->
  (pageList w !! id user = None -> inherited (id user) = false) ->
  exists w' p,
    constructor pageId_ room_ user baseCommand_ w = Ok (length (heap w)) w'
    /\ pageList w' = <[id user := length (heap w)]> (pageList w)
    /\ length (heap w') = S (length (heap w))
    /\ heap w' !! length (heap w) = Some (Live p)
    /\ (userId p = id user /\ lastRender p = "" /\ usedCommandAfterLastRender p = false
        /\ chatUhtmlName p = "" /\ pageId p = pageId_ /\ room p = room_)
    /\ (forall r, r < length (heap w) -> pageList w !! id user <> Some r ->
                  heap w' !! r = heap w !! r)
    /\ (forall r, pageList w !! id user = Some r -> closed <$> heap w' !! r = Some true)
    /\ (forall r, closed <$> heap w !! r = Some true -> closed <$> heap w' !! r = Some true)
    /\ Users_get w' = Users_get w /\ ext w' = ext w
    /\ deliveries (trace w') = deliveries (trace w)
    /\ retractions (trace w') = retractions (trace w).
Proof.
  intros [Hentries Hlive] Hplain.
  set (p0 := {| pageId := pageId_; baseChatUhtmlName := ""; chatUhtmlName := "";
       closeButtonHtml := ""; components := []; globalRoomPage := false;
       lastRender := ""; readonly := false; showSwitchLocationButton := false;
       switchLocationButtonHtml := ""; usedCommandAfterLastRender := false;
       baseCommand := baseCommand_;
       commandPrefix :=
         commandCharacter +:+ baseCommand_ +:+ " " +:+
         (match room_alias room_ with
          | Some a => if nonEmpty a then a else room_id room_
          | None => room_id room_
          end);
       room := room_; isRoomStaff := false; userName := ""; userId := "" |}).
  set (p1 := setCloseButton None (setUser (Users_get w) user p0)).
  assert (Hp1 : userId p1 = id user /\ lastRender p1 = "" /\ usedCommandAfterLastRender p1 = false
        /\ chatUhtmlName p1 = "" /\ pageId p1 = pageId_ /\ room p1 = room_).
  { unfold p1. destruct (setCloseButton_fields None (setUser (Users_get w) user p0))
      as (-> & -> & -> & -> & _ & -> & ->). cbn. auto 10. }
  unfold constructor, destroyAt, hasKey. unfold_monad. cbn. fold p0 p1.
  destruct (pageList w !! id user) as [old|] eqn:Hold.
  - destruct (Hentries _ _ Hold) as (pOld & _ & HpOld & Huid).
    assert (Hlt : old < length (heap w)) by (eapply lookup_lt_Some; eauto).
    cbn. rewrite Hold. rewrite (destroy_live old _ pOld HpOld).
    cbn. eexists _, p1. split; [reflexivity|]. cbn. rewrite Huid.
    repeat split; try apply Hp1.
    + apply insert_delete_eq.
    + rewrite length_app, length_insert. cbn. lia.
    + rewrite lookup_app_r by (rewrite length_insert; lia).
      rewrite length_insert, Nat.sub_diag. reflexivity.
    + intros r Hr Hne. rewrite lookup_app_l by (rewrite length_insert; exact Hr).
      apply list_lookup_insert_ne. congruence.
    + intros r [= <-]. rewrite lookup_app_l by (rewrite length_insert; exact Hlt).
      rewrite list_lookup_insert_eq by exact Hlt. reflexivity.
    + intros r Hc. destruct (heap w !! r) eqn:Hr; [|discriminate].
      assert (Hrlt : r < length (heap w)) by (eapply lookup_lt_Some; eauto).
      rewrite lookup_app_l by (rewrite length_insert; exact Hrlt).
      destruct (decide (old = r)) as [<-|Hne].
      * rewrite list_lookup_insert_eq by exact Hlt. reflexivity.
      * rewrite list_lookup_insert_ne by exact Hne. rewrite Hr. exact Hc.
    + unfold deliveries. rewrite filter_app, length_app.
      replace (length (filter _ (ComponentDestroy <$> components pOld))) with 0; [lia|].
      induction (components pOld); [reflexivity|]. cbn. assumption.
    + unfold retractions. rewrite filter_app, length_app.
      replace (length (filter _ (ComponentDestroy <$> components pOld))) with 0; [lia|].
      induction (components pOld); [reflexivity|]. cbn. assumption.
  - rewrite (Hplain eq_refl). cbn.
    eexists _, p1. split; [reflexivity|]. cbn.
    repeat split; try apply Hp1.
    + rewrite length_app. cbn. lia.
    + rewrite lookup_app_r by lia. rewrite Nat.sub_diag. reflexivity.
    + intros r Hr _. apply lookup_app_l. exact Hr.
    + discriminate.
    + intros r Hc. destruct (heap w !! r) eqn:Hr; [|discriminate].
      rewrite lookup_app_l by (eapply lookup_lt_Some; eauto). rewrite Hr. exact Hc.
Qed.
End Registry.

(** ** [switchLocation] *)

Section SwitchLocation.
Context `{Collaborators} `{PageType}.

(** One call on a live page: the page stays live, only the object itself
    and the trace change, and the overlay name becomes the empty string if
    it was non-empty and the base overlay name otherwise. *)
Lemma switchLocation_live this w p :
  heap w !! this = Some (Live p) ->
  exists w' p' (calls : list Event),
    switchLocation this w = Ok tt w'
    /\ heap w' = <[this := Live p']> (heap w)
    /\ chatUhtmlName p' =
         (if nonEmpty (chatUhtmlName p) then "" else baseChatUhtmlName p)
    /\ baseChatUhtmlName p' = baseChatUhtmlName p
    /\ userId p' = userId p
    /\ pageList w' = pageList w
    /\ Users_get w' = Users_get w
    /\ trace w' = (trace w ++ calls)%list
    /\ (nonEmpty (chatUhtmlName p) = false -> nonEmpty (baseChatUhtmlName p) = false ->
        Forall (fun e => isOverlayCall e = false) calls).
Proof.
  intros Hobj.
  assert (Hlt : this < length (heap w)) by (eapply lookup_lt_Some; eauto).
  set (p1 := if nonEmpty (chatUhtmlName p) then set_chatUhtmlName "" p
             else set_chatUhtmlName (baseChatUhtmlName p) p).
  set (p4 := setCloseButton None
               (setSwitchLocationButton (set_usedCommandAfterLastRender true p1))).
  assert (Hp4 : userId p4 = userId p
                /\ chatUhtmlName p4 =
                     (if nonEmpty (chatUhtmlName p) then "" else baseChatUhtmlName p)
                /\ baseChatUhtmlName p4 = baseChatUhtmlName p
                /\ pageId p4 = pageId p /\ room p4 = room p).
  { unfold p4.
    destruct (setCloseButton_fields None
                (setSwitchLocationButton (set_usedCommandAfterLastRender true p1)))
      as (-> & _ & _ & -> & -> & -> & ->).
    destruct (setSwitchLocationButton_fields (set_usedCommandAfterLastRender true p1))
      as (-> & _ & _ & -> & -> & -> & ->).
    unfold p1. destruct (nonEmpty (chatUhtmlName p)); cbn; auto. }
  destruct Hp4 as (Hu4 & Hc4 & Hb4 & Hi4 & Hr4).
  set (wa := set_heap (<[this := Live p4]> (heap w)) w).
  assert (Ha : heap wa !! this = Some (Live p4))
    by (cbn; apply list_lookup_insert_eq; exact Hlt).
  assert (Hstart : switchLocation this w =
    (send this None;;
     o' ← readObj this;
     w0 ← get;
     match Users_get w0 (userId_of o') with
     | Some user =>
         if negb (nonEmpty (chatUhtmlName p)) then temporarilyClose this
         else
           match o' with
           | Live p' =>
               emit (SayPrivateUhtml (room p') user (baseChatUhtmlName p')
                       "<div>Successfully moved to an HTML page.</div>")
           | Destroyed _ _ _ => throw TypeError
           end
     | None => mret tt
     end) wa).
  { unfold switchLocation. unfold mbind at 1, M_bind at 1, readObj at 1.
    rewrite Hobj. reflexivity. }
  rewrite Hstart. clear Hstart.
  assert (Hafter : exists wb p5 (sent : list Event),
             send this None wa = Ok tt wb
             /\ heap wb = <[this := Live p5]> (heap w)
             /\ chatUhtmlName p5 = chatUhtmlName p4
             /\ baseChatUhtmlName p5 = baseChatUhtmlName p4
             /\ userId p5 = userId p4 /\ pageId p5 = pageId p4 /\ room p5 = room p4
             /\ pageList wb = pageList w /\ Users_get wb = Users_get w
             /\ trace wb = (trace w ++ sent)%list
             /\ (nonEmpty (chatUhtmlName p4) = false ->
                 Forall (fun e => isOverlayCall e = false) sent)).
  { destruct (send_live this None wa p4 Ha) as [[Hsend _]|(user & _ & _ & _ & Hsend)].
    - exists wa, p4, []. rewrite app_nil_r. repeat split; auto.
    - destruct (deliveredWorld_trace this None p4 user wa) as (call & Htr & _ & Hcall).
      exists (deliveredWorld this None p4 user wa),
        (set_usedCommandAfterLastRender false
           (set_lastRender (render None p4 (ext wa)) p4)), [call].
      split; [exact Hsend|].
      rewrite deliveredWorld_heap, deliveredWorld_pageList, deliveredWorld_Users, Htr.
      cbn. rewrite list_insert_insert_eq. repeat split; auto.
      intros Hstand. rewrite Hstand in Hcall. subst call. repeat constructor. }
  destruct Hafter as (wb & p5 & sent & Hsend & Hheap & Hc5 & Hb5 & Hu5 & Hi5 & Hr5
                      & Hpl & Hus & Htr & Hsent).
  assert (Hb : heap wb !! this = Some (Live p5))
    by (rewrite Hheap; apply list_lookup_insert_eq; exact Hlt).
  unfold mbind at 1, M_bind at 1. rewrite Hsend.
  unfold mbind at 1, M_bind at 1, readObj at 1. rewrite Hb.
  unfold mbind at 1, M_bind at 1, get at 1. cbn [userId_of].
  destruct (Users_get wb (userId p5)) as [user|] eqn:Huser.
  - destruct (nonEmpty (chatUhtmlName p)) eqn:Hmode; cbn [negb].
    + eexists _, p5, _. split; [reflexivity|]. cbn.
      rewrite Hc5, Hc4, Hb5, Hb4, Hu5, Hu4, Htr, <- app_assoc.
      repeat split; auto. discriminate.
    + unfold temporarilyClose. unfold_monad. rewrite Hb. cbn [userId_of].
      rewrite Huser. eexists _, p5, _. split; [reflexivity|]. cbn.
      rewrite Hc5, Hc4, Hb5, Hb4, Hu5, Hu4, Htr, <- app_assoc.
      repeat split; auto. intros _ Hbase.
      apply Forall_app. split; [|repeat constructor].
      apply Hsent. rewrite Hc4. exact Hbase.
  - eexists wb, p5, sent. split; [reflexivity|].
    rewrite Hc5, Hc4, Hb5, Hb4, Hu5, Hu4.
    repeat split; auto. intros Hm Hbase. apply Hsent. rewrite Hc4, Hm. exact Hbase.
Qed.
End SwitchLocation.

Section SwitchLocationClaims.
Context `{Collaborators} `{PageType}.

Lemma switchLocations_live n : forall this w p,
  heap w !! this = Some (Live p) ->
  exists p', heap (switchLocations n this w) !! this = Some (Live p').
Proof.
  induction n as [|n IH]; intros this w p Hobj; [eauto|].
  destruct (switchLocation_live this w p Hobj) as (w' & p' & calls & Hrun & Hheap & _).
  cbn [switchLocations]. rewrite Hrun. cbn [world_of].
  apply (IH this w' p'). rewrite Hheap. apply list_lookup_insert_eq.
  eapply lookup_lt_Some; eauto.
Qed.

(** C10. On a live page whose base overlay name is the empty string and
    which is in standalone mode, [switchLocation()] assigns the empty base
    name to the overlay name: however often it is called, the page stays
    live and standalone, and no overlay call is made on the transport. *)
Theorem switchLocation_empty_base_stays_standalone (n : nat) (this : nat) (w : World)
    (p : HtmlPageBase)
    (Hobj : heap w !! this = Some (Live p))
    (Hbase : baseChatUhtmlName p = "")
    (Hchat : chatUhtmlName p = "") :
  exists p' (calls : list Event),
    heap (switchLocations n this w) !! this = Some (Live p')
    /\ chatUhtmlName p' = "" /\ baseChatUhtmlName p' = ""
    /\ deliveryChannel p' = standalone
    /\ trace (switchLocations n this w) = (trace w ++ calls)%list
    /\ Forall (fun e => isOverlayCall e = false) calls.
Proof.
  revert w p Hobj Hbase Hchat. induction n as [|n IH]; intros w p Hobj Hbase Hchat.
  - exists p, []. rewrite app_nil_r. unfold deliveryChannel. rewrite Hchat.
    repeat split; auto.
  - destruct (switchLocation_live this w p Hobj)
      as (w' & p' & calls & Hrun & Hheap & Hc & Hb & _ & _ & _ & Htr & Hno).
    cbn [switchLocations]. rewrite Hrun. cbn [world_of].
    rewrite Hchat, Hbase in Hc. cbn in Hc. rewrite Hbase in Hb.
    destruct (IH w' p') as (p'' & calls' & Hobj' & Hc' & Hb' & Hd' & Htr' & Hno'); auto.
    { rewrite Hheap. apply list_lookup_insert_eq. eapply lookup_lt_Some; eauto. }
    exists p'', (calls ++ calls')%list. repeat split; auto.
    + rewrite Htr', Htr, app_assoc. reflexivity.
    + apply Forall_app. split; [|exact Hno'].
      apply Hno; rewrite ?Hchat, ?Hbase; reflexivity.
Qed.

(** C4 (amended). On a live page whose overlay name is empty or is its base
    overlay name, a [switchLocation()] call leaves the page live with the
    overlay name emptied if it was non-empty and set to the base overlay
    name otherwise, so that the page is on exactly one channel, and a
    second call returns the overlay name, and with it the delivery channel,
    to its original value. *)
Theorem switchLocation_twice_restores_channel (this : nat) (w : World) (p : HtmlPageBase)
    (Hobj : heap w !! this = Some (Live p))
    (Hname : chatUhtmlName p = "" \/ chatUhtmlName p = baseChatUhtmlName p) :
  exists p1 p2,
    heap (switchLocations 1 this w) !! this = Some (Live p1)
    /\ heap (switchLocations 2 this w) !! this = Some (Live p2)
    /\ chatUhtmlName p1 =
         (if nonEmpty (chatUhtmlName p) then "" else baseChatUhtmlName p)
    /\ deliveryChannel p1 =
         match deliveryChannel p with
         | overlay _ => standalone
         | standalone =>
             if nonEmpty (baseChatUhtmlName p) then overlay (baseChatUhtmlName p)
             else standalone
         end
    /\ chatUhtmlName p2 = chatUhtmlName p
    /\ deliveryChannel p2 = deliveryChannel p.
Proof.
  destruct (switchLocation_live this w p Hobj)
    as (w1 & p1 & calls1 & Hrun1 & Hheap1 & Hc1 & Hb1 & _).
  assert (Hobj1 : heap w1 !! this = Some (Live p1)).
  { rewrite Hheap1. apply list_lookup_insert_eq. eapply lookup_lt_Some; eauto. }
  destruct (switchLocation_live this w1 p1 Hobj1)
    as (w2 & p2 & calls2 & Hrun2 & Hheap2 & Hc2 & Hb2 & _).
  assert (Hobj2 : heap w2 !! this = Some (Live p2)).
  { rewrite Hheap2. apply list_lookup_insert_eq. eapply lookup_lt_Some; eauto. }
  exists p1, p2. cbn [switchLocations]. rewrite Hrun1. cbn [world_of]. rewrite Hrun2.
  cbn [world_of].
  assert (Hback : chatUhtmlName p2 = chatUhtmlName p).
  { rewrite Hc2, Hc1, Hb1.
    destruct (nonEmpty (chatUhtmlName p)) eqn:Hmode.
    - cbn. destruct Hname as [Hn|Hn]; [|congruence].
      rewrite Hn in Hmode. discriminate.
    - apply nonEmpty_false in Hmode. rewrite Hmode.
      destruct (nonEmpty (baseChatUhtmlName p)) eqn:Hbase; [reflexivity|].
      apply nonEmpty_false in Hbase. exact Hbase. }
  repeat split; auto.
  - unfold deliveryChannel. rewrite Hc1.
    destruct (nonEmpty (chatUhtmlName p)); [reflexivity|].
    destruct (nonEmpty (baseChatUhtmlName p)); reflexivity.
  - unfold deliveryChannel. rewrite Hback. reflexivity.
Qed.
End SwitchLocationClaims.

Section RegistryClaims.
Context `{Collaborators} `{PageType}.

Lemma registry_ok_empty users e :
  registry_ok {| heap := []; pageList := ∅; Users_get := users; trace := []; ext := e |}.
Proof.
  split; cbn.
  - intros k r Hk. rewrite lookup_empty in Hk. discriminate.
  - intros r p Hr. destruct r; discriminate.
Qed.

Lemma registry_ok_unique w userId_ : registry_ok w -> at_most_one_live w userId_.
Proof.
  intros [_ Hlive] r1 r2 p1 p2 H1 Hu1 H2 Hu2.
  apply Hlive in H1, H2. rewrite Hu1 in H1. rewrite Hu2 in H2. congruence.
Qed.

(** A construction that returns was made for an identity that has a page
    or names no inherited member. *)
Lemma constructor_returns_plain pageId_ room_ user baseCommand_ w this w' :
  constructor pageId_ room_ user baseCommand_ w = Ok this w' ->
  pageList w !! id user = None -> inherited (id user) = false.
Proof.
  intros Hrun Hnone. destruct (inherited (id user)) eqn:Hinh; [|reflexivity].
  rewrite (constructor_inherited_raises _ _ _ _ _ Hnone Hinh) in Hrun. discriminate.
Qed.

Lemma constructor_registry_ok pageId_ room_ user baseCommand_ w this w' :
  registry_ok w ->
  constructor pageId_ room_ user baseCommand_ w = Ok this w' ->
  registry_ok w'.
Proof.
  intros Hok Hrun.
  destruct (constructor_ok pageId_ room_ user baseCommand_ w Hok
              (constructor_returns_plain _ _ _ _ _ _ _ Hrun))
    as (w1 & p & Hrun1 & Hpl & Hlen & Hnew & (Hu & _) & Hkeep & Hold & _).
  rewrite Hrun in Hrun1. injection Hrun1 as -> ->.
  destruct Hok as [Hentries Hlive]. split.
  - intros k r Hk. rewrite Hpl in Hk.
    destruct (decide (id user = k)) as [<-|Hne].
    + rewrite lookup_insert_eq in Hk. injection Hk as <-.
      exists p. repeat split; auto. rewrite Hpl. apply lookup_insert_eq.
    + rewrite lookup_insert_ne in Hk by exact Hne.
      destruct (Hentries _ _ Hk) as (q & _ & Hq & Huq).
      exists q. repeat split; auto.
      * rewrite Hpl, lookup_insert_ne by exact Hne. exact Hk.
      * rewrite Hkeep; [exact Hq | eapply lookup_lt_Some; eauto |].
        intros Hsame. destruct (Hentries _ _ Hsame) as (q' & _ & Hq' & Huq'). congruence.
  - intros r q Hq. rewrite Hpl.
    destruct (decide (r = length (heap w))) as [->|Hne].
    + rewrite Hnew in Hq. injection Hq as <-. rewrite Hu. apply lookup_insert_eq.
    + assert (Hlt : r < length (heap w)).
      { apply lookup_lt_Some in Hq. lia. }
      destruct (decide (pageList w !! id user = Some r)) as [Hsame|Hother].
      * specialize (Hold _ Hsame). rewrite Hq in Hold. discriminate.
      * rewrite (Hkeep _ Hlt Hother) in Hq.
        pose proof (Hlive _ _ Hq) as Hreg.
        rewrite lookup_insert_ne; [exact Hreg|]. congruence.
Qed.

Lemma registry_ok_same w1 w2 :
  heap w1 = heap w2 -> pageList w1 = pageList w2 -> registry_ok w1 -> registry_ok w2.
Proof.
  intros Hh Hp [Hentries Hlive]. unfold registry_ok, registered.
  rewrite <- Hh, <- Hp. split; assumption.
Qed.

Lemma destroy_registry_ok this w p :
  registry_ok w -> heap w !! this = Some (Live p) ->
  registry_ok (world_of (destroy this w)).
Proof.
  intros [Hentries Hlive] Hobj. rewrite (destroy_live this w p Hobj). cbn [world_of].
  split; cbn.
  - intros k r Hk. apply lookup_delete_Some in Hk as [Hne Hk].
    destruct (Hentries _ _ Hk) as (q & _ & Hq & Hu).
    exists q. repeat split; cbn; auto.
    + rewrite lookup_delete_ne by exact Hne. exact Hk.
    + rewrite list_lookup_insert_ne; [exact Hq|]. intros <-. congruence.
  - intros r q Hq.
    destruct (decide (this = r)) as [<-|Hne].
    + rewrite list_lookup_insert_eq in Hq by (eapply lookup_lt_Some; eauto).
      discriminate.
    + rewrite list_lookup_insert_ne in Hq by exact Hne.
      pose proof (Hlive _ _ Hq) as Hreg. pose proof (Hlive _ _ Hobj) as Hthis.
      rewrite lookup_delete_ne; [exact Hreg|]. intros Heq.
      rewrite Heq in Hthis. congruence.
Qed.

Lemma close_registry_ok this w p :
  registry_ok w -> heap w !! this = Some (Live p) ->
  registry_ok (world_of (close this w)).
Proof.
  intros Hok Hobj. unfold close. run_with Hobj.
  destruct (Users_get w (userId p)) as [user|]; destruct onClose as [hook|]; cbn;
    match goal with
    | |- registry_ok (world_of (destroy this ?w0)) =>
        apply (destroy_registry_ok this w0 p);
          [apply (registry_ok_same w w0); [reflexivity | reflexivity | exact Hok]
          | exact Hobj]
    end.
Qed.

(** A run of constructions for one identity that names no inherited
    member, from a consistent registry. *)
Lemma registerAll_spec pageId_ userId_ calls : inherited userId_ = false -> forall w,
  registry_ok w ->
  Forall (fun '(_, user, _) => id user = userId_) calls ->
  length (registerAll pageId_ calls w) = length calls
  /\ forall i this wi,
       registerAll pageId_ calls w !! i = Some (this, wi) ->
       registry_ok wi
       /\ (exists p, registered wi userId_ this p)
       /\ (forall r, closed <$> heap w !! r = Some true ->
                     closed <$> heap wi !! r = Some true)
       /\ (forall r, pageList w !! userId_ = Some r ->
                     closed <$> heap wi !! r = Some true)
       /\ (forall j this' wj,
             j < i -> registerAll pageId_ calls w !! j = Some (this', wj) ->
             closed <$> heap wi !! this' = Some true).
Proof.
  intros Hplain.
  induction calls as [|[[room_ user] baseCommand_] calls IH]; intros w Hok Hcalls.
  - split; [reflexivity|]. intros i this wi Hi. destruct i; discriminate.
  - apply Forall_cons in Hcalls as [Hid Hcalls].
    destruct (constructor_ok pageId_ room_ user baseCommand_ w Hok)
      as (w1 & p & Hrun & Hpl & Hlen & Hnew & (Hu & _) & Hkeep & Hold & Hclosed & _);
      [intros _; rewrite Hid; exact Hplain|].
    pose proof (constructor_registry_ok _ _ _ _ _ _ _ Hok Hrun) as Hok1.
    cbn [registerAll]. rewrite Hrun.
    destruct (IH w1 Hok1 Hcalls) as [Hlength Hsteps].
    split; [cbn; rewrite Hlength; reflexivity|].
    assert (Hreg1 : pageList w1 !! userId_ = Some (length (heap w))).
    { rewrite Hpl, Hid. apply lookup_insert_eq. }
    intros [|i] this wi Hi; cbn in Hi.
    + injection Hi as <- <-. split; [exact Hok1|]. split; [|split; [|split]].
      * exists p. repeat split; auto. congruence.
      * exact Hclosed.
      * intros r Hr. apply Hold. rewrite Hid. exact Hr.
      * intros j this' wj Hj. lia.
    + destruct (Hsteps i this wi Hi) as (Hoki & Hregi & Hci & Holdi & Hearlier).
      split; [exact Hoki|]. split; [exact Hregi|]. split; [|split].
      * intros r Hr. apply Hci, Hclosed, Hr.
      * intros r Hr. apply Hci, Hold. rewrite Hid. exact Hr.
      * intros [|j] this' wj Hlt Hj; cbn in Hj.
        -- injection Hj as <- <-. apply Holdi. exact Hreg1.
        -- apply (Hearlier j this' wj); [lia | exact Hj].
Qed.

(** X23. For an identity that names no member plain objects inherit:
    from a consistent registry, every sequence of page constructions under
    that identity runs without raising, and after each construction of the
    sequence the registry's lookup for the identity returns the page just
    constructed, which is live and bound to the identity; every page
    constructed earlier in the sequence has [closed = true]; and at most one
    non-closed page is bound to the identity. *)
Theorem register_replaces_previous (pageId_ userId_ : string)
    (calls : list (Room * User * string)) (w : World)
    (Hplain : inherited userId_ = false)
    (Hok : registry_ok w)
    (Hcalls : Forall (fun '(_, user, _) => id user = userId_) calls) :
  length (registerAll pageId_ calls w) = length calls
  /\ forall i this wi,
       registerAll pageId_ calls w !! i = Some (this, wi) ->
       (exists p, lookup_page wi userId_ = Some (Live p)
                  /\ heap wi !! this = Some (Live p)
                  /\ pageList wi !! userId_ = Some this
                  /\ userId p = userId_)
       /\ (forall j this' wj,
             j < i -> registerAll pageId_ calls w !! j = Some (this', wj) ->
             closed <$> heap wi !! this' = Some true)
       /\ at_most_one_live wi userId_.
Proof.
  destruct (registerAll_spec pageId_ userId_ calls Hplain w Hok Hcalls)
    as [Hlength Hsteps].
  split; [exact Hlength|]. intros i this wi Hi.
  destruct (Hsteps i this wi Hi) as (Hoki & (p & Hpl & Hp & Hu) & _ & _ & Hearlier).
  split; [|split].
  - exists p. repeat split; auto. unfold lookup_page. rewrite Hpl. exact Hp.
  - exact Hearlier.
  - apply registry_ok_unique. exact Hoki.
Qed.

(** The page a construction returns: the new object, live, as lines 42-48
    leave it. *)
Lemma constructor_returned pageId_ room_ user baseCommand_ w this w1 :
  constructor pageId_ room_ user baseCommand_ w = Ok this w1 ->
  exists p,
    heap w1 !! this = Some (Live p)
    /\ userId p = id user /\ lastRender p = "" /\ usedCommandAfterLastRender p = false
    /\ chatUhtmlName p = "" /\ pageId p = pageId_ /\ room p = room_.
Proof.
  set (p0 := {| pageId := pageId_; baseChatUhtmlName := ""; chatUhtmlName := "";
       closeButtonHtml := ""; components := []; globalRoomPage := false;
       lastRender := ""; readonly := false; showSwitchLocationButton := false;
       switchLocationButtonHtml := ""; usedCommandAfterLastRender := false;
       baseCommand := baseCommand_;
       commandPrefix :=
         commandCharacter +:+ baseCommand_ +:+ " " +:+
         (match room_alias room_ with
          | Some a => if nonEmpty a then a else room_id room_
          | None => room_id room_
          end);
       room := room_; isRoomStaff := false; userName := ""; userId := "" |}).
  set (p1 := setCloseButton None (setUser (Users_get w) user p0)).
  assert (Hp1 : userId p1 = id user /\ lastRender p1 = "" /\ usedCommandAfterLastRender p1 = false
        /\ chatUhtmlName p1 = "" /\ pageId p1 = pageId_ /\ room p1 = room_).
  { unfold p1. destruct (setCloseButton_fields None (setUser (Users_get w) user p0))
      as (-> & -> & -> & -> & _ & -> & ->). cbn. auto 10. }
  unfold constructor, destroyAt, hasKey. unfold_monad. cbn. fold p0 p1.
  destruct (pageList w !! id user) as [old|] eqn:Hold; cbn.
  - rewrite Hold. unfold destroy. unfold_monad. cbn.
    destruct (heap w !! old) as [[pOld|i n u]|] eqn:HpOld; cbn; try discriminate.
    intros [= <- <-]. exists p1. cbn. split; [|exact Hp1].
    rewrite lookup_app_r by (rewrite length_insert; lia).
    rewrite length_insert, Nat.sub_diag. reflexivity.
  - destruct (inherited (id user)); cbn; [rewrite Hold; discriminate|].
    intros [= <- <-]. exists p1. cbn. split; [|exact Hp1].
    rewrite lookup_app_r by lia. rewrite Nat.sub_diag. reflexivity.
Qed.

(** C6 (amended). [open()] is [send(true)], and the memoization check
    applies to it as to any send: on a page fresh from the constructor
    ([lastRender] empty, forced-send flag unset), when the send computes a
    render, the standalone delivery is made if that render is non-empty, and
    nothing is delivered if it is the empty string; nothing is delivered
    either when no render is computed. *)
Theorem open_applies_memoization (pageId_ : string) (room_ : Room) (user : User)
    (baseCommand_ : string) (w w1 : World) (this : nat)
    (Hrun : constructor pageId_ room_ user baseCommand_ w = Ok this w1) :
  exists p,
    heap w1 !! this = Some (Live p)
    /\ lastRender p = "" /\ usedCommandAfterLastRender p = false
    /\ open this w1 = send this (Some true) w1
    /\ match computedRender this (Some true) w1 with
       | Some r =>
           if nonEmpty r
           then exists viewer,
                  Users_get w1 (id user) = Some viewer
                  /\ trace (world_of (open this w1)) =
                     (trace w1 ++ [SendHtmlPage room_ viewer pageId_ r])%list
           else open this w1 = Ok tt w1
       | None => open this w1 = Ok tt w1
       end.
Proof.
  destruct (constructor_returned pageId_ room_ user baseCommand_ w this w1 Hrun)
    as (p & Hnew & Hu & Hlast & Hused & Hchat & Hid & Hroom).
  exists p. repeat split; auto.
  unfold open.
  destruct (send_live this (Some true) w1 p Hnew)
    as [[Hsend [Hc|[Hc _]]]|(viewer & Hviewer & Hc & Hdiff & Hsend)]; rewrite Hc.
  - exact Hsend.
  - rewrite Hlast. exact Hsend.
  - destruct Hdiff as [Hdiff|Hdiff]; [|congruence].
    rewrite Hlast in Hdiff. apply (not_iff_compat (nonEmpty_false _)) in Hdiff.
    apply not_false_is_true in Hdiff. rewrite Hdiff.
    exists viewer. split; [congruence|]. rewrite Hsend. cbn [world_of].
    destruct (deliveredWorld_trace this (Some true) p viewer w1)
      as (call & -> & _ & ->).
    rewrite (proj2 (nonEmpty_false _) Hchat), Hid, Hroom. reflexivity.
Qed.
End RegistryClaims.

Section Rename.
Context `{Collaborators} `{PageType}.

(** The branch of [onRenameUser] taken when the [in] test of line 130
    succeeds for the new identity, the old identity having a registered
    page: the world it leaves, and how the call ends. *)
Lemma onRenameUser_new_present this user oldId w pThis pOld rOld :
  oldId <> id user ->
  heap w !! this = Some (Live pThis) ->
  registered w oldId rOld pOld ->
  hasKey (pageList w) (id user) = true ->
  let w' :=
    set_heap (<[rOld := unrefProperties pOld]> (heap w))
      (set_pageList (delete oldId (pageList w))
         (set_trace (trace w ++ (ComponentDestroy <$> components pOld)) w)) in
  onRenameUser this user oldId w =
    (if decide (this = rOld) then Throw TypeError w' else Ok tt w').
Proof.
  intros Hdistinct Hthis (Hko & Hpo & Huo) Hnew.
  assert (Hlt : rOld < length (heap w)) by (eapply lookup_lt_Some; eauto).
  unfold onRenameUser. run_with Hthis.
  rewrite (hasKey_stored _ _ _ Hko), Hnew.
  apply String.eqb_neq in Hdistinct. rewrite Hdistinct. cbn.
  rewrite (destroyAt_stored _ _ _ Hko).
  rewrite (destroy_live rOld w pOld Hpo). cbn. rewrite Huo.
  destruct (decide (this = rOld)) as [->|Hne].
  - rewrite list_lookup_insert_eq by exact Hlt. reflexivity.
  - rewrite list_lookup_insert_ne by congruence. rewrite Hthis. cbn.
    rewrite delete_delete_eq. reflexivity.
Qed.

(** The same when both identities have a page. *)
Lemma onRenameUser_both_registered this user oldId w pThis pOld pNew rOld rNew :
  oldId <> id user ->
  heap w !! this = Some (Live pThis) ->
  registered w oldId rOld pOld ->
  registered w (id user) rNew pNew ->
  let w' :=
    set_heap (<[rOld := unrefProperties pOld]> (heap w))
      (set_pageList (delete oldId (pageList w))
         (set_trace (trace w ++ (ComponentDestroy <$> components pOld)) w)) in
  onRenameUser this user oldId w =
    (if decide (this = rOld) then Throw TypeError w' else Ok tt w').
Proof.
  intros Hdistinct Hthis Hold (Hkn & _).
  apply (onRenameUser_new_present this user oldId w pThis pOld rOld Hdistinct Hthis Hold).
  exact (hasKey_stored _ _ _ Hkn).
Qed.

(** When the receiver is the page registered under the old identity, its
    own [destroy] has released [this.pageList] by the time line 137 reads
    it: the call ends in a [TypeError], after the registry has been
    updated. *)
Lemma onRenameUser_on_old_page_raises user oldId w pOld pNew rOld rNew :
  oldId <> id user ->
  registered w oldId rOld pOld ->
  registered w (id user) rNew pNew ->
  exists w', onRenameUser rOld user oldId w = Throw TypeError w'.
Proof.
  intros Hdistinct Hold Hnew.
  rewrite (onRenameUser_both_registered rOld user oldId w pOld pOld pNew rOld rNew
             Hdistinct (proj1 (proj2 Hold)) Hold Hnew).
  rewrite decide_True by reflexivity. eauto.
Qed.

(** C5. When [onRenameUser] runs, on a live page of the registry, for
    distinct old and new identities that both have a registered page, then
    afterwards the page that was registered under the old identity has
    [closed = true], the lookup of the old identity finds nothing, and the
    new identity still has the same, unchanged page. *)
Theorem onRenameUser_newer_identity_wins (this : nat) (user : User) (oldId : string)
    (w : World) (pThis pOld pNew : HtmlPageBase) (rOld rNew : nat)
    (Hdistinct : oldId <> id user)
    (Hthis : heap w !! this = Some (Live pThis))
    (Hold : registered w oldId rOld pOld)
    (Hnew : registered w (id user) rNew pNew) :
  let w' := world_of (onRenameUser this user oldId w) in
  closed <$> heap w' !! rOld = Some true
  /\ pageList w' !! oldId = None
  /\ lookup_page w' oldId = None
  /\ pageList w' !! id user = Some rNew
  /\ heap w' !! rNew = Some (Live pNew)
  /\ lookup_page w' (id user) = Some (Live pNew).
Proof.
  intros w'. subst w'.
  rewrite (onRenameUser_both_registered this user oldId w pThis pOld pNew rOld rNew
             Hdistinct Hthis Hold Hnew).
  destruct Hold as (Hko & Hpo & Huo). destruct Hnew as (Hkn & Hpn & Hun).
  assert (Hlt : rOld < length (heap w)) by (eapply lookup_lt_Some; eauto).
  assert (Hrefs : rOld <> rNew) by (intros ->; congruence).
  assert (Hdone :
    let w' :=
      set_heap (<[rOld := unrefProperties pOld]> (heap w))
        (set_pageList (delete oldId (pageList w))
           (set_trace (trace w ++ (ComponentDestroy <$> components pOld)) w)) in
    closed <$> heap w' !! rOld = Some true
    /\ pageList w' !! oldId = None
    /\ lookup_page w' oldId = None
    /\ pageList w' !! id user = Some rNew
    /\ heap w' !! rNew = Some (Live pNew)
    /\ lookup_page w' (id user) = Some (Live pNew)).
  { cbn. unfold lookup_page. cbn.
    rewrite lookup_delete_eq, lookup_delete_ne by exact Hdistinct.
    rewrite Hkn. cbn.
    rewrite list_lookup_insert_eq by exact Hlt.
    rewrite list_lookup_insert_ne by exact Hrefs.
    repeat split; auto. }
  destruct (decide (this = rOld)); exact Hdone.
Qed.
End Rename.

(** ** The statements at sample inputs *)

Section Samples.
Existing Instance Sample.collaborators.
Existing Instance Sample.pageType.

(** The life of one page: [open()] delivers the content; a [send()] that
    renders the same content delivers nothing; after the content changed a
    [send()] delivers it; [switchLocation()] delivers into the overlay and
    retracts the standalone page; [close()] retracts and unregisters. *)
Example page_life :
  let w1 := world_of (open 0 Sample.switchableWorld) in
  let w2 := world_of (send 0 None w1) in
  let w3 := world_of (send 0 None (setEnv Sample.online "bye" w2)) in
  let w4 := world_of (switchLocation 0 w3) in
  let w5 := world_of (close 0 w4) in
  trace w1 = [SendHtmlPage Sample.lobby Sample.alice "shop" "hello"]
  /\ trace w2 = trace w1
  /\ trace w3 = (trace w2 ++ [SendHtmlPage Sample.lobby Sample.alice "shop" "bye"])%list
  /\ trace w4 = (trace w3 ++ [SayPrivateUhtml Sample.lobby Sample.alice "shop-base" "bye";
                              CloseHtmlPage Sample.lobby Sample.alice "shop"])%list
  /\ trace w5 = (trace w4 ++ [CloseHtmlPage Sample.lobby Sample.alice "shop"])%list
  /\ lookup_page w5 "alice" = None
  /\ heap w5 !! 0 = Some (Destroyed "shop" "Alice" "alice").
Proof. vm_compute. repeat split; reflexivity. Qed.

(** A rename onto a free identity re-keys the page. *)
Example rename_rekeys :
  let w' := world_of (onRenameUser 0 Sample.bob "alice" Sample.aliceWorld) in
  pageList w' !! "alice" = None /\ pageList w' !! "bob" = Some 0
  /\ userId_of <$> heap w' !! 0 = Some "bob".
Proof. vm_compute. repeat split; reflexivity. Qed.

Lemma send_memoization_witness :
  (exists call,
      isDelivery call = true
      /\ trace (world_of (send 0 None Sample.aliceWorld))
         = (trace Sample.aliceWorld ++ [call])%list)
  /\ (exists made : list Event,
        trace (sendAll 0 Sample.sendCalls Sample.aliceWorld)
        = (trace Sample.aliceWorld ++ made)%list
        /\ length made <= 1 /\ deliveries made = length made)
  /\ send 0 (Some true) (world_of (send 0 None Sample.aliceWorld))
     = Ok tt (world_of (send 0 None Sample.aliceWorld)).
Proof.
  set (w := Sample.aliceWorld). set (calls := Sample.sendCalls).
  assert (Hobj : exists p, heap w !! 0 = Some (Live p)
                           /\ lastRender p = "" /\ usedCommandAfterLastRender p = false).
  { eexists. split; [vm_compute; reflexivity|]. split; reflexivity. }
  destruct Hobj as (p & Hobj & Hlast & Hused).
  destruct (send_memoization 0 w (Live p) Hobj) as (_ & Hseq & Hdiffers).
  split; [|split].
  - apply (Hdiffers None p "hello" eq_refl).
    + vm_compute. reflexivity.
    + rewrite Hlast. discriminate.
  - apply (Hseq calls "hello").
    + intros p0 [= <-]. exact Hused.
    + repeat split; vm_compute; congruence.
  - assert (Hobj1 : exists p1, heap (world_of (send 0 None w)) !! 0 = Some (Live p1)
                               /\ lastRender p1 = "hello"
                               /\ usedCommandAfterLastRender p1 = false).
    { eexists. split; [vm_compute; reflexivity|]. split; reflexivity. }
    destruct Hobj1 as (p1 & Hobj1 & Hlast1 & Hused1).
    apply (proj1 (send_memoization 0 _ (Live p1) Hobj1) (Some true) p1 eq_refl).
    + rewrite Hlast1. vm_compute. reflexivity.
    + exact Hused1.
Defined.

(** C2 does not hold for the identity "constructor": on the empty
    dictionary (a plain object) the [in] test of line 50 finds the inherited
    member of that name, calling its [destroy] raises a [TypeError], and
    line 51 is not reached: the construction registers nothing, and the
    lookup of the identity finds no page. *)
Theorem constructor_inherited_name_raises :
  constructor "shop" Sample.lobby Sample.constructorUser "tpshop" Sample.emptyWorld
  = Throw TypeError Sample.emptyWorld
  /\ registerAll "shop" Sample.inheritedNameCalls Sample.emptyWorld = []
  /\ lookup_page
       (world_of (constructor "shop" Sample.lobby Sample.constructorUser "tpshop"
                    Sample.emptyWorld)) "constructor" = None
  /\ heap (world_of (constructor "shop" Sample.lobby Sample.constructorUser "tpshop"
                       Sample.emptyWorld)) = [].
Proof. vm_compute. repeat split; reflexivity. Qed.

Lemma register_replaces_previous_witness :
  inherited "alice" = false
  /\ registry_ok Sample.emptyWorld
  /\ length (registerAll "shop" Sample.registerCalls Sample.emptyWorld) = 3
  /\ (exists wi,
        registerAll "shop" Sample.registerCalls Sample.emptyWorld !! 2 = Some (2, wi)
        /\ pageList wi !! "alice" = Some 2
        /\ closed <$> heap wi !! 0 = Some true
        /\ closed <$> heap wi !! 1 = Some true
        /\ closed <$> heap wi !! 2 = Some false
        /\ at_most_one_live wi "alice").
Proof.
  set (w := Sample.emptyWorld). set (calls := Sample.registerCalls).
  assert (Hok : registry_ok w) by apply registry_ok_empty.
  assert (Hcalls : Forall (fun '(_, user, _) => id user = "alice") calls)
    by (repeat constructor).
  assert (Hplain : inherited "alice" = false) by reflexivity.
  destruct (register_replaces_previous "shop" "alice" calls w Hplain Hok Hcalls)
    as [Hlength Hsteps].
  split; [exact Hplain|]. split; [exact Hok|]. split; [exact Hlength|].
  destruct (registerAll "shop" calls w !! 2) as [[this wi]|] eqn:Hstep;
    [|apply lookup_ge_None in Hstep; rewrite Hlength in Hstep; cbn in Hstep; lia].
  assert (Hthis : this = 2).
  { assert (Hfst : fst <$> registerAll "shop" calls w !! 2 = Some 2)
      by (vm_compute; reflexivity).
    rewrite Hstep in Hfst. cbn in Hfst. congruence. }
  subst this. exists wi. split; [reflexivity|].
  destruct (Hsteps 2 2 wi Hstep) as ((p & _ & Hp & Hpl & _) & Hearlier & Hone).
  assert (H0 : exists w0, registerAll "shop" calls w !! 0 = Some (0, w0))
    by (eexists; vm_compute; reflexivity).
  assert (H1 : exists w1, registerAll "shop" calls w !! 1 = Some (1, w1))
    by (eexists; vm_compute; reflexivity).
  destruct H0 as (w0 & H0). destruct H1 as (w1 & H1).
  repeat split.
  - exact Hpl.
  - apply (Hearlier 0 0 w0); [lia | exact H0].
  - apply (Hearlier 1 1 w1); [lia | exact H1].
  - rewrite Hp. reflexivity.
  - exact Hone.
Defined.

Lemma close_raises_tryClose_idempotent_witness :
  heap Sample.closedWorld !! 0 = Some (Destroyed "shop" "Alice" "alice")
  /\ close 0 Sample.closedWorld
     = Throw (Error "shop page already closed for user alice") Sample.closedWorld
  /\ tryClose 0 Sample.closedWorld = Ok tt Sample.closedWorld
  /\ tryClose 0 Sample.aliceWorld = close 0 Sample.aliceWorld.
Proof.
  set (w := Sample.closedWorld).
  assert (Hobj : heap w !! 0 = Some (Destroyed "shop" "Alice" "alice"))
    by (vm_compute; reflexivity).
  split; [exact Hobj|].
  destruct (close_raises_tryClose_idempotent 0 w _ Hobj) as [Hclosed _].
  destruct (Hclosed eq_refl) as [Hclose Htry].
  split; [exact Hclose|]. split; [exact Htry|].
  assert (Hlive : exists p, heap Sample.aliceWorld !! 0 = Some (Live p))
    by (eexists; vm_compute; reflexivity).
  destruct Hlive as (p & Hlive).
  exact (proj2 (close_raises_tryClose_idempotent 0 _ _ Hlive) eq_refl).
Defined.

(** C4 as stated fails on a non-closed page in overlay mode under a name
    that is not its base overlay name: after two calls the overlay name is
    the base name, not the original one; and when the base name is empty the
    page is then standalone, not back in the overlay. *)
Lemma switchLocation_twice_stray_overlay :
  (closed <$> heap Sample.strayOverlayWorld !! 0 = Some false
   /\ chatUhtmlName_at Sample.strayOverlayWorld 0 = Some "shop-other"
   /\ chatUhtmlName_at (switchLocations 2 0 Sample.strayOverlayWorld) 0
      = Some "shop-base")
  /\ (closed <$> heap Sample.overlayNoBaseWorld !! 0 = Some false
      /\ chatUhtmlName_at Sample.overlayNoBaseWorld 0 = Some "shop-other"
      /\ chatUhtmlName_at (switchLocations 2 0 Sample.overlayNoBaseWorld) 0 = Some "").
Proof. vm_compute. repeat split; reflexivity. Qed.

Lemma switchLocation_twice_restores_channel_witness :
  heap Sample.switchableWorld !! 0 = Some (Live Sample.switchablePage)
  /\ chatUhtmlName_at (switchLocations 1 0 Sample.switchableWorld) 0 = Some "shop-base"
  /\ chatUhtmlName_at (switchLocations 2 0 Sample.switchableWorld) 0 = Some "".
Proof.
  set (w := Sample.switchableWorld).
  assert (Hobj : heap w !! 0 = Some (Live Sample.switchablePage)) by reflexivity.
  split; [exact Hobj|].
  destruct (switchLocation_twice_restores_channel 0 w Sample.switchablePage Hobj
              (or_introl eq_refl))
    as (p1 & p2 & H1 & H2 & Hc1 & _ & Hc2 & _).
  unfold chatUhtmlName_at. rewrite H1, H2, Hc1, Hc2. split; reflexivity.
Defined.

Lemma onRenameUser_newer_identity_wins_witness :
  pageList Sample.world2 !! "alice" = Some 0 /\ pageList Sample.world2 !! "bob" = Some 1
  /\ closed <$> heap (world_of (onRenameUser 0 Sample.bob "alice" Sample.world2)) !! 0
     = Some true
  /\ lookup_page (world_of (onRenameUser 0 Sample.bob "alice" Sample.world2)) "alice" = None
  /\ pageList (world_of (onRenameUser 0 Sample.bob "alice" Sample.world2)) !! "bob" = Some 1
  /\ heap (world_of (onRenameUser 0 Sample.bob "alice" Sample.world2)) !! 1
     = heap Sample.world2 !! 1.
Proof.
  set (w := Sample.world2). set (w' := world_of (onRenameUser 0 Sample.bob "alice" w)).
  assert (Hold : exists p, registered w "alice" 0 p).
  { eexists. repeat split; vm_compute; reflexivity. }
  assert (Hnew : exists p, registered w (id Sample.bob) 1 p).
  { eexists. repeat split; vm_compute; reflexivity. }
  destruct Hold as (pOld & Hold). destruct Hnew as (pNew & Hnew).
  assert (Hdistinct : "alice" <> id Sample.bob) by discriminate.
  destruct (onRenameUser_newer_identity_wins 0 Sample.bob "alice" w pOld pOld pNew 0 1
              Hdistinct (proj1 (proj2 Hold)) Hold Hnew)
    as (Hclosed & _ & Hgone & Hkept & Hsame & _).
  split; [exact (proj1 Hold)|]. split; [exact (proj1 Hnew)|].
  split; [exact Hclosed|]. split; [exact Hgone|]. split; [exact Hkept|].
  fold w' in Hsame. rewrite Hsame. symmetry. exact (proj1 (proj2 Hnew)).
Defined.

(** C6 as stated fails on a page fresh from the constructor whose render is
    the empty string: the render [open()] computes equals [lastRender], and
    nothing is delivered. *)
Lemma open_fresh_page_empty_render :
  constructor "shop" Sample.lobby Sample.alice "tpshop" (Sample.world Sample.online "")
  = Ok 0 Sample.emptyRenderWorld
  /\ computedRender 0 (Some true) Sample.emptyRenderWorld = Some ""
  /\ open 0 Sample.emptyRenderWorld = Ok tt Sample.emptyRenderWorld
  /\ deliveries (trace (world_of (open 0 Sample.emptyRenderWorld))) = 0.
Proof. vm_compute. repeat split; reflexivity. Qed.

Lemma open_applies_memoization_witness :
  constructor "shop" Sample.lobby Sample.alice "tpshop" Sample.emptyWorld
  = Ok 0 Sample.aliceWorld
  /\ open 0 Sample.aliceWorld = send 0 (Some true) Sample.aliceWorld
  /\ trace (world_of (open 0 Sample.aliceWorld)) =
     [SendHtmlPage Sample.lobby Sample.alice "shop" "hello"].
Proof.
  assert (Hrun : constructor "shop" Sample.lobby Sample.alice "tpshop" Sample.emptyWorld
                 = Ok 0 Sample.aliceWorld) by (vm_compute; reflexivity).
  split; [exact Hrun|].
  destruct (open_applies_memoization "shop" Sample.lobby Sample.alice "tpshop"
              Sample.emptyWorld Sample.aliceWorld 0 Hrun)
    as (p & _ & _ & _ & Hopen & Hmemo).
  split; [exact Hopen|].
  assert (Hc : computedRender 0 (Some true) Sample.aliceWorld
               = Some "hello") by (vm_compute; reflexivity).
  rewrite Hc in Hmemo. cbn in Hmemo. destruct Hmemo as (viewer & Hviewer & Htrace).
  rewrite Htrace.
  assert (Hv : Users_get Sample.aliceWorld "alice" = Some Sample.alice)
    by reflexivity.
  rewrite Hv in Hviewer. injection Hviewer as <-. reflexivity.
Defined.

Lemma send_abort_keeps_lastRender_witness :
  (exists p, heap Sample.aliceOfflineWorld !! 0 = Some (Live p)
             /\ Users_get Sample.aliceOfflineWorld (userId p) = None)
  /\ send 0 None Sample.aliceOfflineWorld = Ok tt Sample.aliceOfflineWorld.
Proof.
  set (w := Sample.aliceOfflineWorld).
  assert (Hobj : exists p, heap w !! 0 = Some (Live p) /\ Users_get w (userId p) = None).
  { eexists. split; [vm_compute; reflexivity | reflexivity]. }
  split; [exact Hobj|]. destruct Hobj as (p & Hobj & Hnone).
  apply (proj1 (send_abort_keeps_lastRender 0 None w (Live p) Hobj)).
  right. right. left. exact Hnone.
Defined.

Lemma temporarilyClose_frame_witness :
  (exists p, heap Sample.aliceWorld !! 0 = Some (Live p))
  /\ heap (world_of (temporarilyClose 0 Sample.aliceWorld)) = heap Sample.aliceWorld
  /\ pageList (world_of (temporarilyClose 0 Sample.aliceWorld)) = pageList Sample.aliceWorld
  /\ trace (world_of (temporarilyClose 0 Sample.aliceWorld))
     = (trace Sample.aliceWorld ++ [CloseHtmlPage Sample.lobby Sample.alice "shop"])%list.
Proof.
  set (w := Sample.aliceWorld). set (w' := world_of (temporarilyClose 0 w)).
  assert (Hobj : exists p, heap w !! 0 = Some (Live p)
                           /\ Users_get w (userId p) = Some Sample.alice
                           /\ room p = Sample.lobby /\ pageId p = "shop").
  { eexists. split; [vm_compute; reflexivity|]. repeat split; reflexivity. }
  destruct Hobj as (p & Hobj & Huser & Hroom & Hid).
  split; [eauto|].
  destruct (temporarilyClose_frame 0 w (Live p) Hobj)
    as (Hheap & Hpl & _ & _ & calls & Htrace & _ & _ & _ & Hone).
  split; [exact Hheap|]. split; [exact Hpl|].
  fold w' in Htrace. rewrite Htrace, (Hone p Sample.alice eq_refl Huser), Hroom, Hid.
  reflexivity.
Defined.

Lemma switchLocation_empty_base_stays_standalone_witness :
  (exists p, heap Sample.aliceWorld !! 0 = Some (Live p)
             /\ baseChatUhtmlName p = "" /\ chatUhtmlName p = "")
  /\ chatUhtmlName_at (switchLocations 3 0 Sample.aliceWorld) 0 = Some "".
Proof.
  set (w := Sample.aliceWorld).
  assert (Hobj : exists p, heap w !! 0 = Some (Live p)
                           /\ baseChatUhtmlName p = "" /\ chatUhtmlName p = "").
  { eexists. split; [vm_compute; reflexivity|]. split; reflexivity. }
  split; [exact Hobj|]. destruct Hobj as (p & Hobj & Hbase & Hchat).
  destruct (switchLocation_empty_base_stays_standalone 3 0 w p Hobj Hbase Hchat)
    as (p' & calls & Hobj' & Hchat' & _).
  unfold chatUhtmlName_at. rewrite Hobj', Hchat'. reflexivity.
Defined.
End Samples.

(** * Further properties of the page base *)

(** ** What each method leaves behind *)

Section MethodEffects.
Context `{Collaborators} `{PageType}.

Lemma readObj_dangling this w : heap w !! this = None -> readObj this w = Throw TypeError w.
Proof. intros Hnone. unfold readObj. rewrite Hnone. reflexivity. Qed.

Lemma send_dangling this onOpen w :
  heap w !! this = None -> send this onOpen w = Throw TypeError w.
Proof. intros Hnone. unfold send. run_with Hnone. reflexivity. Qed.

Lemma close_dangling this w : heap w !! this = None -> close this w = Throw TypeError w.
Proof. intros Hnone. unfold close. run_with Hnone. reflexivity. Qed.

Lemma destroy_dangling this w : heap w !! this = None -> destroy this w = Throw TypeError w.
Proof. intros Hnone. unfold destroy. run_with Hnone. reflexivity. Qed.

Lemma switchLocation_not_live this w :
  (forall p, heap w !! this <> Some (Live p)) -> world_of (switchLocation this w) = w.
Proof.
  intros Hnot. unfold switchLocation. unfold_monad.
  destruct (heap w !! this) as [[p|i n u]|] eqn:Hobj; cbn; try reflexivity.
  destruct (Hnot p eq_refl).
Qed.

Lemma temporarilyClose_keeps this w :
  heap (world_of (temporarilyClose this w)) = heap w
  /\ pageList (world_of (temporarilyClose this w)) = pageList w.
Proof.
  unfold temporarilyClose. unfold_monad.
  destruct (heap w !! this) as [o|]; cbn; [|auto].
  destruct (Users_get w (userId_of o)); cbn; [|auto].
  destruct o; cbn; auto.
Qed.

Lemma no_deliveries (calls : list Event) :
  Forall (fun e => isDelivery e = false) calls ->
  length (filter (fun e => isDelivery e = true) calls) = 0.
Proof.
  induction 1 as [|e calls He _ IH]; [reflexivity|].
  rewrite filter_cons. destruct (decide (isDelivery e = true)) as [Hd|_]; [congruence|].
  exact IH.
Qed.

Lemma send_abort_none this onOpen w p :
  heap w !! this = Some (Live p) ->
  (Users_get w (userId p) = None -> send this onOpen w = Ok tt w)
  /\ (vetoed onOpen p (ext w) = true -> send this onOpen w = Ok tt w).
Proof.
  intros Hobj. split; intros Hcase; unfold send; run_with Hobj; rewrite Hcase;
    [destruct (vetoed onOpen p (ext w))|]; reflexivity.
Qed.

(** [close] on an open page, as one step. *)
Lemma close_live this w p :
  heap w !! this = Some (Live p) ->
  close this w =
  Ok tt
    (set_heap (<[this := unrefProperties p]> (heap w))
       (set_pageList (delete (userId p) (pageList w))
          (set_trace
             ((trace w ++
               match Users_get w (userId p) with
               | Some user => [CloseHtmlPage (room p) user (pageId p)]
               | None => []
               end) ++ (ComponentDestroy <$> components p))
             (set_ext (match onClose with
                       | Some hook => hook p (ext w)
                       | None => ext w
                       end) w)))).
Proof.
  intros Hobj. unfold close. run_with Hobj.
  destruct (Users_get w (userId p)) as [user|], onClose as [hook|]; cbn;
    (erewrite destroy_live by exact Hobj); cbn; rewrite ?app_nil_r; reflexivity.
Qed.

(** X1. [close()] on an open page returns normally. It asks the transport
    for one retraction when the viewer resolves, whatever channel the page
    is on, and for none otherwise; it then destroys the components in order,
    removes the registry entry under the page's own [userId] and no other,
    and leaves of the object its [pageId], [userName] and [userId] with
    [closed = true]. No other page object changes. *)
Theorem close_tears_down (this : nat) (w : World) (p : HtmlPageBase)
    (Hobj : heap w !! this = Some (Live p)) :
  exists w',
    close this w = Ok tt w'
    /\ trace w' =
         (trace w
          ++ match Users_get w (userId p) with
             | Some user => [CloseHtmlPage (room p) user (pageId p)]
             | None => []
             end
          ++ (ComponentDestroy <$> components p))%list
    /\ heap w' !! this = Some (Destroyed (pageId p) (userName p) (userId p))
    /\ (forall r, r <> this -> heap w' !! r = heap w !! r)
    /\ pageList w' !! userId p = None
    /\ (forall k, k <> userId p -> pageList w' !! k = pageList w !! k)
    /\ deliveries (trace w') = deliveries (trace w).
Proof.
  assert (Hlt : this < length (heap w)) by (eapply lookup_lt_Some; eauto).
  eexists. split; [exact (close_live this w p Hobj)|]. cbn.
  repeat split.
  - rewrite app_assoc. reflexivity.
  - apply list_lookup_insert_eq. exact Hlt.
  - intros r Hne. apply list_lookup_insert_ne. congruence.
  - apply lookup_delete_eq.
  - intros k Hne. apply lookup_delete_ne. congruence.
  - unfold deliveries. rewrite <- app_assoc, filter_app, length_app.
    rewrite (no_deliveries (_ ++ _)); [lia|].
    apply Forall_app. split.
    + destruct (Users_get w (userId p)); repeat constructor.
    + apply Forall_fmap, Forall_true. reflexivity.
Qed.

(** X2. Once [close()] has run on an open page, no sequence of [send()]
    calls on it, whatever argument and environment each call finds, makes a
    call on the transport or changes a page object or the registry; a second
    [close()] raises and [tryClose()] does nothing. *)
Theorem closed_page_never_sends (this : nat) (w : World) (p : HtmlPageBase)
    (calls : list (option bool * (string -> option User) * Ext))
    (Hobj : heap w !! this = Some (Live p)) :
  let w' := world_of (close this w) in
  trace (sendAll this calls w') = trace w'
  /\ heap (sendAll this calls w') = heap w'
  /\ pageList (sendAll this calls w') = pageList w'
  /\ close this w' =
       Throw (Error (pageId p +:+ " page already closed for user " +:+ userId p)) w'
  /\ tryClose this w' = Ok tt w'.
Proof.
  intros w'.
  assert (Hlt : this < length (heap w)) by (eapply lookup_lt_Some; eauto).
  assert (Hclosed : heap w' !! this = Some (Destroyed (pageId p) (userName p) (userId p))).
  { subst w'. rewrite (close_live this w p Hobj). cbn.
    apply list_lookup_insert_eq. exact Hlt. }
  clearbody w'. clear Hobj Hlt w.
  split; [|split; [|split; [|split]]].
  - apply (sendAll_destroyed _ _ _ _ _ _ Hclosed).
  - revert w' Hclosed.
    induction calls as [|[[onOpen users] e] calls IH]; intros w' Hclosed; [reflexivity|].
    cbn [sendAll].
    assert (Henv : heap (setEnv users e w') !! this
                   = Some (Destroyed (pageId p) (userName p) (userId p))) by exact Hclosed.
    rewrite (send_destroyed _ _ _ _ _ _ Henv). cbn [world_of].
    rewrite (IH _ Henv). reflexivity.
  - revert w' Hclosed.
    induction calls as [|[[onOpen users] e] calls IH]; intros w' Hclosed; [reflexivity|].
    cbn [sendAll].
    assert (Henv : heap (setEnv users e w') !! this
                   = Some (Destroyed (pageId p) (userName p) (userId p))) by exact Hclosed.
    rewrite (send_destroyed _ _ _ _ _ _ Henv). cbn [world_of].
    rewrite (IH _ Henv). reflexivity.
  - exact (close_closed this w' _ Hclosed eq_refl).
  - exact (tryClose_closed this w' _ Hclosed eq_refl).
Qed.
End MethodEffects.

(** ** Invariants over sequences of calls *)

Section CallSequences.
Context `{Collaborators} `{PageType}.

Lemma keepsDestroyed_refl w : keepsDestroyed w w.
Proof. intros r i n u Hr. exact Hr. Qed.

Lemma keepsDestroyed_trans w1 w2 w3 :
  keepsDestroyed w1 w2 -> keepsDestroyed w2 w3 -> keepsDestroyed w1 w3.
Proof. intros H12 H23 r i n u Hr. apply H23, H12, Hr. Qed.

Lemma keepsDestroyed_same w w' : heap w' = heap w -> keepsDestroyed w w'.
Proof. intros Hh r i n u Hr. rewrite Hh. exact Hr. Qed.

Lemma keepsDestroyed_write w w' this p o :
  heap w !! this = Some (Live p) -> heap w' = <[this := o]> (heap w) ->
  keepsDestroyed w w'.
Proof.
  intros Hobj Hh r i n u Hr. rewrite Hh, list_lookup_insert_ne; [exact Hr|].
  intros <-. congruence.
Qed.

Lemma keepsDestroyed_alloc w w' o :
  heap w' = (heap w ++ [o])%list -> keepsDestroyed w w'.
Proof.
  intros Hh r i n u Hr. rewrite Hh, lookup_app_l; [exact Hr|].
  eapply lookup_lt_Some; eauto.
Qed.

Lemma send_keepsDestroyed this onOpen w :
  keepsDestroyed w (world_of (send this onOpen w)).
Proof.
  destruct (heap w !! this) as [[p|i n u]|] eqn:Hobj.
  - destruct (send_live this onOpen w p Hobj) as [[-> _]|(user & _ & _ & _ & ->)]; cbn.
    + apply keepsDestroyed_refl.
    + eapply keepsDestroyed_write; [exact Hobj | apply deliveredWorld_heap].
  - rewrite (send_destroyed _ _ _ _ _ _ Hobj). apply keepsDestroyed_refl.
  - rewrite (send_dangling _ _ _ Hobj). apply keepsDestroyed_refl.
Qed.

Lemma destroy_keepsDestroyed this w : keepsDestroyed w (world_of (destroy this w)).
Proof.
  destruct (heap w !! this) as [[p|i n u]|] eqn:Hobj.
  - rewrite (destroy_live _ _ _ Hobj). cbn.
    eapply keepsDestroyed_write; [exact Hobj | reflexivity].
  - rewrite (destroy_destroyed _ _ _ _ _ Hobj). apply keepsDestroyed_refl.
  - rewrite (destroy_dangling _ _ Hobj). apply keepsDestroyed_refl.
Qed.

Lemma close_keepsDestroyed this w : keepsDestroyed w (world_of (close this w)).
Proof.
  destruct (heap w !! this) as [[p|i n u]|] eqn:Hobj.
  - rewrite (close_live _ _ _ Hobj). cbn.
    eapply keepsDestroyed_write; [exact Hobj | reflexivity].
  - rewrite (close_closed _ _ _ Hobj eq_refl). apply keepsDestroyed_refl.
  - rewrite (close_dangling _ _ Hobj). apply keepsDestroyed_refl.
Qed.

Lemma tryClose_keepsDestroyed this w : keepsDestroyed w (world_of (tryClose this w)).
Proof.
  destruct (heap w !! this) as [[p|i n u]|] eqn:Hobj.
  - rewrite (tryClose_open _ _ _ Hobj eq_refl). apply close_keepsDestroyed.
  - rewrite (tryClose_closed _ _ _ Hobj eq_refl). apply keepsDestroyed_refl.
  - unfold tryClose. run_with Hobj. apply keepsDestroyed_refl.
Qed.

Lemma switchLocation_keepsDestroyed this w :
  keepsDestroyed w (world_of (switchLocation this w)).
Proof.
  destruct (heap w !! this) as [[p|i n u]|] eqn:Hobj.
  - destruct (switchLocation_live this w p Hobj) as (w' & p' & calls & -> & Hheap & _).
    cbn. eapply keepsDestroyed_write; [exact Hobj | exact Hheap].
  - rewrite switchLocation_not_live; [apply keepsDestroyed_refl|]. congruence.
  - rewrite switchLocation_not_live; [apply keepsDestroyed_refl|]. congruence.
Qed.

Lemma destroyAt_keepsDestroyed key w : keepsDestroyed w (world_of (destroyAt key w)).
Proof.
  destruct (pageList w !! key) as [stored|] eqn:Hkey.
  - rewrite (destroyAt_stored _ _ _ Hkey). apply destroy_keepsDestroyed.
  - rewrite (destroyAt_none _ _ Hkey). apply keepsDestroyed_refl.
Qed.

Lemma constructor_keepsDestroyed pageId_ room_ user baseCommand_ w :
  keepsDestroyed w (world_of (constructor pageId_ room_ user baseCommand_ w)).
Proof.
  unfold constructor. unfold_monad. cbn.
  destruct (hasKey (pageList w) (id user)); cbn.
  - pose proof (destroyAt_keepsDestroyed (id user) w) as H2.
    destruct (destroyAt (id user) w) as [[] w2|e w2]; cbn in *; [|exact H2].
    eapply keepsDestroyed_trans; [exact H2|].
    eapply keepsDestroyed_alloc. reflexivity.
  - eapply keepsDestroyed_alloc. reflexivity.
Qed.

Lemma onRenameUser_keepsDestroyed this user oldId w :
  keepsDestroyed w (world_of (onRenameUser this user oldId w)).
Proof.
  unfold onRenameUser. unfold_monad.
  destruct (heap w !! this) as [[p|i n u]|] eqn:Hobj; cbn;
    try apply keepsDestroyed_refl.
  destruct (hasKey (pageList w) oldId); cbn; [|apply keepsDestroyed_refl].
  destruct (String.eqb oldId (id user)); cbn.
  { eapply keepsDestroyed_write; [exact Hobj | reflexivity]. }
  destruct (hasKey (pageList w) (id user)); cbn.
  - pose proof (destroyAt_keepsDestroyed oldId w) as H2.
    destruct (destroyAt oldId w) as [[] w2|e w2]; cbn in *; [|exact H2].
    destruct (heap w2 !! this) as [[p2|i n u]|]; cbn; exact H2.
  - assert (Hlt : this < length (heap w)) by (eapply lookup_lt_Some; eauto).
    rewrite list_lookup_insert_eq by exact Hlt. cbn.
    eapply keepsDestroyed_write; [exact Hobj | reflexivity].
Qed.

Lemma perform_keepsDestroyed c w : keepsDestroyed w (perform c w).
Proof.
  destruct c; cbn [perform].
  - apply constructor_keepsDestroyed.
  - apply send_keepsDestroyed.
  - apply send_keepsDestroyed.
  - apply close_keepsDestroyed.
  - apply tryClose_keepsDestroyed.
  - apply keepsDestroyed_same, temporarilyClose_keeps.
  - apply switchLocation_keepsDestroyed.
  - apply destroy_keepsDestroyed.
  - apply onRenameUser_keepsDestroyed.
Qed.

(** X3. [closed] is terminal: whatever constructions and method calls
    follow, on whatever objects, an object that is closed stays closed, with
    the same [pageId], [userName] and [userId]. *)
Theorem closed_is_terminal (calls : list Call) (w : World) (r : nat)
    (pageId_ userName_ userId_ : string)
    (Hclosed : heap w !! r = Some (Destroyed pageId_ userName_ userId_)) :
  heap (performAll calls w) !! r = Some (Destroyed pageId_ userName_ userId_).
Proof.
  revert w Hclosed. induction calls as [|c calls IH]; intros w Hclosed; [exact Hclosed|].
  cbn [performAll]. apply IH. apply perform_keepsDestroyed. exact Hclosed.
Qed.
End CallSequences.

Section RegistryInvariant.
Context `{Collaborators} `{PageType}.

Lemma setUser_fields users user p :
  let p' := setUser users user p in
  userId p' = id user /\ userName p' = name user
  /\ lastRender p' = lastRender p
  /\ usedCommandAfterLastRender p' = usedCommandAfterLastRender p
  /\ chatUhtmlName p' = chatUhtmlName p /\ baseChatUhtmlName p' = baseChatUhtmlName p
  /\ closeButtonHtml p' = closeButtonHtml p /\ components p' = components p
  /\ pageId p' = pageId p /\ room p' = room p
  /\ isRoomStaff p' =
       match users (name user) with
       | Some found => hasRank found (room p) "driver" || isDeveloper found
       | None => false
       end.
Proof. unfold setUser. cbn. auto 15. Qed.









Lemma onRenameUser_rekey this user oldId w p :
  heap w !! this = Some (Live p) ->
  hasKey (pageList w) oldId = true ->
  oldId <> id user ->
  hasKey (pageList w) (id user) = false ->
  onRenameUser this user oldId w =
  Ok tt (set_pageList (delete oldId (<[id user := this]> (pageList w)))
           (set_heap (<[this := Live (setUser (Users_get w) user p)]> (heap w)) w)).
Proof.
  intros Hobj Hr Hne Hnew.
  assert (Hlt : this < length (heap w)) by (eapply lookup_lt_Some; eauto).
  unfold onRenameUser. run_with Hobj. rewrite Hr, Hnew.
  apply String.eqb_neq in Hne. rewrite Hne. cbn.
  rewrite list_lookup_insert_eq by exact Hlt. reflexivity.
Qed.



End RegistryInvariant.

(** ** Renames and location switches in detail *)

Section RenameAndSwitch.
Context `{Collaborators} `{PageType}.

(** X5. When the [in] test of line 130 finds nothing under the new
    identity (no page is stored under it and it names no inherited member),
    [onRenameUser] called on the page registered under the old identity
    re-keys it: the page is then
    found under the new identity and no longer under the old one, bound to
    the new id and name, with [isRoomStaff] recomputed from the directory.
    Nothing is sent, and the memoized render, the forced-send flag, the
    channel and the close button markup stay as they were; no other entry
    and no other page object changes. *)
Theorem onRenameUser_moves_page (this : nat) (user : User) (oldId : string)
    (w : World) (p : HtmlPageBase)
    (Hobj : heap w !! this = Some (Live p))
    (Hold : pageList w !! oldId = Some this)
    (Hdistinct : oldId <> id user)
    (Hfree : hasKey (pageList w) (id user) = false) :
  exists w' p',
    onRenameUser this user oldId w = Ok tt w'
    /\ lookup_page w' (id user) = Some (Live p')
    /\ lookup_page w' oldId = None
    /\ userId p' = id user /\ userName p' = name user
    /\ isRoomStaff p' =
         match Users_get w (name user) with
         | Some found => hasRank found (room p) "driver" || isDeveloper found
         | None => false
         end
    /\ lastRender p' = lastRender p
    /\ usedCommandAfterLastRender p' = usedCommandAfterLastRender p
    /\ chatUhtmlName p' = chatUhtmlName p
    /\ closeButtonHtml p' = closeButtonHtml p
    /\ trace w' = trace w
    /\ (forall k, k <> oldId -> k <> id user -> pageList w' !! k = pageList w !! k)
    /\ (forall r, r <> this -> heap w' !! r = heap w !! r).
Proof.
  assert (Hlt : this < length (heap w)) by (eapply lookup_lt_Some; eauto).
  destruct (setUser_fields (Users_get w) user p)
    as (Hu & Hn & Hl & Hf & Hc & _ & Hb & _ & _ & _ & Hs).
  eexists _, (setUser (Users_get w) user p).
  split; [apply (onRenameUser_rekey this user oldId w p Hobj);
            eauto using hasKey_stored|].
  unfold lookup_page. cbn.
  rewrite lookup_delete_eq, lookup_delete_ne, lookup_insert_eq by exact Hdistinct. cbn.
  rewrite list_lookup_insert_eq by exact Hlt.
  repeat split; auto.
  - intros k Hk1 Hk2. rewrite lookup_delete_ne, lookup_insert_ne by congruence.
    reflexivity.
  - intros r Hr. apply list_lookup_insert_ne. congruence.
Qed.

Lemma switchedPage_fields p :
  userId (switchedPage p) = userId p
  /\ chatUhtmlName (switchedPage p) =
       (if nonEmpty (chatUhtmlName p) then "" else baseChatUhtmlName p)
  /\ baseChatUhtmlName (switchedPage p) = baseChatUhtmlName p
  /\ pageId (switchedPage p) = pageId p /\ room (switchedPage p) = room p
  /\ usedCommandAfterLastRender (switchedPage p) = true
  /\ lastRender (switchedPage p) = lastRender p.
Proof.
  unfold switchedPage.
  destruct (setCloseButton_fields None
              (setSwitchLocationButton
                 (set_usedCommandAfterLastRender true
                    (if nonEmpty (chatUhtmlName p) then set_chatUhtmlName "" p
                     else set_chatUhtmlName (baseChatUhtmlName p) p))))
    as (-> & -> & -> & -> & -> & -> & ->).
  destruct (setSwitchLocationButton_fields
              (set_usedCommandAfterLastRender true
                 (if nonEmpty (chatUhtmlName p) then set_chatUhtmlName "" p
                  else set_chatUhtmlName (baseChatUhtmlName p) p)))
    as (-> & -> & -> & -> & -> & -> & ->).
  destruct (nonEmpty (chatUhtmlName p)); cbn; auto 10.
Qed.

(** [switchLocation] on a live page, up to its [send]. *)
Lemma switchLocation_start this w p :
  heap w !! this = Some (Live p) ->
  switchLocation this w =
  (send this None;;
   o' ← readObj this;
   w0 ← get;
   match Users_get w0 (userId_of o') with
   | Some user =>
       if negb (nonEmpty (chatUhtmlName p)) then temporarilyClose this
       else
         match o' with
         | Live p' =>
             emit (SayPrivateUhtml (room p') user (baseChatUhtmlName p')
                     "<div>Successfully moved to an HTML page.</div>")
         | Destroyed _ _ _ => throw TypeError
         end
   | None => mret tt
   end) (set_heap (<[this := Live (switchedPage p)]> (heap w)) w).
Proof.
  intros Hobj. unfold switchLocation. unfold mbind at 1, M_bind at 1, readObj at 1.
  rewrite Hobj. reflexivity.
Qed.

(** X6. [switchLocation()] on an open page whose viewer resolves and whose
    pre-send guard lets the send through always delivers, also when the
    render equals the memoized one: from the overlay it delivers the
    standalone page and then posts the moved notice under the base overlay
    name; from standalone it delivers under the base overlay name and then
    retracts the standalone page, and when the base overlay name is empty
    that delivery is the standalone page itself, retracted right after.
    Afterwards the render is memoized and the forced-send flag is unset. *)
Theorem switchLocation_resends (this : nat) (w : World) (p : HtmlPageBase) (user : User)
    (Hobj : heap w !! this = Some (Live p))
    (Huser : Users_get w (userId p) = Some user)
    (Hguard : vetoed None (switchedPage p) (ext w) = false) :
  let r := render None (switchedPage p) (ext w) in
  trace (world_of (switchLocation this w)) =
    (trace w ++
     if nonEmpty (chatUhtmlName p)
     then [SendHtmlPage (room p) user (pageId p) r;
           SayPrivateUhtml (room p) user (baseChatUhtmlName p)
             "<div>Successfully moved to an HTML page.</div>"]
     else [if nonEmpty (baseChatUhtmlName p)
           then SayPrivateUhtml (room p) user (baseChatUhtmlName p) r
           else SendHtmlPage (room p) user (pageId p) r;
           CloseHtmlPage (room p) user (pageId p)])%list
  /\ heap (world_of (switchLocation this w)) !! this =
       Some (Live (set_usedCommandAfterLastRender false
                     (set_lastRender r (switchedPage p)))).
Proof.
  intros r.
  assert (Hlt : this < length (heap w)) by (eapply lookup_lt_Some; eauto).
  destruct (switchedPage_fields p) as (Hu4 & Hc4 & Hb4 & Hi4 & Hr4 & Hf4 & _).
  set (wa := set_heap (<[this := Live (switchedPage p)]> (heap w)) w).
  assert (Ha : heap wa !! this = Some (Live (switchedPage p)))
    by (cbn; apply list_lookup_insert_eq; exact Hlt).
  assert (Hsend : send this None wa
                  = Ok tt (deliveredWorld this None (switchedPage p) user wa)).
  { destruct (send_live this None wa (switchedPage p) Ha)
      as [[_ [Hc|[_ Hflag]]]|(user' & Huser' & _ & _ & Hsend)].
    - unfold computedRender in Hc. rewrite Ha in Hc. cbn in Hc.
      rewrite Hguard, Hu4, Huser in Hc. discriminate.
    - congruence.
    - cbn in Huser'. rewrite Hu4, Huser in Huser'. injection Huser' as <-. exact Hsend. }
  cut (exists wf, switchLocation this w = Ok tt wf
         /\ trace wf =
            (trace w ++
             if nonEmpty (chatUhtmlName p)
             then [SendHtmlPage (room p) user (pageId p) r;
                   SayPrivateUhtml (room p) user (baseChatUhtmlName p)
                     "<div>Successfully moved to an HTML page.</div>"]
             else [if nonEmpty (baseChatUhtmlName p)
                   then SayPrivateUhtml (room p) user (baseChatUhtmlName p) r
                   else SendHtmlPage (room p) user (pageId p) r;
                   CloseHtmlPage (room p) user (pageId p)])%list
         /\ heap wf !! this =
              Some (Live (set_usedCommandAfterLastRender false
                            (set_lastRender r (switchedPage p))))).
  { intros (wf & -> & Htrace & Hheap). split; assumption. }
  rewrite (switchLocation_start this w p Hobj). fold wa.
  unfold mbind at 1, M_bind at 1. rewrite Hsend.
  assert (Hb : heap (deliveredWorld this None (switchedPage p) user wa) !! this
               = Some (Live (set_usedCommandAfterLastRender false
                               (set_lastRender r (switchedPage p))))).
  { rewrite deliveredWorld_heap. apply list_lookup_insert_eq. cbn.
    rewrite length_insert. exact Hlt. }
  unfold mbind at 1, M_bind at 1, readObj at 1. rewrite Hb.
  unfold mbind at 1, M_bind at 1, get at 1. cbn [userId_of].
  rewrite deliveredWorld_Users. cbn [Users_get wa set_heap].
  replace (userId (set_usedCommandAfterLastRender false
                     (set_lastRender r (switchedPage p)))) with (userId p)
    by (cbn; symmetry; exact Hu4).
  rewrite Huser.
  destruct (deliveredWorld_trace this None (switchedPage p) user wa)
    as (call & Htr & _ & Hcall).
  rewrite Hc4, Hr4, Hi4 in Hcall. fold r in Hcall.
  destruct (nonEmpty (chatUhtmlName p)) eqn:Hmode; cbn [negb].
  - eexists. split; [reflexivity|]. cbn [trace set_trace heap].
    split; [|exact Hb]. rewrite Htr. cbn [trace wa set_heap]. rewrite <- app_assoc.
    cbn in Hcall. subst call. cbn. rewrite Hr4, Hb4. reflexivity.
  - unfold temporarilyClose. unfold_monad. rewrite Hb. cbn [userId_of].
    rewrite deliveredWorld_Users. cbn [Users_get wa set_heap].
    replace (userId (set_usedCommandAfterLastRender false
                       (set_lastRender r (switchedPage p)))) with (userId p)
      by (cbn; symmetry; exact Hu4).
    rewrite Huser. eexists. split; [reflexivity|]. cbn [trace set_trace heap].
    split; [|exact Hb]. rewrite Htr. cbn [trace wa set_heap]. rewrite <- app_assoc.
    subst call. cbn. rewrite Hr4, Hi4. reflexivity.
Qed.

(** X7. When the viewer does not resolve, [switchLocation()] on an open
    page still switches the channel and rebuilds the buttons but makes no
    call on the transport, and the forced-send flag it set stays set: the
    next [send()] that finds the viewer and passes the guard delivers,
    whatever its render. *)
Theorem switchLocation_offline_forces_next_send (this : nat) (w : World)
    (p : HtmlPageBase)
    (Hobj : heap w !! this = Some (Live p))
    (Huser : Users_get w (userId p) = None) :
  let w1 := set_heap (<[this := Live (switchedPage p)]> (heap w)) w in
  switchLocation this w = Ok tt w1
  /\ trace w1 = trace w
  /\ forall onOpen users e viewer,
       users (userId p) = Some viewer ->
       vetoed onOpen (switchedPage p) e = false ->
       exists call,
         isDelivery call = true
         /\ trace (world_of (send this onOpen (setEnv users e w1)))
            = (trace w ++ [call])%list.
Proof.
  intros w1.
  assert (Hlt : this < length (heap w)) by (eapply lookup_lt_Some; eauto).
  destruct (switchedPage_fields p) as (Hu4 & _ & _ & _ & _ & Hf4 & _).
  assert (Ha : heap w1 !! this = Some (Live (switchedPage p)))
    by (cbn; apply list_lookup_insert_eq; exact Hlt).
  split; [|split; [reflexivity|]].
  - rewrite (switchLocation_start this w p Hobj). fold w1.
    assert (Hsend : send this None w1 = Ok tt w1).
    { apply (proj1 (send_abort_none this None w1 (switchedPage p) Ha)).
      cbn. rewrite Hu4. exact Huser. }
    unfold mbind at 1, M_bind at 1. rewrite Hsend.
    unfold mbind at 1, M_bind at 1, readObj at 1. rewrite Ha.
    unfold mbind at 1, M_bind at 1, get at 1. cbn [userId_of].
    replace (Users_get w1 (userId (switchedPage p))) with (@None User)
      by (cbn; rewrite Hu4; symmetry; exact Huser).
    reflexivity.
  - intros onOpen users e viewer Hviewer Hguard.
    assert (He : heap (setEnv users e w1) !! this = Some (Live (switchedPage p)))
      by exact Ha.
    destruct (send_live this onOpen _ (switchedPage p) He)
      as [[_ [Hc|[_ Hflag]]]|(user' & _ & _ & _ & Hsend)].
    + unfold computedRender in Hc. rewrite He in Hc. cbn in Hc.
      rewrite Hguard, Hu4, Hviewer in Hc. discriminate.
    + congruence.
    + rewrite Hsend. cbn [world_of].
      destruct (deliveredWorld_trace this onOpen (switchedPage p) user' (setEnv users e w1))
        as (call & Htr & Hdel & _).
      exists call. split; [exact Hdel | exact Htr].
Qed.
End RenameAndSwitch.

(** ** Component commands, construction, buttons *)

Section ComponentCommandFacts.
Context `{Collaborators} `{PageType}.
Variable tryCommand : ComponentBase -> list string -> Ext -> option string * Ext.

Lemma firstComponent_none cmd cs :
  Forall (fun c => active c = false \/ componentCommand c <> cmd) cs ->
  firstComponent cmd cs = None.
Proof.
  induction 1 as [|c cs Hc _ IH]; [reflexivity|]. cbn.
  destruct Hc as [-> | Hne]; [exact IH|].
  apply String.eqb_neq in Hne. rewrite Hne, andb_false_r. exact IH.
Qed.

Lemma firstComponent_found cmd skipped component rest :
  Forall (fun c => active c = false \/ componentCommand c <> cmd) skipped ->
  active component = true -> componentCommand component = cmd ->
  firstComponent cmd (skipped ++ component :: rest) = Some component.
Proof.
  intros Hskipped Hactive Hcmd.
  induction Hskipped as [|c cs Hc _ IH]; cbn.
  - rewrite Hactive, Hcmd, String.eqb_refl. reflexivity.
  - destruct Hc as [-> | Hne]; [exact IH|].
    apply String.eqb_neq in Hne. rewrite Hne, andb_false_r. exact IH.
Qed.

(** X8. [checkComponentCommands] on an open page none of whose components
    is both active and named by the command, in particular a page without
    components or one whose only matching components are inactive, returns
    the message "Unknown sub-command '<command>'." and changes nothing: the
    forced-send flag is not set. *)
Theorem checkComponentCommands_unknown (this : nat) (componentCommand_ : string)
    (targets : list string) (w : World) (p : HtmlPageBase)
    (Hobj : heap w !! this = Some (Live p))
    (Hnone : Forall (fun c => active c = false \/ componentCommand c <> componentCommand_)
               (components p)) :
  checkComponentCommands tryCommand this componentCommand_ targets w =
  Ok (Some ("Unknown sub-command '" +:+ componentCommand_ +:+ "'.")) w.
Proof.
  unfold checkComponentCommands. run_with Hobj.
  rewrite (firstComponent_none _ _ Hnone). reflexivity.
Qed.

(** X9. [checkComponentCommands] hands the command to the first component,
    in order, that is active and answers to it, and to no other; it returns
    that component's result and sets the forced-send flag without sending
    anything itself, so that the next [send()] that finds the viewer and
    passes the guard delivers, whatever its render. *)
Theorem checkComponentCommands_dispatches (this : nat) (componentCommand_ : string)
    (targets : list string) (w : World) (p : HtmlPageBase)
    (skipped rest : list ComponentBase) (component : ComponentBase)
    (Hobj : heap w !! this = Some (Live p))
    (Hcomponents : components p = (skipped ++ component :: rest)%list)
    (Hskipped : Forall (fun c => active c = false
                                 \/ componentCommand c <> componentCommand_) skipped)
    (Hactive : active component = true)
    (Hcommand : componentCommand component = componentCommand_) :
  let w1 :=
    set_ext (tryCommand component targets (ext w)).2
      (set_heap (<[this := Live (set_usedCommandAfterLastRender true p)]> (heap w)) w) in
  checkComponentCommands tryCommand this componentCommand_ targets w =
    Ok (tryCommand component targets (ext w)).1 w1
  /\ trace w1 = trace w
  /\ forall onOpen users e viewer,
       users (userId p) = Some viewer ->
       vetoed onOpen (set_usedCommandAfterLastRender true p) e = false ->
       exists call,
         isDelivery call = true
         /\ trace (world_of (send this onOpen (setEnv users e w1)))
            = (trace w ++ [call])%list.
Proof.
  intros w1.
  assert (Hlt : this < length (heap w)) by (eapply lookup_lt_Some; eauto).
  split; [|split; [reflexivity|]].
  - unfold checkComponentCommands. run_with Hobj.
    rewrite Hcomponents, (firstComponent_found _ _ _ _ Hskipped Hactive Hcommand).
    reflexivity.
  - intros onOpen users e viewer Hviewer Hguard.
    assert (He : heap (setEnv users e w1) !! this
                 = Some (Live (set_usedCommandAfterLastRender true p)))
      by (cbn; apply list_lookup_insert_eq; exact Hlt).
    destruct (send_live this onOpen _ _ He)
      as [[_ [Hc|[_ Hflag]]]|(user' & _ & _ & _ & Hsend)].
    + unfold computedRender in Hc. rewrite He in Hc. cbn in Hc.
      rewrite Hguard in Hc. cbn in Hviewer. rewrite Hviewer in Hc. discriminate.
    + discriminate.
    + rewrite Hsend. cbn [world_of].
      destruct (deliveredWorld_trace this onOpen (set_usedCommandAfterLastRender true p)
                  user' (setEnv users e w1))
        as (call & Htr & Hdel & _).
      exists call. split; [exact Hdel | exact Htr].
Qed.
End ComponentCommandFacts.

Section ConstructionAndButtons.
Context `{Collaborators} `{PageType}.

(** X10. From a consistent registry the constructor sends nothing: no
    delivery and no retraction is requested, alice's new page stays unsent
    until [open()] or [send()]. The only calls it makes destroy, in order,
    the components of the page it replaces; without a previous page for the
    identity the trace is unchanged. *)
Theorem constructor_sends_nothing (pageId_ : string) (room_ : Room) (user : User)
    (baseCommand_ : string) (w : World) (Hok : registry_ok w) :
  trace (world_of (constructor pageId_ room_ user baseCommand_ w)) =
    (trace w ++
     match lookup_page w (id user) with
     | Some (Live previous) => ComponentDestroy <$> components previous
     | _ => []
     end)%list.
Proof.
  destruct Hok as [Hentries _].
  unfold constructor, lookup_page, hasKey. unfold_monad. cbn.
  destruct (pageList w !! id user) as [old|] eqn:Hold; cbn.
  - destruct (Hentries _ _ Hold) as (pOld & _ & HpOld & _).
    rewrite (destroyAt_stored _ _ _ Hold), (destroy_live old _ pOld HpOld).
    cbn. rewrite HpOld. reflexivity.
  - destruct (inherited (id user)); cbn.
    + rewrite (destroyAt_none _ _ Hold). cbn. rewrite app_nil_r. reflexivity.
    + rewrite app_nil_r. reflexivity.
Qed.

(** X11. [temporarilyClose()] does not touch the memoization: after it,
    a [send()] whose render equals [lastRender], with the forced-send flag
    unset, still delivers nothing, so the retracted page is not shown again
    until its content changes or a command forces the send. *)
Theorem temporarilyClose_keeps_memoization (this : nat) (w : World) (p : HtmlPageBase)
    (onOpen : option bool) (users : string -> option User) (e : Ext)
    (Hobj : heap w !! this = Some (Live p))
    (Hsame : render onOpen p e = lastRender p)
    (Hflag : usedCommandAfterLastRender p = false) :
  let w1 := setEnv users e (world_of (temporarilyClose this w)) in
  send this onOpen w1 = Ok tt w1.
Proof.
  intros w1.
  assert (Hobj1 : heap w1 !! this = Some (Live p)).
  { subst w1. cbn. rewrite (proj1 (temporarilyClose_keeps this w)). exact Hobj. }
  destruct (send_live this onOpen w1 p Hobj1)
    as [[Hsend _]|(user & _ & _ & [Hdiff|Hforced] & _)].
  - exact Hsend.
  - destruct Hdiff. exact Hsame.
  - congruence.
Qed.

(** X12. Rebuilding the buttons is stable: [setCloseButton] and
    [setSwitchLocationButton] are each idempotent and commute with each
    other, and neither reads the markup the other writes. *)
Theorem button_setters_stable (options : option IQuietPMButtonOptions)
    (p : HtmlPageBase) :
  setCloseButton options (setCloseButton options p) = setCloseButton options p
  /\ setSwitchLocationButton (setSwitchLocationButton p) = setSwitchLocationButton p
  /\ setCloseButton options (setSwitchLocationButton p)
     = setSwitchLocationButton (setCloseButton options p).
Proof.
  unfold setCloseButton, setSwitchLocationButton, getQuietPmButton, quietPmButtonDisabled.
  destruct p as [pid base chat cb comps grp last ro sw sb used bc pref rm staff un uid].
  cbn. destruct (nonEmpty chat) eqn:Hchat, sw; cbn; rewrite ?Hchat; cbn;
    repeat split; reflexivity.
Qed.
End ConstructionAndButtons.

(** ** The tournament points shop *)

Section ShopFacts.
Context `{Collaborators} `{ShopSetting}.
Local Existing Instance shopPageType.

Lemma includes_elem_of (l : list string) (id_ : string) :
  includes l id_ = true <-> id_ ∈ l.
Proof.
  unfold includes. rewrite existsb_exists. split.
  - intros (x & Hin & Heq). apply String.eqb_eq in Heq. subst x.
    apply list_elem_of_In. exact Hin.
  - intros Hin. exists id_. split; [apply list_elem_of_In; exact Hin|].
    apply String.eqb_refl.
Qed.

Lemma includes_not_elem_of (l : list string) (id_ : string) :
  includes l id_ = false <-> id_ ∉ l.
Proof.
  rewrite <- includes_elem_of. destruct (includes l id_); split; congruence.
Qed.

Lemma set_unlocked_same (d : Database) table :
  unlockedTournamentPointsShopRibbons d = Some table ->
  set_unlockedTournamentPointsShopRibbons (Some table) d = d.
Proof. destruct d. cbn. intros ->. reflexivity. Qed.

Lemma inCatalog_config id_ :
  inCatalog id_ = true -> exists catalog, tournamentPointsShopRibbons = Some catalog.
Proof.
  unfold inCatalog. destruct tournamentPointsShopRibbons; [eauto|discriminate].
Qed.

(** [unlockRibbon] on an open page, once the catalog has the ribbon. *)
Lemma unlockRibbon_catalogued this id_ w p :
  heap w !! this = Some (Live p) ->
  inCatalog id_ = true ->
  unlockRibbon this id_ w =
  (let database := createTournamentTrainerCard (ext w : Database) (userId p) in
   let unlocked :=
     match unlockedTournamentPointsShopRibbons database with
     | Some table => table
     | None => ∅
     end in
   let mine := default [] (unlocked !! userId p) in
   setDatabase
     (set_unlockedTournamentPointsShopRibbons
        (Some (match unlocked !! userId p with
               | Some _ => unlocked
               | None => <[userId p := []]> unlocked
               end)) database);;
   if match unlocked !! userId p with
      | Some _ => includes mine id_
      | None => false
      end
   then mret tt
   else
     let database2 :=
       set_unlockedTournamentPointsShopRibbons
         (Some (<[userId p := (mine ++ [id_])%list]> unlocked)) database in
     setDatabase database2;;
     match tournamentTrainerCards database2 with
     | None => throw TypeError
     | Some cards =>
         match cards !! userId p with
         | None => throw TypeError
         | Some card =>
             if match ribbons card with
                | Some shown => includes shown id_
                | None => false
                end
             then mret tt
             else
               setDatabase
                 (set_tournamentTrainerCards
                    (Some (<[userId p :=
                               set_ribbons
                                 (Some (default [] (ribbons card) ++ [id_])%list)
                                 card]> cards))
                    database2);;
               send this None
         end
     end) w.
Proof.
  intros Hobj Hknown. destruct (inCatalog_config _ Hknown) as (catalog & Hcat).
  unfold unlockRibbon. unfold mbind at 1, M_bind at 1, readObj at 1.
  rewrite Hobj, Hcat, Hknown. reflexivity.
Qed.

(** X13. [unlockRibbon] with an id for which the test of lines 24-25
    fails (no catalog at all, or one of the two [in] tests, for the trainer
    card room in the catalog and for the id in the room's ribbons, finds
    neither a stored key nor an inherited member of that name) does nothing:
    no trainer card is created, nothing is unlocked and nothing is sent. *)
Theorem unlockRibbon_unknown_ribbon (this : nat) (id_ : string) (w : World)
    (p : HtmlPageBase)
    (Hobj : heap w !! this = Some (Live p))
    (Hunknown : inCatalog id_ = false) :
  unlockRibbon this id_ w = Ok tt w.
Proof.
  unfold unlockRibbon. unfold mbind at 1, M_bind at 1, readObj at 1. rewrite Hobj.
  destruct tournamentPointsShopRibbons as [catalog|]; [|reflexivity].
  rewrite Hunknown. reflexivity.
Qed.

(** X14. [unlockRibbon] with a ribbon the user has already unlocked
    leaves the database as [Storage.createTournamentTrainerCard] left it: the
    id is not added a second time, the card is not touched and nothing is
    sent. *)
Theorem unlockRibbon_already_unlocked (this : nat) (id_ : string) (w : World)
    (p : HtmlPageBase) (mine : list string)
    (Hobj : heap w !! this = Some (Live p))
    (Hknown : inCatalog id_ = true)
    (Hmine : unlockedOf (createTournamentTrainerCard (ext w) (userId p)) (userId p)
             = Some mine)
    (Hhas : id_ ∈ mine) :
  unlockRibbon this id_ w
  = Ok tt (set_ext (createTournamentTrainerCard (ext w) (userId p)) w).
Proof.
  rewrite (unlockRibbon_catalogued this id_ w p Hobj Hknown). cbv zeta.
  unfold unlockedOf in Hmine.
  destruct (unlockedTournamentPointsShopRibbons
              (createTournamentTrainerCard (ext w) (userId p))) as [table|] eqn:Htable;
    [|discriminate].
  cbn in Hmine. rewrite Hmine. change (default [] (Some mine)) with mine.
  rewrite (proj2 (includes_elem_of mine id_) Hhas).
  rewrite (set_unlocked_same _ _ Htable). reflexivity.
Qed.


(** X16. [unlockRibbon] never puts a ribbon twice into the user's list of
    unlocked ribbons: whichever way a call on an open page ends, if that list
    had no duplicates when [Storage.createTournamentTrainerCard] returned, it
    has none afterwards, provided the post-send hook, if the page type has
    one, leaves the table of unlocked ribbons alone. *)
Theorem unlockRibbon_no_duplicates (this : nat) (id_ : string) (w : World)
    (p : HtmlPageBase)
    (Hobj : heap w !! this = Some (Live p))
    (Hknown : inCatalog id_ = true)
    (Hhook : forall hook onOpen q d,
               shopOnSend = Some hook ->
               unlockedTournamentPointsShopRibbons (hook onOpen q d)
               = unlockedTournamentPointsShopRibbons d)
    (Hnodup : NoDup (default []
                (unlockedOf (createTournamentTrainerCard (ext w) (userId p)) (userId p)))) :
  NoDup (default []
           (unlockedOf (ext (world_of (unlockRibbon this id_ w)) : Database) (userId p))).
Proof.
  rewrite (unlockRibbon_catalogued this id_ w p Hobj Hknown). cbv zeta.
  set (database := createTournamentTrainerCard (ext w) (userId p)) in *.
  set (unlocked := match unlockedTournamentPointsShopRibbons database with
                   | Some table => table
                   | None => ∅
                   end).
  assert (Hlist : unlockedOf database (userId p) = unlocked !! userId p).
  { unfold unlockedOf. subst unlocked.
    destruct (unlockedTournamentPointsShopRibbons database); cbn;
      [reflexivity|]. rewrite lookup_empty. reflexivity. }
  rewrite Hlist in Hnodup.
  unfold setDatabase, unlockedOf. unfold_monad. cbn.
  destruct (match unlocked !! userId p with
            | Some _ => includes (default [] (unlocked !! userId p)) id_
            | None => false
            end) eqn:Hfresh; cbn.
  - destruct (unlocked !! userId p) as [mine|] eqn:Hmine; [|discriminate].
    rewrite Hmine. exact Hnodup.
  - assert (Hafter : NoDup (default [] (unlocked !! userId p) ++ [id_])).
    { apply NoDup_app. split; [exact Hnodup|]. split; [|apply NoDup_singleton].
      intros x Hx Hx'. apply list_elem_of_singleton in Hx'. subst x.
      destruct (unlocked !! userId p) as [mine|]; cbn in *.
      + apply includes_not_elem_of in Hfresh. contradiction.
      + apply elem_of_nil in Hx. exact Hx. }
    destruct (tournamentTrainerCards database) as [cards|]; cbn;
      [|rewrite lookup_insert_eq; exact Hafter].
    destruct (cards !! userId p) as [card|]; cbn;
      [|rewrite lookup_insert_eq; exact Hafter].
    destruct (match ribbons card with
              | Some shown => includes shown id_
              | None => false
              end); cbn; [rewrite lookup_insert_eq; exact Hafter|].
    match goal with
    | |- context [send this None ?w0] =>
        assert (Hw0 : heap w0 !! this = Some (Live p)) by exact Hobj;
        destruct (send_live this None w0 p Hw0)
          as [[-> _]|(user & _ & _ & _ & ->)]; cbn [world_of]
    end.
    + cbn. rewrite lookup_insert_eq. exact Hafter.
    + unfold deliveredWorld. cbn.
      destruct shopOnSend as [hook|] eqn:Hsome; cbn.
      * rewrite (Hhook hook _ _ _ eq_refl). cbn. rewrite lookup_insert_eq. exact Hafter.
      * rewrite lookup_insert_eq. exact Hafter.
Qed.
End ShopFacts.

(** ** The further properties at sample inputs *)

Section MoreSamples.
Existing Instance Sample.collaborators.
Existing Instance Sample.pageType.

Lemma close_tears_down_witness :
  (exists p, heap Sample.aliceWorld !! 0 = Some (Live p))
  /\ exists w',
       close 0 Sample.aliceWorld = Ok tt w'
       /\ trace w' = [CloseHtmlPage Sample.lobby Sample.alice "shop"]
       /\ heap w' !! 0 = Some (Destroyed "shop" "Alice" "alice")
       /\ pageList w' !! "alice" = None.
Proof.
  assert (Hobj : exists p, heap Sample.aliceWorld !! 0 = Some (Live p)
                           /\ userId p = "alice" /\ userName p = "Alice"
                           /\ pageId p = "shop" /\ room p = Sample.lobby
                           /\ components p = []).
  { eexists. split; [vm_compute; reflexivity|]. repeat split; reflexivity. }
  destruct Hobj as (p & Hobj & Hu & Hn & Hi & Hr & Hc).
  split; [eauto|].
  destruct (close_tears_down 0 Sample.aliceWorld p Hobj)
    as (w' & Hrun & Htrace & Hheap & _ & Hgone & _).
  exists w'. rewrite Hu, Hn, Hi, Hr, Hc in *. repeat split; auto.
Defined.

Lemma closed_page_never_sends_witness :
  (exists p, heap Sample.aliceWorld !! 0 = Some (Live p))
  /\ trace (sendAll 0 Sample.sendCalls (world_of (close 0 Sample.aliceWorld)))
     = trace (world_of (close 0 Sample.aliceWorld))
  /\ tryClose 0 (world_of (close 0 Sample.aliceWorld))
     = Ok tt (world_of (close 0 Sample.aliceWorld)).
Proof.
  assert (Hobj : exists p, heap Sample.aliceWorld !! 0 = Some (Live p))
    by (eexists; vm_compute; reflexivity).
  split; [exact Hobj|]. destruct Hobj as (p & Hobj).
  destruct (closed_page_never_sends 0 Sample.aliceWorld p Sample.sendCalls Hobj)
    as (Htrace & _ & _ & _ & Htry).
  split; [exact Htrace | exact Htry].
Defined.

Lemma closed_is_terminal_witness :
  heap Sample.closedWorld !! 0 = Some (Destroyed "shop" "Alice" "alice")
  /\ heap (performAll SampleMore.callsAfterClose Sample.closedWorld) !! 0
     = Some (Destroyed "shop" "Alice" "alice").
Proof.
  assert (Hclosed : heap Sample.closedWorld !! 0 = Some (Destroyed "shop" "Alice" "alice"))
    by (vm_compute; reflexivity).
  split; [exact Hclosed|].
  exact (closed_is_terminal SampleMore.callsAfterClose Sample.closedWorld 0 _ _ _ Hclosed).
Defined.


Lemma onRenameUser_moves_page_witness :
  (exists p, heap Sample.aliceWorld !! 0 = Some (Live p))
  /\ pageList Sample.aliceWorld !! "alice" = Some 0
  /\ hasKey (pageList Sample.aliceWorld) "bob" = false
  /\ exists w' p',
       onRenameUser 0 Sample.bob "alice" Sample.aliceWorld = Ok tt w'
       /\ lookup_page w' "bob" = Some (Live p')
       /\ lookup_page w' "alice" = None
       /\ userId p' = "bob" /\ userName p' = "Bob"
       /\ trace w' = trace Sample.aliceWorld.
Proof.
  assert (Hobj : exists p, heap Sample.aliceWorld !! 0 = Some (Live p))
    by (eexists; vm_compute; reflexivity).
  assert (Hold : pageList Sample.aliceWorld !! "alice" = Some 0)
    by (vm_compute; reflexivity).
  assert (Hfree : hasKey (pageList Sample.aliceWorld) (id Sample.bob) = false)
    by (vm_compute; reflexivity).
  assert (Hdistinct : "alice" <> id Sample.bob) by discriminate.
  split; [exact Hobj|]. split; [exact Hold|]. split; [exact Hfree|].
  destruct Hobj as (p & Hobj).
  destruct (onRenameUser_moves_page 0 Sample.bob "alice" Sample.aliceWorld p
              Hobj Hold Hdistinct Hfree)
    as (w' & p' & Hrun & Hnew & Hgone & Hu & Hn & _ & _ & _ & _ & _ & Htrace & _).
  exists w', p'. repeat split; auto.
Defined.

Lemma switchLocation_resends_witness :
  heap Sample.switchableWorld !! 0 = Some (Live Sample.switchablePage)
  /\ Users_get Sample.switchableWorld "alice" = Some Sample.alice
  /\ trace (world_of (switchLocation 0 Sample.switchableWorld))
     = [SayPrivateUhtml Sample.lobby Sample.alice "shop-base" "hello";
        CloseHtmlPage Sample.lobby Sample.alice "shop"].
Proof.
  assert (Hobj : heap Sample.switchableWorld !! 0 = Some (Live Sample.switchablePage))
    by reflexivity.
  assert (Huser : Users_get Sample.switchableWorld (userId Sample.switchablePage)
                  = Some Sample.alice) by reflexivity.
  split; [exact Hobj|]. split; [exact Huser|].
  destruct (switchLocation_resends 0 Sample.switchableWorld Sample.switchablePage
              Sample.alice Hobj Huser eq_refl) as [Htrace _].
  rewrite Htrace. reflexivity.
Defined.

Lemma switchLocation_offline_forces_next_send_witness :
  heap SampleMore.switchableOfflineWorld !! 0 = Some (Live Sample.switchablePage)
  /\ trace (world_of (switchLocation 0 SampleMore.switchableOfflineWorld)) = []
  /\ exists call,
       isDelivery call = true
       /\ trace (world_of (send 0 None
                   (setEnv Sample.online ""
                      (world_of (switchLocation 0 SampleMore.switchableOfflineWorld)))))
          = [call].
Proof.
  assert (Hobj : heap SampleMore.switchableOfflineWorld !! 0
                 = Some (Live Sample.switchablePage)) by reflexivity.
  destruct (switchLocation_offline_forces_next_send 0 SampleMore.switchableOfflineWorld
              Sample.switchablePage Hobj eq_refl) as (Hrun & Htrace & Hnext).
  split; [exact Hobj|]. rewrite Hrun. cbn [world_of].
  split; [exact Htrace|].
  exact (Hnext None Sample.online "" Sample.alice eq_refl eq_refl).
Defined.

Lemma checkComponentCommands_unknown_witness :
  heap SampleMore.componentWorld !! 0 = Some (Live SampleMore.componentPage)
  /\ checkComponentCommands SampleMore.tryCommand 0 "filter" ["a"] SampleMore.componentWorld
     = Ok (Some "Unknown sub-command 'filter'.") SampleMore.componentWorld.
Proof.
  assert (Hobj : heap SampleMore.componentWorld !! 0 = Some (Live SampleMore.componentPage))
    by reflexivity.
  split; [exact Hobj|].
  apply (checkComponentCommands_unknown SampleMore.tryCommand 0 "filter" ["a"]
           SampleMore.componentWorld SampleMore.componentPage Hobj).
  cbn [components SampleMore.componentPage].
  repeat (apply Forall_cons_2; [right; discriminate|]). apply Forall_nil_2.
Defined.

Lemma checkComponentCommands_dispatches_witness :
  heap SampleMore.componentWorld !! 0 = Some (Live SampleMore.componentPage)
  /\ exists w1,
       checkComponentCommands SampleMore.tryCommand 0 "pick" ["a"] SampleMore.componentWorld
       = Ok (Some "pick") w1
       /\ trace w1 = []
       /\ exists call,
            isDelivery call = true
            /\ trace (world_of (send 0 None (setEnv Sample.online "hello" w1))) = [call].
Proof.
  assert (Hobj : heap SampleMore.componentWorld !! 0 = Some (Live SampleMore.componentPage))
    by reflexivity.
  split; [exact Hobj|].
  assert (Hskipped : Forall (fun c => active c = false \/ componentCommand c <> "pick")
                       [ {| componentCommand := "pick"; active := false |} ]).
  { apply Forall_cons_2; [left; reflexivity | apply Forall_nil_2]. }
  destruct (checkComponentCommands_dispatches SampleMore.tryCommand 0 "pick" ["a"]
              SampleMore.componentWorld SampleMore.componentPage
              [ {| componentCommand := "pick"; active := false |} ]
              [ {| componentCommand := "sort"; active := true |} ]
              {| componentCommand := "pick"; active := true |}
              Hobj eq_refl Hskipped eq_refl eq_refl)
    as (Hrun & Htrace & Hnext).
  eexists. split; [exact Hrun|]. split; [exact Htrace|].
  exact (Hnext None Sample.online "hello" Sample.alice eq_refl eq_refl).
Defined.

Lemma constructor_sends_nothing_witness :
  registry_ok Sample.emptyWorld
  /\ trace (world_of (constructor "shop" Sample.lobby Sample.alice "tpshop"
                        Sample.emptyWorld)) = [].
Proof.
  assert (Hok : registry_ok Sample.emptyWorld) by apply registry_ok_empty.
  split; [exact Hok|].
  rewrite (constructor_sends_nothing "shop" Sample.lobby Sample.alice "tpshop"
             Sample.emptyWorld Hok).
  reflexivity.
Defined.

Lemma temporarilyClose_keeps_memoization_witness :
  (exists p, heap Sample.aliceWorld !! 0 = Some (Live p) /\ lastRender p = "")
  /\ send 0 None (setEnv Sample.online "" (world_of (temporarilyClose 0 Sample.aliceWorld)))
     = Ok tt (setEnv Sample.online "" (world_of (temporarilyClose 0 Sample.aliceWorld))).
Proof.
  assert (Hobj : exists p, heap Sample.aliceWorld !! 0 = Some (Live p)
                           /\ lastRender p = "" /\ usedCommandAfterLastRender p = false).
  { eexists. split; [vm_compute; reflexivity|]. split; reflexivity. }
  destruct Hobj as (p & Hobj & Hlast & Hflag).
  split; [eauto|].
  apply (temporarilyClose_keeps_memoization 0 Sample.aliceWorld p None Sample.online ""
           Hobj); [|exact Hflag].
  rewrite Hlast. reflexivity.
Defined.

End MoreSamples.

Section ShopSamples.
Existing Instance Sample.collaborators.
Existing Instance SampleMore.shopTypes.
Existing Instance SampleMore.shopSetting.
Existing Instance SampleMore.shop.

Lemma unlockRibbon_unknown_ribbon_witness :
  (exists p, heap SampleMore.shopWorld !! 0 = Some (Live p))
  /\ inCatalog "silver" = false
  /\ unlockRibbon 0 "silver" SampleMore.shopWorld = Ok tt SampleMore.shopWorld.
Proof.
  assert (Hobj : exists p, heap SampleMore.shopWorld !! 0 = Some (Live p))
    by (eexists; vm_compute; reflexivity).
  assert (Hunknown : inCatalog "silver" = false) by (vm_compute; reflexivity).
  split; [exact Hobj|]. split; [exact Hunknown|]. destruct Hobj as (p & Hobj).
  exact (unlockRibbon_unknown_ribbon 0 "silver" SampleMore.shopWorld p Hobj Hunknown).
Defined.

Lemma unlockRibbon_already_unlocked_witness :
  (exists p, heap SampleMore.goldWorld !! 0 = Some (Live p))
  /\ unlockedOf (ext SampleMore.goldWorld : Database) "alice" = Some ["gold"]
  /\ unlockRibbon 0 "gold" SampleMore.goldWorld = Ok tt SampleMore.goldWorld.
Proof.
  assert (Hobj : exists p, heap SampleMore.goldWorld !! 0 = Some (Live p)
                           /\ userId p = "alice")
    by (eexists; split; [vm_compute; reflexivity | reflexivity]).
  assert (Hmine : unlockedOf (ext SampleMore.goldWorld : Database) "alice" = Some ["gold"])
    by (vm_compute; reflexivity).
  destruct Hobj as (p & Hobj & Hu).
  split; [eauto|]. split; [exact Hmine|].
  rewrite (unlockRibbon_already_unlocked 0 "gold" SampleMore.goldWorld p ["gold"] Hobj).
  - rewrite Hu. vm_compute. reflexivity.
  - vm_compute. reflexivity.
  - rewrite Hu. vm_compute. reflexivity.
  - apply list_elem_of_singleton. reflexivity.
Defined.


Lemma unlockRibbon_no_duplicates_witness :
  (exists p, heap SampleMore.goldWorld !! 0 = Some (Live p))
  /\ NoDup (default []
              (unlockedOf (ext (world_of (unlockRibbon 0 "gold" SampleMore.goldWorld))
                           : Database) "alice")).
Proof.
  assert (Hobj : exists p, heap SampleMore.goldWorld !! 0 = Some (Live p)
                           /\ userId p = "alice")
    by (eexists; split; [vm_compute; reflexivity | reflexivity]).
  destruct Hobj as (p & Hobj & Hu).
  split; [eauto|]. rewrite <- Hu.
  apply (unlockRibbon_no_duplicates 0 "gold" SampleMore.goldWorld p Hobj).
  - vm_compute. reflexivity.
  - intros hook onOpen q d Hsome. discriminate Hsome.
  - rewrite Hu. vm_compute. apply NoDup_singleton.
Defined.
End ShopSamples.

(** ** Frames and idempotence *)

Section FramesAndIdempotence.
Context `{Collaborators} `{PageType}.

(** X17. When both identities have a registered page and [onRenameUser]
    is called on the page of the old identity itself, the call raises a
    [TypeError]: the page's own [destroy] has released [this.pageList] before
    line 137 reads it. The registry is already updated by then: the old page
    is closed and its entry is gone, the new identity keeps its page. *)
Theorem onRenameUser_raises_after_update (user : User) (oldId : string) (w : World)
    (pOld pNew : HtmlPageBase) (rOld rNew : nat)
    (Hdistinct : oldId <> id user)
    (Hold : registered w oldId rOld pOld)
    (Hnew : registered w (id user) rNew pNew) :
  exists w',
    onRenameUser rOld user oldId w = Throw TypeError w'
    /\ heap w' !! rOld = Some (Destroyed (pageId pOld) (userName pOld) oldId)
    /\ pageList w' !! oldId = None
    /\ lookup_page w' (id user) = Some (Live pNew)
    /\ deliveries (trace w') = deliveries (trace w)
    /\ retractions (trace w') = retractions (trace w).
Proof.
  pose proof Hold as (Hko & Hpo & Huo). pose proof Hnew as (Hkn & Hpn & Hun).
  assert (Hlt : rOld < length (heap w)) by (eapply lookup_lt_Some; eauto).
  assert (Hrefs : rOld <> rNew) by (intros ->; congruence).
  rewrite (onRenameUser_both_registered rOld user oldId w pOld pOld pNew rOld rNew
             Hdistinct Hpo Hold Hnew).
  rewrite decide_True by reflexivity.
  eexists. split; [reflexivity|]. unfold lookup_page. cbn.
  rewrite lookup_delete_eq, lookup_delete_ne, Hkn by exact Hdistinct. cbn.
  rewrite list_lookup_insert_eq, list_lookup_insert_ne by assumption.
  unfold unrefProperties. rewrite Huo.
  split; [reflexivity|]. split; [reflexivity|]. split; [exact Hpn|].
  unfold deliveries, retractions. rewrite !filter_app, !length_app.
  assert (Hnone : forall (P : Event -> bool),
             (forall c, P (ComponentDestroy c) = false) ->
             length (filter (fun e => P e = true) (ComponentDestroy <$> components pOld)) = 0).
  { intros P HP. induction (components pOld) as [|c cs IH]; [reflexivity|].
    cbn [fmap list_fmap]. rewrite filter_cons.
    destruct (decide (P (ComponentDestroy c) = true)) as [Hc|_]; [|exact IH].
    rewrite HP in Hc. discriminate. }
  rewrite (Hnone isDelivery), (Hnone isRetraction) by reflexivity. lia.
Qed.

(** X18. [send()] on an existing object never raises, and whatever it
    does it changes neither the registry nor the directory nor any other page
    object; its own page stays open if it was, on the same channel, bound to
    the same identity, with the same components and button markup. *)
Theorem send_frame (this : nat) (onOpen : option bool) (w : World) (o : Page)
    (Hobj : heap w !! this = Some o) :
  exists w',
    send this onOpen w = Ok tt w'
    /\ pageList w' = pageList w
    /\ Users_get w' = Users_get w
    /\ (forall r, r <> this -> heap w' !! r = heap w !! r)
    /\ exists o',
         heap w' !! this = Some o'
         /\ closed o' = closed o
         /\ userId_of o' = userId_of o /\ userName_of o' = userName_of o
         /\ pageId_of o' = pageId_of o
         /\ forall p, o = Live p ->
              exists p', o' = Live p'
                /\ chatUhtmlName p' = chatUhtmlName p
                /\ baseChatUhtmlName p' = baseChatUhtmlName p
                /\ components p' = components p
                /\ closeButtonHtml p' = closeButtonHtml p
                /\ switchLocationButtonHtml p' = switchLocationButtonHtml p
                /\ readonly p' = readonly p /\ isRoomStaff p' = isRoomStaff p
                /\ room p' = room p /\ commandPrefix p' = commandPrefix p.
Proof.
  assert (Hlt : this < length (heap w)) by (eapply lookup_lt_Some; eauto).
  destruct o as [p|i n u].
  - destruct (send_live this onOpen w p Hobj) as [[Hsend _]|(user & _ & _ & _ & Hsend)].
    + exists w. repeat split; auto. exists (Live p). repeat split; auto.
      intros p0 [= <-]. exists p. repeat split; auto.
    + eexists. split; [exact Hsend|].
      rewrite deliveredWorld_pageList, deliveredWorld_Users, deliveredWorld_heap.
      repeat split; auto.
      * intros r Hne. apply list_lookup_insert_ne. congruence.
      * eexists. split; [apply list_lookup_insert_eq; exact Hlt|].
        repeat split; auto. intros p0 [= <-]. eexists. split; [reflexivity|].
        cbn. repeat split; reflexivity.
  - exists w. split; [exact (send_destroyed _ _ _ _ _ _ Hobj)|].
    repeat split; auto. exists (Destroyed i n u). repeat split; auto. discriminate.
Qed.

(** X19. [tryClose()] is idempotent and, on an existing object, never
    raises: after one call the page is closed, and a second call returns
    having changed nothing. *)
Theorem tryClose_idempotent (this : nat) (w : World) (o : Page)
    (Hobj : heap w !! this = Some o) :
  exists w',
    tryClose this w = Ok tt w'
    /\ closed <$> heap w' !! this = Some true
    /\ tryClose this w' = Ok tt w'.
Proof.
  assert (Hlt : this < length (heap w)) by (eapply lookup_lt_Some; eauto).
  destruct o as [p|i n u].
  - rewrite (tryClose_open this w _ Hobj eq_refl), (close_live this w p Hobj).
    eexists. split; [reflexivity|].
    assert (Hafter : forall w0 : World,
               heap w0 = <[this := unrefProperties p]> (heap w) ->
               heap w0 !! this = Some (unrefProperties p)).
    { intros w0 ->. apply list_lookup_insert_eq. exact Hlt. }
    split.
    + cbn. rewrite list_lookup_insert_eq by exact Hlt. reflexivity.
    + eapply tryClose_closed; [apply Hafter; reflexivity | reflexivity].
  - exists w. rewrite (tryClose_closed this w _ Hobj eq_refl).
    split; [reflexivity|]. split; [rewrite Hobj; reflexivity | reflexivity].
Qed.
End FramesAndIdempotence.

Section FrameSamples.
Existing Instance Sample.collaborators.
Existing Instance Sample.pageType.

Lemma onRenameUser_raises_after_update_witness :
  pageList Sample.world2 !! "alice" = Some 0 /\ pageList Sample.world2 !! "bob" = Some 1
  /\ exists w',
       onRenameUser 0 Sample.bob "alice" Sample.world2 = Throw TypeError w'
       /\ heap w' !! 0 = Some (Destroyed "shop" "Alice" "alice")
       /\ pageList w' !! "alice" = None
       /\ lookup_page w' "bob" = heap Sample.world2 !! 1.
Proof.
  assert (Hold : exists p, registered Sample.world2 "alice" 0 p
                           /\ pageId p = "shop" /\ userName p = "Alice").
  { eexists. split; [repeat split; vm_compute; reflexivity|]. split; reflexivity. }
  assert (Hnew : exists p, registered Sample.world2 (id Sample.bob) 1 p).
  { eexists. repeat split; vm_compute; reflexivity. }
  destruct Hold as (pOld & Hold & Hi & Hn). destruct Hnew as (pNew & Hnew).
  split; [exact (proj1 Hold)|]. split; [exact (proj1 Hnew)|].
  assert (Hdistinct : "alice" <> id Sample.bob) by discriminate.
  destruct (onRenameUser_raises_after_update Sample.bob "alice" Sample.world2 pOld pNew 0 1
              Hdistinct Hold Hnew)
    as (w' & Hrun & Hclosed & Hgone & Hkept & _).
  exists w'. rewrite Hi, Hn in Hclosed.
  split; [exact Hrun|]. split; [exact Hclosed|]. split; [exact Hgone|].
  rewrite (proj1 (proj2 Hnew)). exact Hkept.
Defined.

Lemma send_frame_witness :
  (exists o, heap Sample.world2 !! 0 = Some o)
  /\ exists w',
       send 0 None Sample.world2 = Ok tt w'
       /\ pageList w' = pageList Sample.world2
       /\ heap w' !! 1 = heap Sample.world2 !! 1.
Proof.
  assert (Hobj : exists o, heap Sample.world2 !! 0 = Some o)
    by (eexists; vm_compute; reflexivity).
  split; [exact Hobj|]. destruct Hobj as (o & Hobj).
  destruct (send_frame 0 None Sample.world2 o Hobj) as (w' & Hrun & Hpl & _ & Hothers & _).
  exists w'. split; [exact Hrun|]. split; [exact Hpl|]. apply Hothers. discriminate.
Defined.

Lemma tryClose_idempotent_witness :
  (exists o, heap Sample.aliceWorld !! 0 = Some o)
  /\ exists w',
       tryClose 0 Sample.aliceWorld = Ok tt w'
       /\ closed <$> heap w' !! 0 = Some true
       /\ tryClose 0 w' = Ok tt w'.
Proof.
  assert (Hobj : exists o, heap Sample.aliceWorld !! 0 = Some o)
    by (eexists; vm_compute; reflexivity).
  split; [exact Hobj|]. destruct Hobj as (o & Hobj).
  exact (tryClose_idempotent 0 Sample.aliceWorld o Hobj).
Defined.
End FrameSamples.

(** ** Round trips *)

Section RoundTrips.
Context `{Collaborators} `{PageType}.

(** X20. For a user whose id names no inherited member, constructing a
    page from a consistent registry and closing it again leaves the identity
    without a page: the registry is the one from before with the identity's
    entry removed, so it is restored exactly when the identity had no page,
    and a page the construction replaced is not brought back. *)
Theorem construct_then_close (pageId_ : string) (room_ : Room) (user : User)
    (baseCommand_ : string) (w : World) (Hok : registry_ok w)
    (Hplain : inherited (id user) = false) :
  exists this w1 w2,
    constructor pageId_ room_ user baseCommand_ w = Ok this w1
    /\ close this w1 = Ok tt w2
    /\ pageList w2 = delete (id user) (pageList w)
    /\ (pageList w !! id user = None -> pageList w2 = pageList w)
    /\ lookup_page w2 (id user) = None
    /\ registry_ok w2.
Proof.
  destruct (constructor_ok pageId_ room_ user baseCommand_ w Hok (fun _ => Hplain))
    as (w1 & p & Hrun & Hpl & _ & Hnew & (Hu & _) & _).
  pose proof (constructor_registry_ok _ _ _ _ _ _ _ Hok Hrun) as Hok1.
  exists (length (heap w)), w1. eexists.
  split; [exact Hrun|]. split; [exact (close_live _ _ _ Hnew)|].
  assert (Hafter : delete (userId p) (pageList w1) = delete (id user) (pageList w)).
  { rewrite Hu, Hpl. apply delete_insert_eq. }
  cbn. split; [exact Hafter|]. split; [|split].
  - intros Hnone. rewrite Hafter. apply delete_id. exact Hnone.
  - unfold lookup_page. cbn. rewrite Hafter, lookup_delete_eq. reflexivity.
  - pose proof (close_registry_ok (length (heap w)) w1 p Hok1 Hnew) as Hclosed.
    rewrite (close_live _ _ _ Hnew) in Hclosed. exact Hclosed.
Qed.

(** X21. Renaming a page's user to a free identity and back is a round
    trip on the registry, when the [in] test of line 130 finds nothing under
    the new identity on the way there and nothing under the old one on the
    way back (no page stored, no inherited member of that name): the
    dictionary is the one from before, and the page is as before but for
    [isRoomStaff], recomputed from the directory for the user it was given
    back to. Nothing is sent on the way. *)
Theorem rename_there_and_back (this : nat) (user back : User) (w : World)
    (p : HtmlPageBase)
    (Hreg : registered w (id back) this p)
    (Hname : name back = userName p)
    (Hdistinct : id back <> id user)
    (Hfree : hasKey (pageList w) (id user) = false)
    (Hplain : inherited (id back) = false) :
  exists w1 w2,
    onRenameUser this user (id back) w = Ok tt w1
    /\ onRenameUser this back (id user) w1 = Ok tt w2
    /\ pageList w2 = pageList w
    /\ heap w2 =
         <[this := Live (set_isRoomStaff
                           (match Users_get w (name back) with
                            | Some found =>
                                hasRank found (room p) "driver" || isDeveloper found
                            | None => false
                            end) p)]> (heap w)
    /\ trace w2 = trace w.
Proof.
  destruct Hreg as (Hkey & Hobj & Hu).
  assert (Hlt : this < length (heap w)) by (eapply lookup_lt_Some; eauto).
  pose proof (proj1 (proj1 (hasKey_false _ _) Hfree)) as Hnone.
  eexists _, _.
  split; [apply (onRenameUser_rekey this user (id back) w p Hobj);
            eauto using hasKey_stored|].
  split.
  - apply (onRenameUser_rekey this back (id user) _ (setUser (Users_get w) user p)).
    + cbn. apply list_lookup_insert_eq. exact Hlt.
    + cbn. apply (hasKey_stored _ _ this).
      rewrite lookup_delete_ne, lookup_insert_eq by exact Hdistinct. reflexivity.
    + congruence.
    + cbn. apply hasKey_false. split; [apply lookup_delete_eq | exact Hplain].
  - cbn. split; [|split; [|reflexivity]].
    + apply map_eq. intros k.
      destruct (decide (k = id user)) as [->|Hk1].
      * rewrite lookup_delete_eq. symmetry. exact Hnone.
      * rewrite lookup_delete_ne by congruence.
        destruct (decide (k = id back)) as [->|Hk2].
        -- rewrite lookup_insert_eq. symmetry. exact Hkey.
        -- rewrite lookup_insert_ne, lookup_delete_ne, lookup_insert_ne by congruence.
           reflexivity.
    + rewrite list_insert_insert_eq. f_equal. f_equal.
      destruct p. unfold setUser. cbn in *. subst. reflexivity.
Qed.
End RoundTrips.

Section RoundTripSamples.
Existing Instance Sample.collaborators.
Existing Instance Sample.pageType.

Lemma construct_then_close_witness :
  registry_ok Sample.emptyWorld
  /\ inherited "alice" = false
  /\ exists this w1 w2,
       constructor "shop" Sample.lobby Sample.alice "tpshop" Sample.emptyWorld = Ok this w1
       /\ close this w1 = Ok tt w2
       /\ pageList w2 = pageList Sample.emptyWorld.
Proof.
  assert (Hok : registry_ok Sample.emptyWorld) by apply registry_ok_empty.
  split; [exact Hok|]. split; [reflexivity|].
  destruct (construct_then_close "shop" Sample.lobby Sample.alice "tpshop"
              Sample.emptyWorld Hok eq_refl)
    as (this & w1 & w2 & Hnew & Hclose & _ & Hsame & _).
  exists this, w1, w2. split; [exact Hnew|]. split; [exact Hclose|].
  apply Hsame. reflexivity.
Defined.

Lemma rename_there_and_back_witness :
  pageList Sample.aliceWorld !! "alice" = Some 0
  /\ hasKey (pageList Sample.aliceWorld) "bob" = false
  /\ inherited "alice" = false
  /\ exists w1 w2,
       onRenameUser 0 Sample.bob "alice" Sample.aliceWorld = Ok tt w1
       /\ onRenameUser 0 Sample.alice "bob" w1 = Ok tt w2
       /\ pageList w2 = pageList Sample.aliceWorld
       /\ trace w2 = trace Sample.aliceWorld.
Proof.
  assert (Hreg : exists p, registered Sample.aliceWorld (id Sample.alice) 0 p
                           /\ name Sample.alice = userName p).
  { eexists. split; [repeat split; vm_compute; reflexivity | reflexivity]. }
  assert (Hfree : hasKey (pageList Sample.aliceWorld) (id Sample.bob) = false)
    by (vm_compute; reflexivity).
  assert (Hplain : inherited (id Sample.alice) = false) by reflexivity.
  destruct Hreg as (p & Hreg & Hname).
  split; [exact (proj1 Hreg)|]. split; [exact Hfree|]. split; [exact Hplain|].
  assert (Hdistinct : id Sample.alice <> id Sample.bob) by discriminate.
  destruct (rename_there_and_back 0 Sample.bob Sample.alice Sample.aliceWorld p
              Hreg Hname Hdistinct Hfree Hplain)
    as (w1 & w2 & Hthere & Hback & Hpl & _ & Htrace).
  exists w1, w2. repeat split; assumption.
Defined.
End RoundTripSamples.

(** ** The highlight style *)

Lemma endsWith_semicolon (s : string) :
  endsWith s ";" = true -> exists u, s = u +:+ ";".
Proof.
  unfold endsWith. induction s as [|c s IH]; [discriminate|].
  cbn [String.length]. intros Hends.
  apply andb_true_iff in Hends as [_ Hlast]. apply String.eqb_eq in Hlast.
  change (String.length ";") with 1 in *.
  replace (S (String.length s) - 1) with (String.length s) in Hlast by lia.
  destruct s as [|c' s'].
  - cbn in Hlast. injection Hlast as ->. exists "". reflexivity.
  - cbn [String.length String.substring] in Hlast.
    destruct IH as (u & Hu).
    + apply andb_true_iff. split; [reflexivity|]. apply String.eqb_eq.
      cbn [String.length]. change (String.length ";") with 1.
      replace (S (String.length s') - 1) with (String.length s') by lia.
      exact Hlast.
    + exists (String c u). rewrite Hu. reflexivity.
Qed.

Section HighlightStyle.
Context `{Collaborators}.

(** X22. When [getQuietPmButton] highlights a button (options.selected or
    options.selectedAndDisabled), the border declaration it appends always
    starts a declaration of its own: with an empty options.style the style
    is exactly the suffix, and otherwise the suffix directly follows a
    semicolon, the one options.style ended with or the one inserted. *)
Theorem highlight_style_is_separated (o : IQuietPMButtonOptions)
    (Hhighlighted : truthy (selected o) || truthy (selectedAndDisabled o) = true) :
  if nonEmpty (default "" (style o))
  then exists before, quietPmButtonStyle (Some o) = before +:+ ";border-color: #ffffff;"
  else quietPmButtonStyle (Some o) = "border-color: #ffffff;".
Proof.
  unfold quietPmButtonStyle, quietPmButtonHighlighted.
  rewrite baseStyle_default, truthy_js_or, Hhighlighted.
  destruct (nonEmpty (default "" (style o))) eqn:Hbase; cbn [andb].
  - destruct (endsWith (default "" (style o)) ";") eqn:Hends; cbn [negb].
    + destruct (endsWith_semicolon _ Hends) as (u & ->).
      exists u. rewrite append_assoc. reflexivity.
    + exists (default "" (style o)). rewrite append_assoc. reflexivity.
  - apply nonEmpty_false in Hbase. rewrite Hbase. reflexivity.
Qed.
End HighlightStyle.

Lemma highlight_style_is_separated_witness :
  exists before,
    quietPmButtonStyle
      (Some {| disabled := None; enabledReadonly := None; selected := Some true;
               selectedAndDisabled := None; style := Some "color: red" |})
    = before +:+ ";border-color: #ffffff;".
Proof.
  exact (highlight_style_is_separated
           {| disabled := None; enabledReadonly := None; selected := Some true;
              selectedAndDisabled := None; style := Some "color: red" |} eq_refl).
Defined.

(** ** Names a plain object inherits *)

Section InheritedNames.
Context `{Collaborators} `{PageType}.

Lemma componentDestroy_neutral (P : Event -> bool) (cs : list ComponentBase) :
  (forall c, P (ComponentDestroy c) = false) ->
  length (filter (fun e => P e = true) (ComponentDestroy <$> cs)) = 0.
Proof.
  intros HP. induction cs as [|c cs IH]; [reflexivity|].
  cbn [fmap list_fmap]. rewrite filter_cons.
  destruct (decide (P (ComponentDestroy c) = true)) as [Hc|_]; [|exact IH].
  rewrite HP in Hc. discriminate.
Qed.

(** X24. [onRenameUser] with an old identity that names an inherited
    member and has no page (as "constructor" on the plain dictionary) passes
    the [in] test of line 123 all the same.  When the new identity is free,
    the receiver, a page registered under its own identity, is then bound to
    the new user and stored under the new identity as well, while the entry
    under its own previous identity stays (line 137 deletes nothing): the
    page is found under two identities, one of which it is not bound to, and
    the registry is no longer consistent. *)
Theorem onRenameUser_inherited_old_id (this : nat) (user : User) (oldId : string)
    (w : World) (p : HtmlPageBase)
    (Hreg : registered w (userId p) this p)
    (Hinh : inherited oldId = true)
    (Hnone : pageList w !! oldId = None)
    (Hdistinct : oldId <> id user)
    (Hfree : hasKey (pageList w) (id user) = false) :
  exists w',
    onRenameUser this user oldId w = Ok tt w'
    /\ pageList w' = <[id user := this]> (pageList w)
    /\ heap w' = <[this := Live (setUser (Users_get w) user p)]> (heap w)
    /\ lookup_page w' (id user) = Some (Live (setUser (Users_get w) user p))
    /\ lookup_page w' (userId p) = Some (Live (setUser (Users_get w) user p))
    /\ userId p <> id user
    /\ ~ registry_ok w'.
Proof.
  destruct Hreg as (Hkey & Hobj & _).
  assert (Hlt : this < length (heap w)) by (eapply lookup_lt_Some; eauto).
  apply hasKey_false in Hfree as Hfree'. destruct Hfree' as [Hnew _].
  assert (Hids : userId p <> id user) by (intros Heq; rewrite Heq in Hkey; congruence).
  destruct (setUser_fields (Users_get w) user p) as (Hu' & _).
  eexists. split.
  { apply (onRenameUser_rekey this user oldId w p Hobj);
      [apply hasKey_inherited; exact Hinh | exact Hdistinct | exact Hfree]. }
  assert (Hpl : delete oldId (<[id user := this]> (pageList w))
                = <[id user := this]> (pageList w)).
  { apply delete_id. rewrite lookup_insert_ne by congruence. exact Hnone. }
  unfold lookup_page. cbn. rewrite Hpl.
  rewrite lookup_insert_eq, lookup_insert_ne, Hkey by congruence. cbn.
  rewrite list_lookup_insert_eq by exact Hlt.
  split; [reflexivity|]. split; [reflexivity|]. split; [reflexivity|].
  split; [reflexivity|]. split; [exact Hids|].
  intros [Hentries _].
  destruct (Hentries (userId p) this) as (q & _ & Hq & Huq).
  { cbn. rewrite lookup_insert_ne by congruence. exact Hkey. }
  cbn in Hq. rewrite list_lookup_insert_eq in Hq by exact Hlt.
  injection Hq as <-. congruence.
Qed.

(** X25. Renaming the user of a registered page to an identity that names
    an inherited member and has no page (a user now called "constructor")
    takes the branch of line 131, meant for a new identity that already has
    a page: the page is destroyed and its entry removed, and the call raises
    a [TypeError] at line 137.  The user is left without a page under either
    identity, and no retraction is requested for the page the client still
    shows. *)
Theorem onRenameUser_to_inherited_name (this : nat) (user : User) (oldId : string)
    (w : World) (p : HtmlPageBase)
    (Hreg : registered w oldId this p)
    (Hdistinct : oldId <> id user)
    (Hinh : inherited (id user) = true)
    (Hnone : pageList w !! id user = None) :
  exists w',
    onRenameUser this user oldId w = Throw TypeError w'
    /\ heap w' !! this = Some (Destroyed (pageId p) (userName p) oldId)
    /\ lookup_page w' oldId = None
    /\ lookup_page w' (id user) = None
    /\ deliveries (trace w') = deliveries (trace w)
    /\ retractions (trace w') = retractions (trace w).
Proof.
  pose proof Hreg as (Hkey & Hobj & Hu).
  assert (Hlt : this < length (heap w)) by (eapply lookup_lt_Some; eauto).
  rewrite (onRenameUser_new_present this user oldId w p p this Hdistinct Hobj Hreg
             (hasKey_inherited _ _ Hinh)).
  rewrite decide_True by reflexivity.
  eexists. split; [reflexivity|]. unfold lookup_page. cbn.
  rewrite lookup_delete_eq, lookup_delete_ne, Hnone by exact Hdistinct. cbn.
  rewrite list_lookup_insert_eq by exact Hlt.
  unfold unrefProperties. rewrite Hu.
  split; [reflexivity|]. split; [reflexivity|]. split; [reflexivity|].
  unfold deliveries, retractions. rewrite !filter_app, !length_app.
  rewrite (componentDestroy_neutral isDelivery), (componentDestroy_neutral isRetraction)
    by reflexivity.
  lia.
Qed.
End InheritedNames.

Section InheritedNameSamples.
Existing Instance Sample.collaborators.
Existing Instance Sample.pageType.

Lemma onRenameUser_inherited_old_id_witness :
  pageList Sample.aliceWorld !! "alice" = Some 0
  /\ inherited "constructor" = true
  /\ pageList Sample.aliceWorld !! "constructor" = None
  /\ hasKey (pageList Sample.aliceWorld) "bob" = false
  /\ exists w',
       onRenameUser 0 Sample.bob "constructor" Sample.aliceWorld = Ok tt w'
       /\ pageList w' !! "alice" = Some 0
       /\ pageList w' !! "bob" = Some 0
       /\ ~ registry_ok w'.
Proof.
  assert (Hreg : exists p, heap Sample.aliceWorld !! 0 = Some (Live p)
                           /\ userId p = "alice"
                           /\ pageList Sample.aliceWorld !! userId p = Some 0).
  { eexists. repeat split; vm_compute; reflexivity. }
  destruct Hreg as (p & Hobj & Hu & Hkey).
  assert (Hinh : inherited "constructor" = true) by reflexivity.
  assert (Hnone : pageList Sample.aliceWorld !! "constructor" = None)
    by (vm_compute; reflexivity).
  assert (Hfree : hasKey (pageList Sample.aliceWorld) (id Sample.bob) = false)
    by (vm_compute; reflexivity).
  assert (Hdistinct : "constructor" <> id Sample.bob) by discriminate.
  split; [rewrite <- Hu; exact Hkey|]. split; [exact Hinh|]. split; [exact Hnone|].
  split; [exact Hfree|].
  destruct (onRenameUser_inherited_old_id 0 Sample.bob "constructor" Sample.aliceWorld p
              (conj Hkey (conj Hobj eq_refl)) Hinh Hnone Hdistinct Hfree)
    as (w' & Hrun & Hpl & _ & _ & _ & _ & Hbroken).
  exists w'. split; [exact Hrun|]. rewrite Hpl.
  split; [|split; [|exact Hbroken]].
  - rewrite lookup_insert_ne by discriminate. rewrite <- Hu. exact Hkey.
  - apply lookup_insert_eq.
Defined.

Lemma onRenameUser_to_inherited_name_witness :
  pageList Sample.aliceWorld !! "alice" = Some 0
  /\ inherited "constructor" = true
  /\ pageList Sample.aliceWorld !! "constructor" = None
  /\ exists w',
       onRenameUser 0 Sample.constructorUser "alice" Sample.aliceWorld = Throw TypeError w'
       /\ heap w' !! 0 = Some (Destroyed "shop" "Alice" "alice")
       /\ lookup_page w' "alice" = None
       /\ lookup_page w' "constructor" = None
       /\ retractions (trace w') = 0.
Proof.
  assert (Hreg : exists p, registered Sample.aliceWorld "alice" 0 p
                           /\ pageId p = "shop" /\ userName p = "Alice").
  { eexists. split; [repeat split; vm_compute; reflexivity|]. split; reflexivity. }
  destruct Hreg as (p & Hreg & Hi & Hn).
  assert (Hinh : inherited (id Sample.constructorUser) = true) by reflexivity.
  assert (Hnone : pageList Sample.aliceWorld !! id Sample.constructorUser = None)
    by (vm_compute; reflexivity).
  assert (Hdistinct : "alice" <> id Sample.constructorUser) by discriminate.
  split; [exact (proj1 Hreg)|]. split; [exact Hinh|]. split; [exact Hnone|].
  destruct (onRenameUser_to_inherited_name 0 Sample.constructorUser "alice"
              Sample.aliceWorld p Hreg Hdistinct Hinh Hnone)
    as (w' & Hrun & Hclosed & Hold & Hnew & _ & Hretract).
  exists w'. rewrite Hi, Hn in Hclosed.
  split; [exact Hrun|]. split; [exact Hclosed|]. split; [exact Hold|].
  split; [exact Hnew|]. rewrite Hretract. reflexivity.
Defined.
End InheritedNameSamples.

(** ** Identities in use *)

Section IdentitiesInUse.
Context `{Collaborators} `{PageType}.















End IdentitiesInUse.

Section IdentitySamples.
Existing Instance Sample.collaborators.
Existing Instance Sample.pageType.

End IdentitySamples.

(** ** Ribbon ids that name an inherited member *)

Section ShopInheritedNames.
Context `{Collaborators} `{ShopSetting}.
Local Existing Instance shopPageType.


End ShopInheritedNames.

Section ShopInheritedNameSamples.
Existing Instance Sample.collaborators.
Existing Instance SampleMore.shopTypes.
Existing Instance SampleMore.shopSetting.
Existing Instance SampleMore.shop.

End ShopInheritedNameSamples.
